(** * EcoTrip: the emissions and scoring pipeline

    A shallow embedding of the backend services that turn a trip request
    into a stored trip:

    - [CarbonService], the emission calculators and the green score;
    - [OpenAIService], the itinerary draft, its normalisation and the
      template used when the provider fails;
    - [ItineraryService], the orchestration in [generateTrip] and the
      total cost.

    JavaScript numbers are modelled by exact rationals ([Q]); [NaN], the
    infinities and binary rounding error are outside the model.  Numeric
    results are therefore compared with [==] ([Qeq]).  Objects are finite
    maps from property names to values, so that reading a property an
    object does not carry yields [undefined] exactly as in the source. *)

From Stdlib Require Import QArith Qround Lqa ZArith Lia Ascii String.
From stdpp Require Import gmap strings list fin_maps pretty.

Local Open Scope Q_scope.

Set Warnings "-register-all".

(** ** Numbers *)

Module JsMath.

(** [Math.round]: the nearest integer, halves going up. *)
Definition round (x : Q) : Z := Qfloor (x + (1 # 2)).

(** [Math.round(x * 100) / 100]. *)
Definition round2 (x : Q) : Q := inject_Z (round (x * 100)) / 100.

Definition max (x y : Q) : Q := if Qle_bool x y then y else x.
Definition min (x y : Q) : Q := if Qle_bool x y then x else y.

(** [x < y] on numbers. *)
Definition ltb (x y : Q) : bool := negb (Qle_bool y x).

(** A number is falsy exactly when it is zero. *)
Definition falsy (x : Q) : bool := Qeq_bool x 0.

End JsMath.

(** ** Values and objects *)

(** A JavaScript value as the pipeline sees it: what [JSON.parse] can
    return, plus [undefined].  An object is the finite map of its own
    properties. *)
Inductive value : Type :=
| VUndef
| VNull
| VBool (b : bool)
| VNum (q : Q)
| VStr (s : string)
| VArr (items : list value)
| VObj (props : gmap string value).

Abbreviation object := (gmap string value).

(** How a piece of the program completes.  [Coerce] marks a step at which
    JavaScript would convert a non-number operand implicitly (an addition
    or a comparison on a string, boolean, array or object); the model
    follows the program on numbers only and stops there. *)
Inductive outcome (A : Type) : Type :=
| Ret (a : A)
| Throw
| Coerce.

Arguments Ret {A} a.
Arguments Throw {A}.
Arguments Coerce {A}.

#[global] Instance outcome_ret : MRet outcome := fun A a => Ret a.

#[global] Instance outcome_bind : MBind outcome := fun A B f m =>
  match m with
  | Ret a => f a
  | Throw => Throw
  | Coerce => Coerce
  end.

(** [try { body } catch { handler }]. *)
Definition try_catch {A : Type} (body handler : outcome A) : outcome A :=
  match body with
  | Throw => handler
  | completed => completed
  end.

Fixpoint foldM {A B : Type} (f : B -> A -> outcome B) (l : list A) (b : B)
  : outcome B :=
  match l with
  | [] => Ret b
  | a :: l' => b' ← f b a; foldM f l' b'
  end.

(** [Array.prototype.map] with a callback that may throw; the callback
    receives the element and its index. *)
Fixpoint mapM_from {A B : Type} (f : nat -> A -> outcome B) (i : nat)
  (l : list A) : outcome (list B) :=
  match l with
  | [] => Ret []
  | a :: l' => b ← f i a; bs ← mapM_from f (S i) l'; Ret (b :: bs)
  end.

Module Js.

Definition truthy (v : value) : bool :=
  match v with
  | VUndef | VNull => false
  | VBool b => b
  | VNum q => negb (JsMath.falsy q)
  | VStr s => negb (String.eqb s "")
  | VArr _ | VObj _ => true
  end.

(** [a || b] *)
Definition or (a b : value) : value := if truthy a then a else b.

(** [Array.isArray] *)
Definition isArray (v : value) : bool :=
  match v with VArr _ => true | _ => false end.

(** [v.k] for the data properties the pipeline reads.  None of them is
    a property of a primitive or of an array, so only objects answer;
    reading from [null] or [undefined] is a [TypeError]. *)
Definition get (v : value) (k : string) : outcome value :=
  match v with
  | VObj o => Ret (default VUndef (o !! k))
  | VUndef | VNull => Throw
  | _ => Ret VUndef
  end.

(** A numeric operand of [+], [*], [<=] or [>]. *)
Definition num (v : value) : outcome Q :=
  match v with VNum q => Ret q | _ => Coerce end.

(** A query parameter that has to be text. *)
Definition str (v : value) : outcome string :=
  match v with VStr s => Ret s | _ => Coerce end.

(** [total + x] with [total] a number. *)
Definition add (total : Q) (x : value) : outcome Q :=
  q ← num x; Ret (total + q).

Definition lowerAscii (c : ascii) : ascii :=
  let n := nat_of_ascii c in
  if (Nat.leb 65 n && Nat.leb n 90)%bool then ascii_of_nat (n + 32) else c.

Fixpoint lowerString (s : string) : string :=
  match s with
  | EmptyString => EmptyString
  | String c s' => String (lowerAscii c) (lowerString s')
  end.

(** [v.toLowerCase()]: only strings have the method.  Letters outside
    ASCII are left as they are. *)
Definition toLowerCase (v : value) : outcome string :=
  match v with VStr s => Ret (lowerString s) | _ => Throw end.

(** [for (const x of v)]: arrays and strings are iterable. *)
Definition iterate (v : value) : outcome (list value) :=
  match v with
  | VArr l => Ret l
  | VStr s => Ret ((fun c => VStr (String c EmptyString)) <$>
                     list_ascii_of_string s)
  | _ => Throw
  end.

(** [{...v}]: the own enumerable properties of [v]. *)
Definition spread (v : value) : gmap string value :=
  match v with
  | VObj o => o
  | VArr l => list_to_map (imap (fun i x => (pretty i, x)) l)
  | VStr s => list_to_map
                (imap (fun i c => (pretty i, VStr (String c EmptyString)))
                   (list_ascii_of_string s))
  | _ => ∅
  end.

(** An object literal. *)
Definition obj (fields : list (string * value)) : value :=
  VObj (list_to_map fields).

(** An integer as a number value. *)
Definition ofZ (n : Z) : value := VNum (inject_Z n).
Definition ofNat (n : nat) : value := VNum (inject_Z (Z.of_nat n)).

End Js.

(** ** The emission-factor store *)

(** What [EmissionFactor.findByCategoryAndSubCategory] finds for a
    (category, sub-category) pair: the active row, of which the services
    read [parseFloat(row.factor_kg_per_unit)]; no row; or a failed query. *)
Inductive QueryResult : Type :=
| Row (factor_kg_per_unit : Q)
| NoRow
| QueryError.

Definition FactorStore : Type := string -> string -> QueryResult.

Definition findByCategoryAndSubCategory (db : FactorStore)
  (category subCategory : string) : outcome (option Q) :=
  match db category subCategory with
  | Row f => Ret (Some f)
  | NoRow => Ret None
  | QueryError => Throw
  end.

(** The rows of the seed script, all active. *)
Definition seededFactors : FactorStore := fun category subCategory =>
  if String.eqb category "transport" then
    if String.eqb subCategory "flight_short_haul" then Row 0.255
    else if String.eqb subCategory "flight_medium_haul" then Row 0.156
    else if String.eqb subCategory "flight_long_haul" then Row 0.195
    else if String.eqb subCategory "flight_domestic" then Row 0.255
    else if String.eqb subCategory "train_national" then Row 0.041
    else if String.eqb subCategory "train_international" then Row 0.006
    else if String.eqb subCategory "train_light_rail" then Row 0.035
    else if String.eqb subCategory "train_underground" then Row 0.031
    else if String.eqb subCategory "bus_local" then Row 0.105
    else if String.eqb subCategory "bus_coach" then Row 0.028
    else if String.eqb subCategory "car_small" then Row 0.142
    else if String.eqb subCategory "car_medium" then Row 0.171
    else if String.eqb subCategory "car_large" then Row 0.209
    else if String.eqb subCategory "car_average" then Row 0.171
    else if String.eqb subCategory "car_electric" then Row 0.047
    else if String.eqb subCategory "taxi_regular" then Row 0.211
    else if String.eqb subCategory "taxi_black_cab" then Row 0.225
    else if String.eqb subCategory "motorcycle_small" then Row 0.084
    else if String.eqb subCategory "motorcycle_large" then Row 0.135
    else if String.eqb subCategory "ferry_foot" then Row 0.019
    else if String.eqb subCategory "ferry_car" then Row 0.129
    else if String.eqb subCategory "bicycle" then Row 0.0
    else if String.eqb subCategory "walking" then Row 0.0
    else NoRow
  else if String.eqb category "accommodation" then
    if String.eqb subCategory "hotel_budget" then Row 15.2
    else if String.eqb subCategory "hotel_standard" then Row 20.9
    else if String.eqb subCategory "hotel_luxury" then Row 35.5
    else if String.eqb subCategory "hostel" then Row 8.5
    else if String.eqb subCategory "eco_lodge" then Row 5.2
    else if String.eqb subCategory "airbnb" then Row 12.5
    else if String.eqb subCategory "camping" then Row 2.5
    else NoRow
  else if String.eqb category "activity" then
    if String.eqb subCategory "museum_indoor" then Row 2.0
    else if String.eqb subCategory "outdoor_activity" then Row 0.5
    else if String.eqb subCategory "restaurant_meal" then Row 3.5
    else if String.eqb subCategory "fast_food_meal" then Row 2.1
    else if String.eqb subCategory "cafe_snack" then Row 0.8
    else if String.eqb subCategory "shopping_mall" then Row 1.0
    else if String.eqb subCategory "entertainment_venue" then Row 1.5
    else if String.eqb subCategory "theme_park" then Row 8.5
    else if String.eqb subCategory "spa_wellness" then Row 4.2
    else if String.eqb subCategory "water_sports" then Row 6.5
    else if String.eqb subCategory "tour_guided" then Row 3.0
    else NoRow
  else NoRow.

(** ** CarbonService *)

(** The four figures [calculateTripEmissions] returns. *)
Record Emissions : Type := {
  transport : Q;
  accommodation : Q;
  activities : Q;
  total : Q
}.

Module CarbonService.

Definition modeMap : gmap string string :=
  list_to_map [
    ("car", "car_average");
    ("train", "train_national");
    ("bus", "bus_local");
    ("flight", "flight_medium_haul");
    ("taxi", "taxi_regular");
    ("bicycle", "bicycle");
    ("walking", "walking")
  ].

Definition activityMap : gmap string string :=
  list_to_map [
    ("museum", "museum_indoor");
    ("restaurant", "restaurant_meal");
    ("cafe", "cafe_snack");
    ("shopping", "shopping_mall");
    ("hiking", "outdoor_activity");
    ("tour", "tour_guided");
    ("outdoor", "outdoor_activity")
  ].

(** [map[lower] || mode] once [mode.toLowerCase()] has returned [lower]:
    [mode] is then a string, and every table entry is a non-empty string.
    The tables are read by their own keys. *)
Definition lookupOr (map : gmap string string) (lower : string)
  (mode : value) : string :=
  match map !! lower with
  | Some subCategory => subCategory
  | None => match mode with VStr s => s | _ => lower end
  end.

Definition calculateTransportEmissions (db : FactorStore)
  (mode distanceKm : value) : outcome Q :=
  if negb (Js.truthy mode) || negb (Js.truthy distanceKm) then Ret 0
  else
    d ← Js.num distanceKm;
    if Qle_bool d 0 then Ret 0
    else
      try_catch
        (lower ← Js.toLowerCase mode;
         let subCategory := lookupOr modeMap lower mode in
         factor ← findByCategoryAndSubCategory db "transport" subCategory;
         match factor with
         | None =>
             defaultFactor ←
               findByCategoryAndSubCategory db "transport" "car_average";
             match defaultFactor with
             | Some f => Ret (d * f)
             | None => Ret (d * 0.171)
             end
         | Some f => Ret (d * f)
         end)
        (Ret 0).

Definition calculateAccommodationEmissions (db : FactorStore)
  (type nights : value) : outcome Q :=
  if negb (Js.truthy type) || negb (Js.truthy nights) then Ret 0
  else
    n ← Js.num nights;
    if Qle_bool n 0 then Ret 0
    else
      try_catch
        (subCategory ← Js.str type;
         factor ←
           findByCategoryAndSubCategory db "accommodation" subCategory;
         match factor with
         | None =>
             defaultFactor ←
               findByCategoryAndSubCategory db "accommodation"
                 "hotel_standard";
             match defaultFactor with
             | Some f => Ret (n * f)
             | None => Ret (n * 20.9)
             end
         | Some f => Ret (n * f)
         end)
        (Ret 0).

Definition calculateActivityEmissions (db : FactorStore)
  (activityType : value) (count : Q) : outcome Q :=
  if negb (Js.truthy activityType) || Qle_bool count 0 then Ret 0
  else
    try_catch
      (lower ← Js.toLowerCase activityType;
       let subCategory := lookupOr activityMap lower activityType in
       factor ← findByCategoryAndSubCategory db "activity" subCategory;
       match factor with
       | None => Ret (count * 1.5)
       | Some f => Ret (count * f)
       end)
      (Ret 0).

(** The body of the inner [for] loop: one activity of one day.  The
    accumulator is (transportEmissions, activityEmissions). *)
Definition activityStep (db : FactorStore) (acc : Q * Q) (activity : value)
  : outcome (Q * Q) :=
  let '(transportEmissions, activityEmissions) := acc in
  category ← Js.get activity "category";
  activityEmissions ←
    (if Js.truthy category
     then e ← calculateActivityEmissions db category 1;
          Ret (activityEmissions + e)
     else Ret activityEmissions);
  transport_distance_km ← Js.get activity "transport_distance_km";
  transport_mode ← Js.get activity "transport_mode";
  transportEmissions ←
    (if Js.truthy transport_distance_km && Js.truthy transport_mode
     then e ← calculateTransportEmissions db transport_mode
                transport_distance_km;
          Ret (transportEmissions + e)
     else Ret transportEmissions);
  Ret (transportEmissions, activityEmissions).

(** The body of the outer [for] loop: one day. *)
Definition dayStep (db : FactorStore) (acc : Q * Q) (day : value)
  : outcome (Q * Q) :=
  dayActivities ← Js.get day "activities";
  if Js.truthy dayActivities
  then items ← Js.iterate dayActivities; foldM (activityStep db) items acc
  else Ret acc.

(** The band of the long-distance leg. *)
Definition flightMode (destination_distance_km : Q) : string :=
  if JsMath.ltb 3700 destination_distance_km then "flight_long_haul"
  else if JsMath.ltb 500 destination_distance_km then "flight_medium_haul"
  else "flight_short_haul".

(** The [try] block up to the three accumulated sums, in the order
    (transportEmissions, accommodationEmissions, activityEmissions). *)
Definition components (db : FactorStore) (tripData : value)
  : outcome (Q * Q * Q) :=
  accommodation_preference ← Js.get tripData "accommodation_preference";
  nights ← Js.get tripData "nights";
  accommodationEmissions ←
    (if Js.truthy accommodation_preference && Js.truthy nights
     then calculateAccommodationEmissions db accommodation_preference nights
     else Ret 0);
  itinerary ← Js.get tripData "itinerary";
  '(transportEmissions, activityEmissions) ←
    (if Js.truthy itinerary
     then days ← Js.get itinerary "days";
          if Js.truthy days
          then items ← Js.iterate days; foldM (dayStep db) items (0, 0)
          else Ret (0, 0)
     else Ret (0, 0));
  destination_distance_km ← Js.get tripData "destination_distance_km";
  transportEmissions ←
    (if Js.truthy destination_distance_km
     then d ← Js.num destination_distance_km;
          if JsMath.ltb 100 d
          then let roundTripDistance := d * 2 in
               e ← calculateTransportEmissions db (VStr (flightMode d))
                     (VNum roundTripDistance);
               Ret (transportEmissions + e)
          else Ret transportEmissions
     else Ret transportEmissions);
  Ret (transportEmissions, accommodationEmissions, activityEmissions).

Definition zero : Emissions :=
  {| transport := 0; accommodation := 0; activities := 0; total := 0 |}.

Definition calculateTripEmissions (db : FactorStore) (tripData : value)
  : outcome Emissions :=
  try_catch
    ('(transportEmissions, accommodationEmissions, activityEmissions) ←
       components db tripData;
     let totalEmissions :=
       transportEmissions + accommodationEmissions + activityEmissions in
     Ret {| transport := JsMath.round2 transportEmissions;
            accommodation := JsMath.round2 accommodationEmissions;
            activities := JsMath.round2 activityEmissions;
            total := JsMath.round2 totalEmissions |})
    (Ret zero).

(** The argument object [{ accommodation_preference, nights, itinerary,
    destination_distance_km }]. *)
Definition input (accommodation_preference nights itinerary
  destination_distance_km : value) : value :=
  Js.obj [
    ("accommodation_preference", accommodation_preference);
    ("nights", nights);
    ("itinerary", itinerary);
    ("destination_distance_km", destination_distance_km)
  ].

(** The five branch formulas of the piecewise curve. *)
Definition branchExcellent (d : Q) : Q := 100 - d * 2.
Definition branchGood (d : Q) : Q := 90 - (d - 5) * 4.
Definition branchAverage (d : Q) : Q := 50 - (d - 15) * 2.
Definition branchHigh (d : Q) : Q := 20 - (d - 30) * (5 # 10).
Definition branchVeryHigh (d : Q) : Q := JsMath.max 0 (10 - (d - 50) * (2 # 10)).

(** The [if]/[else if] chain applied to the average daily emissions. *)
Definition scoreCurve (dailyEmissions : Q) : Q :=
  if JsMath.ltb dailyEmissions 5 then branchExcellent dailyEmissions
  else if JsMath.ltb dailyEmissions 15 then branchGood dailyEmissions
  else if JsMath.ltb dailyEmissions 30 then branchAverage dailyEmissions
  else if JsMath.ltb dailyEmissions 50 then branchHigh dailyEmissions
  else branchVeryHigh dailyEmissions.

Definition calculateGreenScore (totalCarbonKg tripDays : Q) : Z :=
  if JsMath.falsy totalCarbonKg || JsMath.falsy tripDays || Qle_bool tripDays 0
  then 0%Z
  else
    let dailyEmissions := totalCarbonKg / tripDays in
    Z.max 0 (Z.min 100 (JsMath.round (scoreCurve dailyEmissions))).

End CarbonService.

(** ** Calendar dates *)

(** A [Date] that stands for a calendar day is kept as the number of days
    since 1970-01-01.  The server is taken to run in UTC, so that
    [setDate] and [toISOString] agree on the day. *)
Module Calendar.
Local Open Scope Z_scope.

(** (year, month, day) of a day number, in the proleptic Gregorian
    calendar. *)
Definition civil (days : Z) : Z * Z * Z :=
  let z := days + 719468 in
  let era := z / 146097 in
  let doe := z - era * 146097 in
  let yoe := (doe - doe / 1460 + doe / 36524 - doe / 146096) / 365 in
  let doy := doe - (365 * yoe + yoe / 4 - yoe / 100) in
  let mp := (5 * doy + 2) / 153 in
  let d := doy - (153 * mp + 2) / 5 + 1 in
  let m := if mp <? 10 then mp + 3 else mp - 9 in
  let y := yoe + era * 400 + (if m <=? 2 then 1 else 0) in
  (y, m, d).

(** Decimal digits of [n], padded with zeros to [width]. *)
Definition padded (width : nat) (n : Z) : string :=
  let digits := pretty n in
  String.concat "" (replicate (width - String.length digits) "0"%string)
    +:+ digits.

(** [date.toISOString().split('T')[0]] for the years 0000 to 9999. *)
Definition isoDate (days : Z) : string :=
  let '(y, m, d) := civil days in
  padded 4 y +:+ "-" +:+ padded 2 m +:+ "-" +:+ padded 2 d.

(** [differenceInDays(later, earlier)] on calendar days. *)
Definition differenceInDays (later earlier : Z) : Z := later - earlier.

End Calendar.

(** ** The trip request *)

(** The request body once [tripGenerationSchema] has accepted it. *)
Record TripRequest : Type := {
  destination : string;
  start_date : Z;
  end_date : Z;
  budget : Q;
  interests : list string;
  travel_style : string;
  accommodation_preference : string;
  transport_preference : string
}.

(** [differenceInDays(new Date(end_date), new Date(start_date)) + 1] *)
Definition numDaysOf (tripData : TripRequest) : Z :=
  (Calendar.differenceInDays (end_date tripData) (start_date tripData) + 1)%Z.

(** ** OpenAIService *)

(** What the completion call and [JSON.parse] of its content yield: a
    parsed draft, or an exception (timeout, quota, malformed JSON). *)
Inductive AiReply : Type :=
| Draft (itinerary : value)
| ProviderFailure.

Module OpenAIService.

(** The object built for one activity of day [index], at position
    [actIndex] of its list. *)
Definition enhanceActivity (index actIndex : nat) (activity : value)
  : outcome value :=
  id ← Js.get activity "id";
  time ← Js.get activity "time";
  title ← Js.get activity "title";
  name ← Js.get activity "name";
  location ← Js.get activity "location";
  duration_hours ← Js.get activity "duration_hours";
  estimated_cost ← Js.get activity "estimated_cost";
  cost ← Js.get activity "cost";
  carbon_kg ← Js.get activity "carbon_kg";
  type ← Js.get activity "type";
  category ← Js.get activity "category";
  description ← Js.get activity "description";
  transport_mode ← Js.get activity "transport_mode";
  eco_alternative ← Js.get activity "eco_alternative";
  sustainability_tip ← Js.get activity "sustainability_tip";
  Ret (Js.obj [
    ("id", Js.or id
             (VStr (pretty (index + 1)%nat +:+ "-" +:+
                    pretty (actIndex + 1)%nat)));
    ("time", Js.or time (VStr "09:00"));
    ("title", Js.or title (Js.or name (VStr "Unnamed Activity")));
    ("location", Js.or location (VStr ""));
    ("duration_hours", Js.or duration_hours (VNum 2));
    ("estimated_cost", Js.or estimated_cost (Js.or cost (VNum 0)));
    ("carbon_kg", Js.or carbon_kg (VNum 1.5));
    ("type", Js.or type (Js.or category (VStr "tour")));
    ("description", Js.or description (VStr ""));
    ("transport_mode", Js.or transport_mode (VStr "walking"));
    ("eco_alternative",
       Js.or eco_alternative (Js.or sustainability_tip (VStr "")))
  ]).

(** The callback of [itinerary.days.map]. *)
Definition enhanceDay (startDate : Z) (index : nat) (day : value)
  : outcome value :=
  dayNumber ← Js.get day "day";
  dayActivities ← Js.get day "activities";
  items ←
    (if Js.truthy dayActivities
     then match dayActivities with VArr l => Ret l | _ => Throw end
     else Ret []);
  enhanced ← mapM_from (enhanceActivity index) 0 items;
  Ret (VObj
         (<["activities" := VArr enhanced]>
            (<["date" := VStr (Calendar.isoDate
                                 (startDate + Z.of_nat index))]>
               (<["day" := Js.or dayNumber (Js.ofNat (index + 1))]>
                  (Js.spread day))))).

(** The callback of [itinerary.days.reduce]. *)
Definition addDailyCost (sum : Q) (day : value) : outcome Q :=
  daily_cost ← Js.get day "daily_cost";
  Js.add sum (Js.or daily_cost (VNum 0)).

(** Only an object can carry a [days] array, so every other draft ends
    in the [Invalid itinerary structure] error (or in the [TypeError] of
    reading [days] from [null]). *)
Definition validateAndEnhanceItinerary (itinerary : value)
  (tripData : TripRequest) : outcome object :=
  days ← Js.get itinerary "days";
  if negb (Js.truthy days) || negb (Js.isArray days) then Throw
  else
    match itinerary, days with
    | VObj o, VArr items =>
        newDays ← mapM_from (enhanceDay (start_date tripData)) 0 items;
        let o := <["days" := VArr newDays]> o in
        o ← (if negb (Js.truthy (default VUndef (o !! "estimated_total_cost")))
             then sum ← foldM addDailyCost newDays 0;
                  Ret (<["estimated_total_cost" := VNum sum]> o)
             else Ret o);
        Ret (if negb (Js.truthy (default VUndef (o !! "sustainability_score")))
             then <["sustainability_score" := VNum 75]> o
             else o)
    | _, _ => Throw
    end.

(** The five activities of a template day. *)
Definition demoActivities (day : nat) (destination : string) : list value :=
  [ Js.obj [
      ("id", VStr (pretty day +:+ "-1"));
      ("time", VStr "09:00");
      ("title", VStr ("Morning Exploration of " +:+ destination));
      ("location", VStr ("Central " +:+ destination));
      ("duration_hours", VNum 2);
      ("estimated_cost", VNum 0);
      ("carbon_kg", VNum 0.5);
      ("type", VStr "outdoor_activity");
      ("description",
         VStr "Start your day with a walking tour of the city center");
      ("transport_mode", VStr "walking");
      ("eco_alternative",
         VStr "Walking is the most eco-friendly way to explore") ];
    Js.obj [
      ("id", VStr (pretty day +:+ "-2"));
      ("time", VStr "11:30");
      ("title", VStr "Local Museum Visit");
      ("location", VStr "City Museum");
      ("duration_hours", VNum 2);
      ("estimated_cost", VNum 15);
      ("carbon_kg", VNum 2.0);
      ("type", VStr "museum");
      ("description", VStr "Explore local history and culture");
      ("transport_mode", VStr "walking");
      ("eco_alternative", VStr "Support local cultural institutions") ];
    Js.obj [
      ("id", VStr (pretty day +:+ "-3"));
      ("time", VStr "13:30");
      ("title", VStr "Lunch at Local Restaurant");
      ("location", VStr "Local Cuisine Restaurant");
      ("duration_hours", VNum 1.5);
      ("estimated_cost", VNum 25);
      ("carbon_kg", VNum 3.5);
      ("type", VStr "restaurant");
      ("description",
         VStr "Try authentic local dishes made with seasonal ingredients");
      ("transport_mode", VStr "walking");
      ("eco_alternative",
         VStr "Choose restaurants using locally-sourced ingredients") ];
    Js.obj [
      ("id", VStr (pretty day +:+ "-4"));
      ("time", VStr "15:30");
      ("title", VStr "Afternoon Cultural Experience");
      ("location", VStr "Historic District");
      ("duration_hours", VNum 2);
      ("estimated_cost", VNum 10);
      ("carbon_kg", VNum 1.5);
      ("type", VStr "tour");
      ("description", VStr "Guided walking tour of historic landmarks");
      ("transport_mode", VStr "walking");
      ("eco_alternative",
         VStr "Walking tours have zero carbon footprint") ];
    Js.obj [
      ("id", VStr (pretty day +:+ "-5"));
      ("time", VStr "18:00");
      ("title", VStr "Evening Leisure");
      ("location", VStr "City Park");
      ("duration_hours", VNum 1);
      ("estimated_cost", VNum 0);
      ("carbon_kg", VNum 0);
      ("type", VStr "outdoor_activity");
      ("description",
         VStr "Relax in a local park and enjoy the atmosphere");
      ("transport_mode", VStr "walking");
      ("eco_alternative",
         VStr "Public parks are free and eco-friendly") ] ].

(** The object pushed by one round of the [for] loop. *)
Definition demoDay (tripData : TripRequest) (day : nat) : value :=
  let numDays := numDaysOf tripData in
  let dayDate := (start_date tripData + (Z.of_nat day - 1))%Z in
  let dailyBudget :=
    JsMath.round (budget tripData / inject_Z numDays * 0.8) in
  Js.obj [
    ("day", Js.ofNat day);
    ("date", VStr (Calendar.isoDate dayDate));
    ("theme",
       VStr (if Nat.eqb day 1 then "Arrival & Exploration"
             else if Z.eqb (Z.of_nat day) numDays
                  then "Final Day & Departure"
                  else "Discover " +:+ destination tripData));
    ("activities", VArr (demoActivities day (destination tripData)));
    ("meals", Js.obj [
       ("breakfast", VStr "Hotel breakfast or local bakery");
       ("lunch", VStr "Local restaurant with seasonal menu");
       ("dinner", VStr "Traditional local cuisine") ]);
    ("daily_cost", Js.ofZ dailyBudget)
  ].

Definition generateDemoItinerary (tripData : TripRequest)
  : outcome object :=
  let numDays := numDaysOf tripData in
  let demoItinerary :=
    Js.obj [
      ("summary",
         VStr ("An eco-friendly " +:+ pretty numDays +:+
               "-day adventure in " +:+ destination tripData +:+
               " with sustainable transportation, local experiences, and carbon-conscious activities. This is a DEMO itinerary showing the platform's capabilities."));
      ("sustainability_score", VNum 85);
      ("estimated_total_cost",
         VNum (JsMath.min (budget tripData * 0.9)
                 (budget tripData - 100)));
      ("days",
         VArr (demoDay tripData <$> seq 1 (Z.to_nat numDays)));
      ("packing_tips", VArr [
         VStr "Reusable water bottle";
         VStr "Eco-friendly toiletries";
         VStr "Comfortable walking shoes";
         VStr "Light, layered clothing";
         VStr "Reusable shopping bag" ]);
      ("eco_tips", VArr [
         VStr "Use public transportation whenever possible";
         VStr "Support local businesses and artisans";
         VStr "Choose restaurants with locally-sourced ingredients";
         VStr "Avoid single-use plastics";
         VStr "Walk or cycle for short distances" ]);
      ("local_customs", VArr [
         VStr "Respect local customs and traditions";
         VStr "Learn a few basic phrases in the local language";
         VStr "Dress appropriately for cultural sites";
         VStr "Ask permission before taking photos of people" ])
    ] in
  validateAndEnhanceItinerary demoItinerary tripData.

(** The prompt only travels to the provider; its reply is [ai]. *)
Definition generateItinerary (ai : AiReply) (tripData : TripRequest)
  : outcome object :=
  try_catch
    (match ai with
     | Draft itinerary => validateAndEnhanceItinerary itinerary tripData
     | ProviderFailure => Throw
     end)
    (generateDemoItinerary tripData).

End OpenAIService.

(** ** ItineraryService *)

(** What [geocodeDestination] returns. *)
Record Location : Type := {
  formatted_address : value;
  latitude : value;
  longitude : value;
  place_id : value
}.

Inductive GeoReply : Type :=
| Located (locationData : Location)
| GeocodeFailure.

(** What [generateTrip] returns. *)
Record Trip : Type := {
  itinerary : object;
  location : Location;
  total_carbon_kg : Q;
  total_cost : Q;
  green_score : Z;
  carbon_breakdown : Emissions
}.

Module ItineraryService.

Definition enhanceItineraryWithPlaceData (itinerary : object)
  (locationData : Location) : object :=
  <["destination_coordinates" :=
      Js.obj [ ("latitude", latitude locationData);
               ("longitude", longitude locationData) ]]> itinerary.

(** The inner loop of [calculateTotalCost]. *)
Definition addActivityCost (total : Q) (activity : value) : outcome Q :=
  cost ← Js.get activity "cost";
  Js.add total (Js.or cost (VNum 0)).

(** The outer loop of [calculateTotalCost]. *)
Definition addDayCost (total : Q) (day : value) : outcome Q :=
  dayActivities ← Js.get day "activities";
  total ←
    (match dayActivities with
     | VArr items => foldM addActivityCost items total
     | _ => Ret total
     end);
  daily_cost ← Js.get day "daily_cost";
  Js.add total (Js.or daily_cost (VNum 0)).

Definition calculateTotalCost (itinerary : value) : outcome Q :=
  days ← Js.get itinerary "days";
  match days with
  | VArr items =>
      total ← foldM addDayCost items 0;
      Ret (JsMath.round2 total)
  | _ => Ret 0
  end.

Definition generateTrip (db : FactorStore) (geo : GeoReply) (ai : AiReply)
  (tripData : TripRequest) : outcome Trip :=
  let locationData :=
    match geo with
    | Located l => l
    | GeocodeFailure =>
        {| formatted_address := VStr (destination tripData);
           latitude := VNum 0;
           longitude := VNum 0;
           place_id := VNull |}
    end in
  itinerary ← OpenAIService.generateItinerary ai tripData;
  let enhancedItinerary :=
    enhanceItineraryWithPlaceData itinerary locationData in
  let numDays := numDaysOf tripData in
  emissions ←
    CarbonService.calculateTripEmissions db
      (CarbonService.input
         (VStr (accommodation_preference tripData))
         (Js.ofZ numDays)
         (VObj enhancedItinerary)
         (VNum 0));
  let greenScore :=
    CarbonService.calculateGreenScore (total emissions) (inject_Z numDays) in
  totalCost ← calculateTotalCost (VObj enhancedItinerary);
  let enhancedItinerary :=
    <["activities_carbon" := VNum (activities emissions)]>
      (<["accommodation_carbon" := VNum (accommodation emissions)]>
         (<["transport_carbon" := VNum (transport emissions)]>
            enhancedItinerary)) in
  Ret {| itinerary := enhancedItinerary;
         location := locationData;
         total_carbon_kg := total emissions;
         total_cost := totalCost;
         green_score := greenScore;
         carbon_breakdown := emissions |}.

End ItineraryService.

(** ** Reading a returned itinerary *)

Module View.

Definition field (v : value) (k : string) : value :=
  match v with VObj o => default VUndef (o !! k) | _ => VUndef end.

Definition daysOf (itinerary : object) : list value :=
  match itinerary !! "days" with Some (VArr days) => days | _ => [] end.

Definition activitiesOf (day : value) : list value :=
  match field day "activities" with VArr items => items | _ => [] end.

Definition keysOf (v : value) : gset string :=
  match v with VObj o => dom o | _ => ∅ end.

(** The number a field holds, and 0 when it holds none. *)
Definition number (v : value) (k : string) : Q :=
  match field v k with VNum q => q | _ => 0 end.

(** The text a field holds, and the empty string when it holds none. *)
Definition text (v : value) (k : string) : string :=
  match field v k with VStr s => s | _ => "" end.

(** Reading the field yields [undefined]. *)
Definition absent (v : value) (k : string) : bool :=
  match field v k with VUndef => true | _ => false end.

End View.

(** The keys of the object [validateAndEnhanceItinerary] builds for an
    activity. *)
Definition activityKeys : gset string :=
  list_to_set [
    "id"; "time"; "title"; "location"; "duration_hours"; "estimated_cost";
    "carbon_kg"; "type"; "description"; "transport_mode"; "eco_alternative"
  ].

(** The accommodation figure [calculateTripEmissions] accumulates for a
    text preference and a number of nights: its guarded call of
    [calculateAccommodationEmissions]. *)
Definition accommodationOf (db : FactorStore) (type : string) (n : Q)
  : outcome Q :=
  if Js.truthy (VStr type) && Js.truthy (VNum n)
  then CarbonService.calculateAccommodationEmissions db (VStr type) (VNum n)
  else Ret 0.

(** The shape of an itinerary after normalisation. *)
Module Shape.

Definition activity (a : value) : Prop :=
  exists o : gmap string value, a = VObj o /\ dom o = activityKeys.

Definition day (d : value) : Prop :=
  exists (o : gmap string value) (items : list value),
    d = VObj o /\ o !! "activities" = Some (VArr items) /\
    Forall activity items.

Definition itinerary (o : gmap string value) : Prop :=
  exists days : list value,
    o !! "days" = Some (VArr days) /\ Forall day days.

(** Day [index] (counted from 0) of the template itinerary for a
    request: its date and number, and the daily pattern of five
    activities reached on foot, with their estimated costs. *)
Definition templateDay (tripData : TripRequest) (index : nat) (d : value)
  : Prop :=
  day d /\
  View.field d "date" =
    VStr (Calendar.isoDate (start_date tripData + Z.of_nat index)) /\
  View.field d "day" = Js.ofNat (S index) /\
  View.field d "daily_cost" =
    Js.ofZ (JsMath.round
              (budget tripData / inject_Z (numDaysOf tripData) * 0.8)) /\
  length (View.activitiesOf d) = 5%nat /\
  (fun a => View.field a "transport_mode") <$> View.activitiesOf d =
    replicate 5 (VStr "walking") /\
  (fun a => View.field a "estimated_cost") <$> View.activitiesOf d =
    [VNum 0; VNum 15; VNum 25; VNum 10; VNum 0].

End Shape.

(** The daily costs of a list of days, added up. *)
Definition dailyCosts (days : list value) : Q :=
  foldr Qplus 0 ((fun d => View.number d "daily_cost") <$> days).

(** The total the specification describes for an itinerary: every
    activity's estimated cost plus every day's daily cost. *)
Definition statedTotalCost (itinerary : object) : Q :=
  foldr Qplus 0
    ((fun d =>
        foldr Qplus 0
          ((fun a => View.number a "estimated_cost") <$> View.activitiesOf d)
        + View.number d "daily_cost") <$> View.daysOf itinerary).

(** ** Sample data *)

Module Sample.

(** A store in which every factor is 0.004 kg per unit. *)
Definition tinyFactors : FactorStore := fun _ _ => Row 0.004.

(** One night, and one day with one museum visit reached by a
    one-kilometre bus ride. *)
Definition tinyTrip : value :=
  CarbonService.input (VStr "hostel") (VNum 1)
    (Js.obj [
       ("days", VArr [
          Js.obj [
            ("activities", VArr [
               Js.obj [ ("category", VStr "museum");
                        ("transport_mode", VStr "bus");
                        ("transport_distance_km", VNum 1) ] ]) ] ]) ])
    VUndef.

(** The end-to-end request of the specification: Paris, 2026-06-01 to
    2026-06-07. *)
Definition paris : TripRequest :=
  {| destination := "Paris, France";
     start_date := 20605;
     end_date := 20611;
     budget := 2000;
     interests := ["culture"; "food"];
     travel_style := "balanced";
     accommodation_preference := "hotel_standard";
     transport_preference := "mixed" |}.

(** A one-day request with a budget of 100. *)
Definition dayTrip : TripRequest :=
  {| destination := "Porto";
     start_date := 20605;
     end_date := 20605;
     budget := 100;
     interests := ["food"];
     travel_style := "budget";
     accommodation_preference := "hostel";
     transport_preference := "train" |}.

(** A draft in the provider's own vocabulary: [name], [cost],
    [category], and a transport leg with a distance. *)
Definition draft : value :=
  Js.obj [
    ("days", VArr [
       Js.obj [
         ("activities", VArr [
            Js.obj [ ("name", VStr "Livraria Lello");
                     ("cost", VNum 8);
                     ("category", VStr "museum");
                     ("transport_mode", VStr "bus");
                     ("transport_distance_km", VNum 12) ] ]);
         ("daily_cost", VNum 60) ] ]) ].

End Sample.

(** * The rest of the services *)

From Stdlib Require Import Sorted.

(** ** Auxiliary notions for the further properties *)

(** Both running sums of the emissions loop are non-negative. *)
Definition bothNonNegative (acc : Q * Q) : Prop := 0 <= fst acc /\ 0 <= snd acc.

(** The object literal of [validateAndEnhanceItinerary] for one activity,
    as a function of the fifteen properties read from the draft and of
    the two positions. *)
Definition activityLiteral (index actIndex : nat)
  (id time title name location duration_hours estimated_cost cost carbon_kg
   type category description transport_mode eco_alternative
   sustainability_tip : value) : value :=
  Js.obj [
    ("id", Js.or id
             (VStr (pretty (index + 1)%nat +:+ "-" +:+
                    pretty (actIndex + 1)%nat)));
    ("time", Js.or time (VStr "09:00"));
    ("title", Js.or title (Js.or name (VStr "Unnamed Activity")));
    ("location", Js.or location (VStr ""));
    ("duration_hours", Js.or duration_hours (VNum 2));
    ("estimated_cost", Js.or estimated_cost (Js.or cost (VNum 0)));
    ("carbon_kg", Js.or carbon_kg (VNum 1.5));
    ("type", Js.or type (Js.or category (VStr "tour")));
    ("description", Js.or description (VStr ""));
    ("transport_mode", Js.or transport_mode (VStr "walking"));
    ("eco_alternative",
       Js.or eco_alternative (Js.or sustainability_tip (VStr "")))
  ].

(** ** CarbonService.getEcoAlternatives *)

(** One suggested alternative. *)
Record Alternative : Type := {
  mode : string;
  emissions_kg : Q;
  savings_kg : Q;
  savings_percent : Z
}.

Module EcoAlternatives.
Import CarbonService.

(** [Array.prototype.sort] with the comparator
    [(a, b) => a.emissions_kg - b.emissions_kg]: the sort is stable, so
    its result is that of inserting each element, from the last to the
    first, in front of the first element that does not emit less. *)
Fixpoint insertAlternative (a : Alternative) (sorted : list Alternative)
  : list Alternative :=
  match sorted with
  | [] => [a]
  | b :: rest =>
      if Qle_bool (emissions_kg a) (emissions_kg b)
      then a :: b :: rest
      else b :: insertAlternative a rest
  end.

Definition sortByEmissions (alternatives : list Alternative)
  : list Alternative :=
  foldr insertAlternative [] alternatives.

(** The options offered for a distance. *)
Definition optionsFor (distanceKm : Q) : list string :=
  if JsMath.ltb distanceKm 500
  then ["train_national"; "bus_local"; "car_electric"]
  else ["train_international"; "bus_coach"].

(** The body of the [for] loop: [alternatives] in the order pushed.  The
    quotient is that of the source wherever [currentEmissions] is not 0,
    as it is whenever an option emits less and the store holds no
    negative factor; the statements about it carry that condition. *)
Definition consider (db : FactorStore) (distanceKm : value)
  (currentEmissions : Q) (alternatives : list Alternative) (option : string)
  : outcome (list Alternative) :=
  emissions ← calculateTransportEmissions db (VStr option) distanceKm;
  if JsMath.ltb emissions currentEmissions
  then
    let savings := currentEmissions - emissions in
    let savingsPercent := JsMath.round (savings / currentEmissions * 100) in
    Ret (alternatives ++
         [{| mode := option;
             emissions_kg := emissions;
             savings_kg := JsMath.round2 savings;
             savings_percent := savingsPercent |}])
  else Ret alternatives.

Definition getEcoAlternatives (db : FactorStore)
  (currentMode distanceKm : value) : outcome (list Alternative) :=
  try_catch
    (currentEmissions ← calculateTransportEmissions db currentMode distanceKm;
     d ← Js.num distanceKm;
     alternatives ← foldM (consider db distanceKm currentEmissions)
                      (optionsFor d) [];
     Ret (sortByEmissions alternatives))
    (Ret []).

End EcoAlternatives.

(** ** ItineraryService.recalculateEmissions *)

Module Recalculated.

(** What [recalculateEmissions] returns. *)
Record t : Type := {
  total_carbon_kg : Q;
  green_score : Z;
  carbon_breakdown : Emissions
}.

End Recalculated.

(** The trip object is built without a destination distance. *)
Definition recalculateEmissions (db : FactorStore) (itinerary : value)
  (numDays : Q) (accommodationType : value) : outcome Recalculated.t :=
  emissions ←
    CarbonService.calculateTripEmissions db
      (Js.obj [ ("accommodation_preference", accommodationType);
                ("nights", VNum numDays);
                ("itinerary", itinerary) ]);
  let greenScore :=
    CarbonService.calculateGreenScore (total emissions) numDays in
  Ret {| Recalculated.total_carbon_kg := total emissions;
         Recalculated.green_score := greenScore;
         Recalculated.carbon_breakdown := emissions |}.

(** The order of the list [getEcoAlternatives] returns. *)
Definition byEmissions (a b : Alternative) : Prop :=
  emissions_kg a <= emissions_kg b.

(** An alternative as [getEcoAlternatives] computes it for a current mode
    and a distance: the current mode emits something, the alternative is
    an option for the distance, emits less and reports the saving. *)
Definition genuine (db : FactorStore) (currentMode distanceKm : value)
  (a : Alternative) : Prop :=
  exists current d,
    CarbonService.calculateTransportEmissions db currentMode distanceKm
    = Ret current /\
    distanceKm = VNum d /\
    0 < current /\
    mode a ∈ EcoAlternatives.optionsFor d /\
    CarbonService.calculateTransportEmissions db (VStr (mode a)) distanceKm
    = Ret (emissions_kg a) /\
    emissions_kg a < current /\
    savings_kg a = JsMath.round2 (current - emissions_kg a) /\
    savings_percent a =
      JsMath.round ((current - emissions_kg a) / current * 100).

(** The [daily_cost || 0] of a day is a number: its daily cost is a
    number, or a value that counts as none. *)
Definition priced (day : value) : bool :=
  match Js.or (View.field day "daily_cost") (VNum 0) with
  | VNum _ => true
  | _ => false
  end.

(** ** GooglePlacesService *)

(** What a call of the Google Maps client yields: the [results] (or
    [rows]) of its response, or an exception. *)
Inductive ClientReply : Type :=
| Results (results : list value)
| ClientError.

(** What the distance-matrix endpoint yields: [rows], each row given by
    its [elements], or an exception. *)
Inductive MatrixReply : Type :=
| Rows (rows : list (list value))
| MatrixError.

(** The client, one function for each endpoint the service calls:
    [geocode] of an address; [placesNearby] of a latitude, a longitude, a
    type and a radius; [placeDetails] of a place id, with the [result] of
    the response or nothing when the call fails; [distancematrix] of the
    coordinates of origin and destination and of a travel mode. *)
Record MapsClient : Type := {
  geocode : string -> ClientReply;
  placesNearby : value -> value -> string -> Q -> ClientReply;
  placeDetails : string -> option value;
  distancematrix : value * value -> value * value -> string -> MatrixReply
}.

(** What [calculateDistance] returns. *)
Record Distance : Type := {
  distance_meters : value;
  distance_km : Q;
  distance_text : value;
  duration_seconds : value;
  duration_minutes : Z;
  duration_text : value;
  travel_mode : string
}.

(** [l.slice(0, limit)] for an integer [limit]: a negative one counts
    from the end. *)
Definition slice0 {A : Type} (limit : Z) (l : list A) : list A :=
  if (limit <? 0)%Z
  then take (Z.to_nat (Z.of_nat (length l) + limit)) l
  else take (Z.to_nat limit) l.

(** [v === s] for a string literal [s]. *)
Definition isString (v : value) (s : string) : bool :=
  match v with VStr t => String.eqb t s | _ => false end.

Fixpoint filterM {A : Type} (keep : A -> outcome bool) (l : list A)
  : outcome (list A) :=
  match l with
  | [] => Ret []
  | a :: l' =>
      k ← keep a; rest ← filterM keep l';
      Ret (if k : bool then a :: rest else rest)
  end.

Module GooglePlacesService.

Definition geocodeDestination (client : MapsClient) (destination : string)
  : outcome Location :=
  match geocode client destination with
  | ClientError => Throw
  | Results [] => Throw
  | Results (result :: _) =>
      formatted_address ← Js.get result "formatted_address";
      geometry ← Js.get result "geometry";
      location ← Js.get geometry "location";
      lat ← Js.get location "lat";
      lng ← Js.get location "lng";
      place_id ← Js.get result "place_id";
      Ret {| formatted_address := formatted_address;
             latitude := lat;
             longitude := lng;
             place_id := place_id |}
  end.

(** The callback of [results.map] in [searchPlaces]. *)
Definition toPlace (place : value) : outcome value :=
  place_id ← Js.get place "place_id";
  name ← Js.get place "name";
  vicinity ← Js.get place "vicinity";
  geometry ← Js.get place "geometry";
  location ← Js.get geometry "location";
  lat ← Js.get location "lat";
  lng ← Js.get location "lng";
  rating ← Js.get place "rating";
  types ← Js.get place "types";
  opening_hours ← Js.get place "opening_hours";
  Ret (Js.obj [
    ("place_id", place_id);
    ("name", name);
    ("address", vicinity);
    ("latitude", lat);
    ("longitude", lng);
    ("rating", rating);
    ("types", types);
    ("opening_hours", opening_hours)
  ]).

(** [searchPlaces] catches everything and answers with a list. *)
Definition searchPlaces (client : MapsClient) (latitude longitude : value)
  (type : string) (radius : Q) : list value :=
  match placesNearby client latitude longitude type radius with
  | ClientError => []
  | Results results =>
      match mapM_from (fun _ => toPlace) 0 results with
      | Ret places => places
      | _ => []
      end
  end.

(** [place.geometry?.location.lat]: [undefined] when there is no
    geometry, an exception when there is a geometry without location. *)
Definition coordinate (place : value) (axis : string) : outcome value :=
  geometry ← Js.get place "geometry";
  match geometry with
  | VUndef | VNull => Ret VUndef
  | _ => location ← Js.get geometry "location"; Js.get location axis
  end.

(** [getPlaceDetails] answers [null] on any failure. *)
Definition getPlaceDetails (client : MapsClient) (placeId : string) : value :=
  match placeDetails client placeId with
  | None => VNull
  | Some place =>
      match
        (name ← Js.get place "name";
         formatted_address ← Js.get place "formatted_address";
         lat ← coordinate place "lat";
         lng ← coordinate place "lng";
         rating ← Js.get place "rating";
         website ← Js.get place "website";
         opening_hours ← Js.get place "opening_hours";
         Ret (Js.obj [
           ("place_id", VStr placeId);
           ("name", name);
           ("address", formatted_address);
           ("latitude", lat);
           ("longitude", lng);
           ("rating", rating);
           ("website", website);
           ("opening_hours", opening_hours)
         ]))
      with
      | Ret details => details
      | _ => VNull
      end
  end.

(** The answer of [calculateDistance] when anything fails. *)
Definition unknownDistance (mode : string) : Distance :=
  {| distance_meters := VNum 0;
     distance_km := 0;
     distance_text := VStr "Unknown";
     duration_seconds := VNum 0;
     duration_minutes := 0;
     duration_text := VStr "Unknown";
     travel_mode := mode |}.

Definition calculateDistance (client : MapsClient) (origin destination : value)
  (mode : string) : outcome Distance :=
  try_catch
    (originLat ← Js.get origin "lat";
     originLng ← Js.get origin "lng";
     destinationLat ← Js.get destination "lat";
     destinationLng ← Js.get destination "lng";
     match distancematrix client (originLat, originLng)
             (destinationLat, destinationLng) mode with
     | MatrixError => Throw
     | Rows [] => Throw
     | Rows (elements :: _) =>
         match elements with
         | [] => Throw
         | element :: _ =>
             status ← Js.get element "status";
             if isString status "OK"
             then
                 distance ← Js.get element "distance";
                 meters ← Js.get distance "value";
                 metres ← Js.num meters;
                 distanceText ← Js.get distance "text";
                 duration ← Js.get element "duration";
                 seconds ← Js.get duration "value";
                 secs ← Js.num seconds;
                 durationText ← Js.get duration "text";
                 Ret {| distance_meters := meters;
                        distance_km :=
                          inject_Z (JsMath.round (metres / 1000 * 10)) / 10;
                        distance_text := distanceText;
                        duration_seconds := seconds;
                        duration_minutes := JsMath.round (secs / 60);
                        duration_text := durationText;
                        travel_mode := mode |}
             else Throw
         end
     end)
    (Ret (unknownDistance mode)).

(** The rating a comparison of two places works with:
    [place.rating || 0]. *)
Definition ratingOf (place : value) : outcome Q :=
  rating ← Js.get place "rating";
  Js.num (Js.or rating (VNum 0)).

(** [sort((a, b) => (b.rating || 0) - (a.rating || 0))]: a stable sort,
    the highest rating first. *)
Fixpoint insertByRating (x : Q * value) (sorted : list (Q * value))
  : list (Q * value) :=
  match sorted with
  | [] => [x]
  | y :: rest =>
      if Qle_bool (fst y) (fst x)
      then x :: y :: rest
      else y :: insertByRating x rest
  end.

(** With fewer than two places the comparator is never called. *)
Definition sortByRating (places : list value) : outcome (list value) :=
  match places with
  | [] | [_] => Ret places
  | _ =>
      keyed ← mapM_from (fun _ p => r ← ratingOf p; Ret (r, p)) 0 places;
      Ret (snd <$> foldr insertByRating [] keyed)
  end.

(** [.filter(p => p.rating).sort(...).slice(0, limit)], the chain shared
    by [getPopularAttractions] and [getRestaurants]. *)
Definition topRated (limit : Z) (places : list value)
  : outcome (list value) :=
  rated ← filterM (fun p => r ← Js.get p "rating"; Ret (Js.truthy r)) places;
  sorted ← sortByRating rated;
  Ret (slice0 limit sorted).

Definition getPopularAttractions (client : MapsClient) (destination : string)
  (limit : Z) : outcome (list value) :=
  try_catch
    (location ← geocodeDestination client destination;
     let attractions :=
       searchPlaces client (latitude location) (longitude location)
         "tourist_attraction" 10000 in
     topRated limit attractions)
    (Ret []).

Definition getRestaurants (client : MapsClient) (latitude longitude : value)
  (limit : Z) : outcome (list value) :=
  try_catch
    (let restaurants :=
       searchPlaces client latitude longitude "restaurant" 2000 in
     topRated limit restaurants)
    (Ret []).

End GooglePlacesService.

(** ** ItineraryService.getEcoRecommendations *)

Record EcoRecommendations : Type := {
  eco_attractions : list value;
  sustainability_tips : list string
}.

Definition getEcoRecommendations (client : MapsClient) (destination : string)
  : EcoRecommendations :=
  match GooglePlacesService.geocodeDestination client destination with
  | Ret locationData =>
      let ecoPlaces :=
        GooglePlacesService.searchPlaces client (latitude locationData)
          (longitude locationData) "park" 10000 in
      {| eco_attractions := slice0 5 ecoPlaces;
         sustainability_tips := [
           "Use public transportation whenever possible";
           "Stay in eco-certified accommodations";
           "Support local businesses and artisans";
           "Bring a reusable water bottle and shopping bag";
           "Choose walking or cycling tours over motorized transport"
         ] |}
  | _ => {| eco_attractions := []; sustainability_tips := [] |}
  end.

(** ** Reading a list of places *)

(** A place the filter [p => p.rating] keeps. *)
Definition rated (place : value) : bool :=
  Js.truthy (View.field place "rating").

(** [a] is rated at least as high as [b]. *)
Definition byRating (a b : value) : Prop :=
  View.number b "rating" <= View.number a "rating".

(** The keys of the object [searchPlaces] builds for a place. *)
Definition placeKeys : gset string :=
  list_to_set [
    "place_id"; "name"; "address"; "latitude"; "longitude"; "rating";
    "types"; "opening_hours"
  ].

(** ** The pipeline with its geocoder *)

(** The inner [try] of [generateTrip] around [geocodeDestination]. *)
Definition located (found : outcome Location) : GeoReply :=
  match found with
  | Ret locationData => Located locationData
  | _ => GeocodeFailure
  end.

Definition generateTripAt (client : MapsClient) (db : FactorStore)
  (ai : AiReply) (tripData : TripRequest) : outcome Trip :=
  ItineraryService.generateTrip db
    (located
       (GooglePlacesService.geocodeDestination client (destination tripData)))
    ai tripData.

(** ** A sample client *)

Module SampleMaps.

Definition at_ (lat lng : Q) : value :=
  Js.obj [ ("location", Js.obj [ ("lat", VNum lat); ("lng", VNum lng) ]) ].

Definition place (id name : string) (rating : value) : value :=
  Js.obj [ ("place_id", VStr id);
           ("name", VStr name);
           ("vicinity", VStr "Porto");
           ("geometry", at_ 41.15 8.61);
           ("rating", rating) ].

Definition leg (status : string) (metres seconds : Q) : value :=
  Js.obj [ ("status", VStr status);
           ("distance", Js.obj [ ("value", VNum metres);
                                 ("text", VStr "12.3 km") ]);
           ("duration", Js.obj [ ("value", VNum seconds);
                                 ("text", VStr "17 mins") ]) ].

(** A client that knows Porto only: three restaurants, one of them
    unrated; four attractions; two parks, one of them without geometry;
    one place with details but no geometry; a route of 12 345 m and
    1 000 s for every mode but walking. *)
Definition porto : MapsClient :=
  {| geocode := fun address =>
       if String.eqb address "Porto"
       then Results [
              Js.obj [ ("formatted_address", VStr "Porto, Portugal");
                       ("geometry", at_ 41.15 8.61);
                       ("place_id", VStr "porto") ];
              Js.obj [ ("formatted_address", VStr "Porto, Corsica");
                       ("geometry", at_ 42.27 8.69);
                       ("place_id", VStr "porto-ota") ] ]
       else Results [];
     placesNearby := fun _ _ type _ =>
       if String.eqb type "restaurant"
       then Results [ place "r1" "Cantinho" (VNum 4.2);
                      place "r2" "Taberna" VUndef;
                      place "r3" "Adega" (VNum 4.7) ]
       else if String.eqb type "tourist_attraction"
       then Results [ place "a1" "Torre" (VNum 4.6);
                      place "a2" "Ponte" (VNum 4.8);
                      place "a3" "Mercado" (VNum 4.6);
                      place "a4" "Estacao" (VNum 4.5) ]
       else if String.eqb type "park"
       then Results [ place "p1" "Jardim" (VNum 4.4);
                      Js.obj [ ("place_id", VStr "p2");
                               ("name", VStr "Parque") ] ]
       else ClientError;
     placeDetails := fun id =>
       if String.eqb id "p2"
       then Some (Js.obj [ ("name", VStr "Parque");
                           ("formatted_address", VStr "Porto") ])
       else None;
     distancematrix := fun _ _ mode =>
       if String.eqb mode "walking"
       then Rows [[ leg "ZERO_RESULTS" 0 0 ]]
       else Rows [[ leg "OK" 12345 1000 ]] |}.

(** A request for a day at a place the client does not know. *)
Definition elsewhere : TripRequest :=
  {| destination := "Atlantis";
     start_date := 20605;
     end_date := 20605;
     budget := 100;
     interests := ["food"];
     travel_style := "budget";
     accommodation_preference := "hostel";
     transport_preference := "train" |}.

End SampleMaps.
(** ** The calendar on sample days *)

Example isoDate_epoch : Calendar.isoDate 0 = "1970-01-01".
Proof. vm_compute. reflexivity. Qed.
Example isoDate_2026 : Calendar.isoDate 20605 = "2026-06-01".
Proof. vm_compute. reflexivity. Qed.
Example isoDate_leap : Calendar.isoDate 19782 = "2024-02-29".
Proof. vm_compute. reflexivity. Qed.
Example isoDate_ny : Calendar.isoDate 10956 = "1999-12-31".
Proof. vm_compute. reflexivity. Qed.

(** ** Facts about the number model *)

Section NumberFacts.

Lemma ltb_spec (x y : Q) : JsMath.ltb x y = true <-> (x < y)%Q.
Proof.
  unfold JsMath.ltb. rewrite negb_true_iff.
  split; intros H.
  - apply Qnot_le_lt. intros Hle. apply Qle_bool_iff in Hle. congruence.
  - destruct (Qle_bool y x) eqn:E; [|reflexivity].
    apply Qle_bool_iff in E. exfalso. apply (Qlt_not_le _ _ H E).
Qed.

Lemma ltb_false (x y : Q) : JsMath.ltb x y = false <-> (y <= x)%Q.
Proof.
  unfold JsMath.ltb. rewrite negb_false_iff. apply Qle_bool_iff.
Qed.

Lemma falsy_spec (x : Q) : JsMath.falsy x = true <-> (x == 0)%Q.
Proof. apply Qeq_bool_iff. Qed.

Lemma falsy_false (x : Q) : JsMath.falsy x = false <-> ~ (x == 0)%Q.
Proof.
  unfold JsMath.falsy. split.
  - intros H E. apply Qeq_bool_iff in E. congruence.
  - intros H. destruct (Qeq_bool x 0) eqn:E; [|reflexivity].
    apply Qeq_bool_iff in E. contradiction.
Qed.

Lemma max_spec (x y : Q) :
  ((x <= y)%Q /\ JsMath.max x y = y) \/ ((y < x)%Q /\ JsMath.max x y = x).
Proof.
  unfold JsMath.max. destruct (Qle_bool x y) eqn:E.
  - left. split; [now apply Qle_bool_iff | reflexivity].
  - right. split; [|reflexivity].
    apply Qnot_le_lt. intros H. apply Qle_bool_iff in H. congruence.
Qed.

Lemma round_mono (x y : Q) : x <= y -> (JsMath.round x <= JsMath.round y)%Z.
Proof.
  intros H. unfold JsMath.round. apply Qfloor_resp_le. lra.
Qed.

Lemma round_comp (x y : Q) : (x == y)%Q -> JsMath.round x = JsMath.round y.
Proof.
  intros H. unfold JsMath.round. apply Qfloor_comp. lra.
Qed.

Lemma round_Z (n : Z) : JsMath.round (inject_Z n) = n.
Proof.
  unfold JsMath.round, Qfloor, Qplus, inject_Z. simpl.
  symmetry. apply (Z.div_unique _ _ n 1); lia.
Qed.

End NumberFacts.

(** ** The green score *)

Section GreenScore.
Import CarbonService.

Lemma round_between (n : Z) (x : Q) :
  inject_Z n <= x + (1 # 2) -> x + (1 # 2) < inject_Z (n + 1) ->
  JsMath.round x = n.
Proof.
  intros Hlo Hhi. unfold JsMath.round.
  assert (H1 : (n <= Qfloor (x + (1 # 2)))%Z).
  { rewrite <- (Qfloor_Z n). now apply Qfloor_resp_le. }
  assert (H2 : (Qfloor (x + (1 # 2)) < n + 1)%Z).
  { rewrite Zlt_Qlt. eapply Qle_lt_trans; [apply Qfloor_le | exact Hhi]. }
  lia.
Qed.

(** Which tests of the chain a value passes, as propositions. *)
Ltac curve_cases :=
  unfold scoreCurve, branchExcellent, branchGood, branchAverage,
    branchHigh, branchVeryHigh;
  repeat match goal with
    | |- context [JsMath.ltb ?a ?b] =>
        let E := fresh "E" in
        destruct (JsMath.ltb a b) eqn:E;
        [apply ltb_spec in E | apply ltb_false in E]
    | |- context [JsMath.max ?a ?b] =>
        let M := fresh "M" in
        destruct (max_spec a b) as [[? M] | [? M]]; rewrite M; clear M
    end.

Lemma scoreCurve_antitone (a b : Q) : a <= b -> scoreCurve b <= scoreCurve a.
Proof. intros Hab. curve_cases; lra. Qed.

Lemma scoreCurve_comp (a b : Q) : a == b -> scoreCurve a == scoreCurve b.
Proof.
  intros Hab. apply Qle_antisym; apply scoreCurve_antitone; lra.
Qed.

(** Past the guard the score is the clamped, rounded curve. *)
Lemma calculateGreenScore_pos (x d : Q) :
  ~ x == 0 -> 0 < d ->
  calculateGreenScore x d =
  Z.max 0 (Z.min 100 (JsMath.round (scoreCurve (x / d)))).
Proof.
  intros Hx Hd. unfold calculateGreenScore.
  apply falsy_false in Hx. rewrite Hx.
  assert (Hd1 : JsMath.falsy d = false) by (apply falsy_false; lra).
  assert (Hd2 : Qle_bool d 0 = false).
  { destruct (Qle_bool d 0) eqn:E; [|reflexivity].
    apply Qle_bool_iff in E. lra. }
  rewrite Hd1, Hd2. reflexivity.
Qed.

Lemma calculateGreenScore_zero (d : Q) : calculateGreenScore 0 d = 0%Z.
Proof. reflexivity. Qed.

Lemma calculateGreenScore_range (x d : Q) :
  (0 <= calculateGreenScore x d <= 100)%Z.
Proof.
  unfold calculateGreenScore.
  destruct (JsMath.falsy x || JsMath.falsy d || Qle_bool d 0); simpl; lia.
Qed.

Lemma daily_le (x y d : Q) : 0 < d -> x <= y -> x / d <= y / d.
Proof.
  intros Hd Hxy. unfold Qdiv. apply Qmult_le_compat_r; [exact Hxy|].
  apply Qlt_le_weak, Qinv_lt_0_compat, Hd.
Qed.

Lemma daily_eq (x d k : Q) : 0 < d -> x == k * d -> x / d == k.
Proof. intros Hd Hx. rewrite Hx. field. lra. Qed.

(** The score at an average of exactly [k] kg per day, when the curve
    takes the integer value [v] there. *)
Lemma score_at (x d k : Q) (v : Z) :
  0 < d -> 0 < k -> x == k * d -> scoreCurve k == inject_Z v ->
  calculateGreenScore x d = Z.max 0 (Z.min 100 v).
Proof.
  intros Hd Hk Hx Hv.
  rewrite calculateGreenScore_pos; [|nra|exact Hd].
  rewrite (round_comp _ (inject_Z v)); [now rewrite round_Z|].
  rewrite <- Hv. apply scoreCurve_comp. now apply daily_eq.
Qed.

(** C3 (as stated, refuted): a total of zero is falsy, so the guard
    answers 0 and not 100. *)
Lemma green_score_zero_total_counterexample :
  ~ (forall d : Q, 0 < d -> calculateGreenScore 0 d = 100%Z).
Proof. intros H. specialize (H 1 eq_refl). discriminate H. Qed.

(** C3 (amended): for every tripDays d > 0, calculateGreenScore(0, d)
    returns 0, the guard rejecting a falsy total; 100 is what the
    function returns for every positive total of at most a quarter of a
    kilogram per day. *)
Theorem green_score_zero_total (d : Q) :
  0 < d ->
  calculateGreenScore 0 d = 0%Z /\
  (forall x : Q, 0 < x -> x <= d * (1 # 4) -> calculateGreenScore x d = 100%Z).
Proof.
  intros Hd. split; [reflexivity|].
  intros x Hx Hle.
  rewrite calculateGreenScore_pos; [|lra|exact Hd].
  assert (Hlo : 0 < x / d).
  { unfold Qdiv. apply Qmult_lt_0_compat; [exact Hx|].
    now apply Qinv_lt_0_compat. }
  assert (Hhi : x / d <= 1 # 4).
  { assert (E : (1 # 4) == d * (1 # 4) / d) by (field; lra).
    rewrite E. now apply daily_le. }
  rewrite (round_between 100).
  - reflexivity.
  - revert Hlo Hhi. generalize (x / d). intros q Hlo Hhi.
    change (inject_Z 100) with 100.
    curve_cases; lra.
  - revert Hlo Hhi. generalize (x / d). intros q Hlo Hhi.
    change (inject_Z (100 + 1)) with 101.
    curve_cases; lra.
Qed.

Lemma green_score_zero_total_witness :
  0 < 1 /\
  (calculateGreenScore 0 1 = 0%Z /\
   (forall x : Q, 0 < x -> x <= 1 * (1 # 4) -> calculateGreenScore x 1 = 100%Z)).
Proof. split; [reflexivity | apply (green_score_zero_total 1); reflexivity]. Defined.

(** C4 (as stated, refuted): from a total of 0 to a total of 1 over one
    day the score rises from 0 to 98. *)
Lemma green_score_monotone_counterexample :
  ~ (forall d x y : Q, 0 < d -> 0 <= x -> x <= y ->
       (calculateGreenScore y d <= calculateGreenScore x d)%Z).
Proof.
  intros H.
  assert (H1 := H 1 0 1).
  vm_compute in H1.
  apply H1; try discriminate; reflexivity.
Qed.

(** C4 (amended): for every fixed tripDays d > 0, calculateGreenScore(x, d)
    is monotonically non-increasing as x increases over all x > 0. *)
Theorem green_score_monotone (d x y : Q) :
  0 < d -> 0 < x -> x <= y ->
  (calculateGreenScore y d <= calculateGreenScore x d)%Z.
Proof.
  intros Hd Hx Hxy.
  rewrite !calculateGreenScore_pos by lra.
  apply Z.max_le_compat_l, Z.min_le_compat_l, round_mono.
  apply scoreCurve_antitone. now apply daily_le.
Qed.

Lemma green_score_monotone_witness :
  (calculateGreenScore 40 2 <= calculateGreenScore 8 2)%Z.
Proof.
  apply (green_score_monotone 2 8 40);
    [reflexivity | reflexivity | discriminate].
Defined.

(** C5: at 5, 15, 30 and 50 kg per day the score is 90, 50, 20 and 10;
    the two branch formulas that meet at a breakpoint agree there; and
    the result is always an integer between 0 and 100. *)
Theorem green_score_breakpoints (d : Q) :
  0 < d ->
  (calculateGreenScore (5 * d) d = 90%Z /\
   calculateGreenScore (15 * d) d = 50%Z /\
   calculateGreenScore (30 * d) d = 20%Z /\
   calculateGreenScore (50 * d) d = 10%Z) /\
  (branchExcellent 5 == 90 /\ branchGood 5 == 90 /\
   branchGood 15 == 50 /\ branchAverage 15 == 50 /\
   branchAverage 30 == 20 /\ branchHigh 30 == 20 /\
   branchHigh 50 == 10 /\ branchVeryHigh 50 == 10) /\
  (forall x t : Q, (0 <= calculateGreenScore x t <= 100)%Z).
Proof.
  intros Hd. split; [|split].
  - repeat split.
    + apply (score_at _ d 5 90); [exact Hd| | |]; reflexivity.
    + apply (score_at _ d 15 50); [exact Hd| | |]; reflexivity.
    + apply (score_at _ d 30 20); [exact Hd| | |]; reflexivity.
    + apply (score_at _ d 50 10); [exact Hd| | |]; reflexivity.
  - repeat split.
  - intros x t. apply calculateGreenScore_range.
Qed.

Lemma green_score_breakpoints_witness :
  calculateGreenScore (5 * 7) 7 = 90%Z /\
  calculateGreenScore (15 * 7) 7 = 50%Z /\
  calculateGreenScore (30 * 7) 7 = 20%Z /\
  calculateGreenScore (50 * 7) 7 = 10%Z.
Proof. apply (green_score_breakpoints 7). reflexivity. Defined.

End GreenScore.

(** ** Exceptions *)

Section Outcome.
Context {A : Type}.


Lemma try_catch_ret (body : outcome A) (handler : outcome A) (a : A) :
  body = Ret a -> try_catch body handler = Ret a.
Proof. intros ->. reflexivity. Qed.

(** A run that returns, checked by evaluation. *)
Lemma returns_checked (m : outcome A) (P : A -> bool) :
  match m with Ret a => P a | _ => false end = true ->
  exists a, m = Ret a /\ P a = true.
Proof. destruct m; try discriminate. eauto. Qed.

Lemma bind_ret {B : Type} (m : outcome A) (f : A -> outcome B) (b : B) :
  (m ≫= f) = Ret b -> exists a, m = Ret a /\ f a = Ret b.
Proof. destruct m; try discriminate. intros H. eauto. Qed.

End Outcome.

(** ** The transport calculator *)

Section Transport.
Import CarbonService.
Variable db : FactorStore.

Lemma truthy_str (s : string) : s <> "" -> Js.truthy (VStr s) = true.
Proof.
  intros H. simpl. destruct (String.eqb s "") eqn:E; [|reflexivity].
  apply String.eqb_eq in E. contradiction.
Qed.

Lemma truthy_pos (q : Q) : 0 < q -> Js.truthy (VNum q) = true.
Proof.
  intros H. simpl. rewrite (proj2 (falsy_false q)); [reflexivity | lra].
Qed.

Lemma Qle_bool_pos (q : Q) : 0 < q -> Qle_bool q 0 = false.
Proof.
  intros H. destruct (Qle_bool q 0) eqn:E; [|reflexivity].
  apply Qle_bool_iff in E. lra.
Qed.



Lemma calculateTransportEmissions_numeric (mode : string) (d : Q) :
  exists kg, calculateTransportEmissions db (VStr mode) (VNum d) = Ret kg.
Proof.
  unfold calculateTransportEmissions.
  destruct (negb (Js.truthy (VStr mode)) || negb (Js.truthy (VNum d)));
    [eauto|].
  simpl. destruct (Qle_bool d 0); [eauto|].
  unfold findByCategoryAndSubCategory.
  destruct (db "transport" (lookupOr _ _ _)); simpl; eauto.
  destruct (db "transport" "car_average"); simpl; eauto.
Qed.

End Transport.

Section TransportFallback.
Import CarbonService.



Example teleporter_seeded :
  exists kg,
    calculateTransportEmissions seededFactors (VStr "teleporter") (VNum 100)
    = Ret kg /\ kg == 17.1.
Proof. eexists. split; [vm_compute; reflexivity | reflexivity]. Qed.

Example teleporter_empty_store :
  exists kg,
    calculateTransportEmissions (fun _ _ => NoRow) (VStr "teleporter")
      (VNum 100) = Ret kg /\ kg == 17.1.
Proof. eexists. split; [vm_compute; reflexivity | reflexivity]. Qed.

Example teleporter_failing_store :
  calculateTransportEmissions (fun _ _ => QueryError) (VStr "teleporter")
    (VNum 100) = Ret 0.
Proof. reflexivity. Qed.

End TransportFallback.

(** ** Trip emissions *)

Section TripEmissions.
Import CarbonService.

Lemma foldM_no_activities (db : FactorStore) (days : list value) (acc : Q * Q) :
  Forall (fun day => Js.get day "activities" = Ret (VArr [])) days ->
  foldM (dayStep db) days acc = Ret acc.
Proof.
  induction 1 as [|day days Hday _ IH]; [reflexivity|].
  assert (Hstep : dayStep db acc day = Ret acc)
    by (unfold dayStep; rewrite Hday; reflexivity).
  cbn [foldM]. rewrite Hstep. exact IH.
Qed.

Lemma round2_zero : JsMath.round2 0 == 0.
Proof. reflexivity. Qed.

(** The sums of a trip without nights, activities or a long leg. *)
Lemma components_nothing (db : FactorStore)
  (preference rest distance : value) (o : gmap string value)
  (days : list value) :
  o !! "days" = Some (VArr days) ->
  Forall (fun day => Js.get day "activities" = Ret (VArr [])) days ->
  (Js.truthy distance = false \/
   exists d, distance = VNum d /\ d <= 100) ->
  components db (input preference (VNum 0) (VObj o) distance)
  = Ret (0, 0, 0).
Proof.
  intros Hdays Hnone Hdist. unfold components.
  change (Js.get (input preference (VNum 0) (VObj o) distance)
            "accommodation_preference") with (Ret preference).
  change (Js.get (input preference (VNum 0) (VObj o) distance) "nights")
    with (Ret (VNum 0)).
  change (Js.get (input preference (VNum 0) (VObj o) distance) "itinerary")
    with (Ret (VObj o)).
  change (Js.get (input preference (VNum 0) (VObj o) distance)
            "destination_distance_km") with (Ret distance).
  simpl. rewrite andb_false_r. simpl. rewrite Hdays. simpl.
  rewrite (foldM_no_activities db days (0, 0) Hnone). simpl.
  destruct Hdist as [Hf | (d & -> & Hd)].
  - rewrite Hf. reflexivity.
  - simpl. destruct (negb (JsMath.falsy d)); [|reflexivity]. simpl.
    rewrite (proj2 (ltb_false 100 d) Hd). reflexivity.
Qed.

(** C9 (as stated, refuted): zero nights and zero activities do not make
    the four fields 0 when the trip carries a destination distance above
    100 km; at 500 km the seeded store charges the round trip 255 kg. *)
Lemma trip_emissions_rounding_counterexample :
  ~ (forall (db : FactorStore) (preference distance : value)
            (o : gmap string value) (days : list value) (e : Emissions),
        o !! "days" = Some (VArr days) ->
        Forall (fun day => Js.get day "activities" = Ret (VArr [])) days ->
        calculateTripEmissions db
          (input preference (VNum 0) (VObj o) distance) = Ret e ->
        transport e == 0 /\ accommodation e == 0 /\
        activities e == 0 /\ total e == 0).
Proof.
  intros H.
  destruct (returns_checked
              (calculateTripEmissions seededFactors
                 (input (VStr "hostel") (VNum 0)
                    (VObj (list_to_map
                             [("days",
                               VArr [Js.obj [("activities", VArr [])]])]))
                    (VNum 500)))
              (fun e => Qeq_bool (transport e) 255))
    as (e & He & Ht); [vm_compute; reflexivity|].
  apply Qeq_bool_iff in Ht.
  assert (Hnone : Forall
                    (fun day => Js.get day "activities" = Ret (VArr []))
                    [Js.obj [("activities", VArr [])]])
    by (repeat constructor).
  assert (Hdays : (list_to_map
                     [("days", VArr [Js.obj [("activities", VArr [])]])]
                   : gmap string value) !! "days"
                  = Some (VArr [Js.obj [("activities", VArr [])]]))
    by reflexivity.
  destruct (H seededFactors (VStr "hostel") (VNum 500) _ _ e Hdays Hnone He)
    as (Hzero & _).
  rewrite Ht in Hzero. discriminate Hzero.
Qed.

(** C9 (amended): each of transport, accommodation and activities is its
    own sum rounded to two decimals, and total is the rounded sum of the
    three sums before rounding, which need not be the sum of the three
    rounded fields; an exception inside the calculation yields four
    zeros; and a trip without nights and without activities whose
    destination distance is absent, zero or at most 100 km has four
    fields equal to 0. *)
Theorem trip_emissions_rounding (db : FactorStore) (tripData : value) :
  (forall t a c : Q,
      components db tripData = Ret (t, a, c) ->
      calculateTripEmissions db tripData =
      Ret {| transport := JsMath.round2 t;
             accommodation := JsMath.round2 a;
             activities := JsMath.round2 c;
             total := JsMath.round2 (t + a + c) |}) /\
  (components db tripData = Throw ->
   calculateTripEmissions db tripData = Ret zero) /\
  (exists e,
      calculateTripEmissions Sample.tinyFactors Sample.tinyTrip = Ret e /\
      total e == 0.01 /\
      transport e + accommodation e + activities e == 0) /\
  (forall (preference distance : value) (o : gmap string value)
          (days : list value),
      tripData = input preference (VNum 0) (VObj o) distance ->
      o !! "days" = Some (VArr days) ->
      Forall (fun day => Js.get day "activities" = Ret (VArr [])) days ->
      (Js.truthy distance = false \/
       exists d, distance = VNum d /\ d <= 100) ->
      exists e,
        calculateTripEmissions db tripData = Ret e /\
        transport e == 0 /\ accommodation e == 0 /\
        activities e == 0 /\ total e == 0).
Proof.
  split; [|split; [|split]].
  - intros t a c H. unfold calculateTripEmissions. rewrite H. reflexivity.
  - intros H. unfold calculateTripEmissions. rewrite H. reflexivity.
  - eexists. split; [vm_compute; reflexivity|]. split; reflexivity.
  - intros preference distance o days -> Hdays Hnone Hdist.
    unfold calculateTripEmissions.
    rewrite (components_nothing db preference (VObj o) distance o days)
      by assumption.
    eexists. split; [reflexivity|]. repeat split.
Qed.

Lemma trip_emissions_rounding_witness :
  exists e,
    calculateTripEmissions seededFactors
      (input (VStr "hostel") (VNum 0) (VObj (list_to_map [("days", VArr [])]))
         VUndef) = Ret e /\
    transport e == 0 /\ accommodation e == 0 /\
    activities e == 0 /\ total e == 0.
Proof.
  apply (proj2 (proj2 (proj2 (trip_emissions_rounding seededFactors _)))
           (VStr "hostel") VUndef (list_to_map [("days", VArr [])]) []).
  - reflexivity.
  - reflexivity.
  - constructor.
  - left. reflexivity.
Defined.

Lemma flightMode_bands (d : Q) :
  (3700 < d -> flightMode d = "flight_long_haul") /\
  (500 < d -> d <= 3700 -> flightMode d = "flight_medium_haul") /\
  (d <= 500 -> flightMode d = "flight_short_haul").
Proof.
  unfold flightMode. repeat split; intros.
  - rewrite (proj2 (ltb_spec 3700 d)); [reflexivity | assumption].
  - rewrite (proj2 (ltb_false 3700 d)), (proj2 (ltb_spec 500 d));
      [reflexivity | assumption | assumption].
  - rewrite (proj2 (ltb_false 3700 d)), (proj2 (ltb_false 500 d));
      [reflexivity | assumption | lra].
Qed.

(** The long-distance leg on its own: a trip object that carries only a
    destination distance. *)
Lemma flight_leg (db : FactorStore) (d : Q) :
  components db (input VUndef VUndef VUndef (VNum d)) =
  if JsMath.ltb 100 d
  then e ← calculateTransportEmissions db (VStr (flightMode d)) (VNum (d * 2));
       Ret (0 + e, 0, 0)
  else Ret (0, 0, 0).
Proof.
  unfold components.
  change (Js.get (input VUndef VUndef VUndef (VNum d))
            "accommodation_preference") with (Ret VUndef).
  change (Js.get (input VUndef VUndef VUndef (VNum d)) "nights")
    with (Ret VUndef).
  change (Js.get (input VUndef VUndef VUndef (VNum d)) "itinerary")
    with (Ret VUndef).
  change (Js.get (input VUndef VUndef VUndef (VNum d))
            "destination_distance_km") with (Ret (VNum d)).
  cbn [mbind outcome_bind Js.truthy andb Js.num].
  destruct (JsMath.ltb 100 d) eqn:E.
  - apply ltb_spec in E.
    rewrite (proj2 (falsy_false d)) by lra. cbn [negb].
    destruct (calculateTransportEmissions db _ _); reflexivity.
  - destruct (negb (JsMath.falsy d)); reflexivity.
Qed.

(** C8 at 500 km: the leg is charged as a short-haul flight, 1000 km at
    0.255 kg/km, where the medium-haul factor 0.156 would give 156. *)
Theorem flight_leg_at_500_km :
  flightMode 500 = "flight_short_haul" /\
  exists e,
    calculateTripEmissions seededFactors
      (input VUndef VUndef VUndef (VNum 500)) = Ret e /\
    transport e == 255 /\ ~ transport e == 156.
Proof.
  split; [reflexivity|].
  eexists. split; [vm_compute; reflexivity|].
  split; [reflexivity | discriminate].
Qed.

End TripEmissions.

(** ** Normalisation *)

Section Normalisation.
Import OpenAIService.

Lemma mapM_from_Forall {A B : Type} (f : nat -> A -> outcome B)
  (P : B -> Prop) :
  (forall i a b, f i a = Ret b -> P b) ->
  forall (l : list A) (i : nat) (bs : list B),
    mapM_from f i l = Ret bs -> Forall P bs.
Proof.
  intros Hf. induction l as [|a l IH]; intros i bs H; simpl in H.
  - injection H as <-. constructor.
  - apply bind_ret in H as (b & Hb & H).
    apply bind_ret in H as (bs' & Hbs & H).
    injection H as <-. constructor; eauto.
Qed.

Lemma mapM_from_length {A B : Type} (f : nat -> A -> outcome B) :
  forall (l : list A) (i : nat) (bs : list B),
    mapM_from f i l = Ret bs -> length bs = length l.
Proof.
  induction l as [|a l IH]; intros i bs H; simpl in H.
  - injection H as <-. reflexivity.
  - apply bind_ret in H as (b & Hb & H).
    apply bind_ret in H as (bs' & Hbs & H).
    injection H as <-. simpl. f_equal. eauto.
Qed.

(** Whatever the draft held, the activity object has the eleven keys of
    the literal and no other. *)
Lemma enhanceActivity_shape (index actIndex : nat) (a a' : value) :
  enhanceActivity index actIndex a = Ret a' -> Shape.activity a'.
Proof.
  intros H.
  assert (Hk : exists fields,
             a' = Js.obj fields /\
             fields.*1 = ["id"; "time"; "title"; "location";
                          "duration_hours"; "estimated_cost"; "carbon_kg";
                          "type"; "description"; "transport_mode";
                          "eco_alternative"]).
  { destruct a; try discriminate H;
      injection H as <-; eexists; (split; [reflexivity|]); reflexivity. }
  destruct Hk as (fields & -> & Hk).
  eexists. split; [reflexivity|].
  rewrite dom_list_to_map_L, Hk. reflexivity.
Qed.

Lemma enhanceDay_shape (startDate : Z) (index : nat) (d d' : value) :
  enhanceDay startDate index d = Ret d' -> Shape.day d'.
Proof.
  unfold enhanceDay. intros H.
  apply bind_ret in H as (dayNumber & _ & H).
  apply bind_ret in H as (dayActivities & _ & H).
  apply bind_ret in H as (items & _ & H).
  apply bind_ret in H as (enhanced & Henh & H).
  injection H as <-.
  eexists _, enhanced. split; [reflexivity|]. split.
  - apply lookup_insert_eq.
  - eapply mapM_from_Forall; [|exact Henh].
    intros i a b. apply enhanceActivity_shape.
Qed.

Lemma validateAndEnhanceItinerary_shape (draft : value)
  (tripData : TripRequest) (o : gmap string value) :
  validateAndEnhanceItinerary draft tripData = Ret o -> Shape.itinerary o.
Proof.
  unfold validateAndEnhanceItinerary. intros H.
  apply bind_ret in H as (days & _ & H).
  destruct (negb (Js.truthy days) || negb (Js.isArray days));
    [discriminate|].
  destruct draft as [| | | | | |props]; try discriminate H.
  destruct days as [| | | | |items|]; try discriminate H.
  apply bind_ret in H as (newDays & Hnew & H).
  apply bind_ret in H as (o1 & Ho1 & H).
  injection H as <-.
  assert (Hdays : o1 !! "days" = Some (VArr newDays)).
  { destruct (negb (Js.truthy _)) in Ho1.
    - apply bind_ret in Ho1 as (sum & _ & Ho1). injection Ho1 as <-.
      rewrite lookup_insert_ne by discriminate. apply lookup_insert_eq.
    - injection Ho1 as <-. apply lookup_insert_eq. }
  exists newDays. split.
  - destruct (negb (Js.truthy (default VUndef (o1 !! "sustainability_score"))));
      [|exact Hdays].
    rewrite lookup_insert_ne by discriminate. exact Hdays.
  - eapply mapM_from_Forall; [|exact Hnew].
    intros i a b. apply enhanceDay_shape.
Qed.

Lemma generateItinerary_shape (ai : AiReply) (tripData : TripRequest)
  (o : gmap string value) :
  generateItinerary ai tripData = Ret o -> Shape.itinerary o.
Proof.
  unfold generateItinerary, try_catch, generateDemoItinerary.
  destruct ai as [draft|].
  - destruct (validateAndEnhanceItinerary draft tripData) eqn:E;
      intros H; try discriminate H.
    + injection H as <-. eapply validateAndEnhanceItinerary_shape, E.
    + eapply validateAndEnhanceItinerary_shape, H.
  - apply validateAndEnhanceItinerary_shape.
Qed.

End Normalisation.

(** ** Emissions of a normalised itinerary *)

Section NormalisedEmissions.
Import CarbonService.
Variable db : FactorStore.

Lemma not_activity_key (o : gmap string value) (k : string) :
  dom o = activityKeys -> k ∉ activityKeys -> o !! k = None.
Proof. intros Hdom Hk. apply not_elem_of_dom. now rewrite Hdom. Qed.

Ltac not_a_key :=
  let H := fresh in
  unfold activityKeys; intros H; apply elem_of_list_to_set in H;
  repeat (apply elem_of_cons in H as [H|H]; [discriminate H|]);
  now apply elem_of_nil in H.

Lemma category_not_a_key : "category" ∉ activityKeys.
Proof. not_a_key. Qed.

Lemma transport_distance_km_not_a_key :
  "transport_distance_km" ∉ activityKeys.
Proof. not_a_key. Qed.

Lemma cost_not_a_key : "cost" ∉ activityKeys.
Proof. not_a_key. Qed.

(** A normalised activity has neither a category nor a leg distance, so
    the inner loop passes it by. *)
Lemma activityStep_normal (acc : Q * Q) (a : value) :
  Shape.activity a -> activityStep db acc a = Ret acc.
Proof.
  intros (o & -> & Hdom). destruct acc as [t c].
  unfold activityStep, Js.get.
  rewrite (not_activity_key o "category" Hdom category_not_a_key).
  rewrite (not_activity_key o "transport_distance_km" Hdom
             transport_distance_km_not_a_key).
  reflexivity.
Qed.

Lemma foldM_activities_normal (items : list value) (acc : Q * Q) :
  Forall Shape.activity items -> foldM (activityStep db) items acc = Ret acc.
Proof.
  induction 1 as [|a items Ha _ IH]; [reflexivity|].
  cbn [foldM]. rewrite (activityStep_normal acc a Ha). exact IH.
Qed.

Lemma dayStep_normal (acc : Q * Q) (d : value) :
  Shape.day d -> dayStep db acc d = Ret acc.
Proof.
  intros (o & items & -> & Hacts & Hitems).
  unfold dayStep, Js.get. rewrite Hacts.
  cbn [default from_option id mbind outcome_bind Js.truthy Js.iterate].
  now apply foldM_activities_normal.
Qed.

Lemma foldM_days_normal (days : list value) (acc : Q * Q) :
  Forall Shape.day days -> foldM (dayStep db) days acc = Ret acc.
Proof.
  induction 1 as [|d days Hd _ IH]; [reflexivity|].
  cbn [foldM]. rewrite (dayStep_normal acc d Hd). exact IH.
Qed.

Lemma calculateAccommodationEmissions_numeric (type : string) (n : Q) :
  exists kg,
    calculateAccommodationEmissions db (VStr type) (VNum n) = Ret kg.
Proof.
  unfold calculateAccommodationEmissions.
  destruct (negb (Js.truthy (VStr type)) || negb (Js.truthy (VNum n)));
    [eauto|].
  simpl. destruct (Qle_bool n 0); [eauto|].
  unfold findByCategoryAndSubCategory.
  destruct (db "accommodation" type); simpl; eauto.
  destruct (db "accommodation" "hotel_standard"); simpl; eauto.
Qed.

Lemma accommodationOf_numeric (type : string) (n : Q) :
  exists kg, accommodationOf db type n = Ret kg.
Proof.
  unfold accommodationOf.
  destruct (Js.truthy (VStr type) && Js.truthy (VNum n)); [|eauto].
  apply calculateAccommodationEmissions_numeric.
Qed.

Lemma components_normal (type : string) (n : Q) (o : gmap string value) :
  Shape.itinerary o ->
  components db (input (VStr type) (VNum n) (VObj o) (VNum 0)) =
  kg ← accommodationOf db type n; Ret (0, kg, 0).
Proof.
  intros (days & Hdays & Hnormal). unfold components.
  change (Js.get (input (VStr type) (VNum n) (VObj o) (VNum 0))
            "accommodation_preference") with (Ret (VStr type)).
  change (Js.get (input (VStr type) (VNum n) (VObj o) (VNum 0)) "nights")
    with (Ret (VNum n)).
  change (Js.get (input (VStr type) (VNum n) (VObj o) (VNum 0)) "itinerary")
    with (Ret (VObj o)).
  change (Js.get (input (VStr type) (VNum n) (VObj o) (VNum 0))
            "destination_distance_km") with (Ret (VNum 0)).
  cbn [mbind outcome_bind].
  change (if Js.truthy (VStr type) && Js.truthy (VNum n)
          then calculateAccommodationEmissions db (VStr type) (VNum n)
          else Ret 0) with (accommodationOf db type n).
  destruct (accommodationOf db type n) as [kg| |]; try reflexivity.
  unfold Js.get. rewrite Hdays.
  cbn [default from_option id mbind outcome_bind Js.truthy Js.iterate].
  rewrite (foldM_days_normal days (0, 0) Hnormal). reflexivity.
Qed.

Lemma round2_comp (x y : Q) : x == y -> JsMath.round2 x = JsMath.round2 y.
Proof.
  intros H. unfold JsMath.round2. f_equal. f_equal.
  apply round_comp. now rewrite H.
Qed.

Lemma calculateTripEmissions_normal (type : string) (n : Q)
  (o : gmap string value) :
  Shape.itinerary o ->
  exists kg,
    accommodationOf db type n = Ret kg /\
    calculateTripEmissions db (input (VStr type) (VNum n) (VObj o) (VNum 0)) =
    Ret {| transport := JsMath.round2 0;
           accommodation := JsMath.round2 kg;
           activities := JsMath.round2 0;
           total := JsMath.round2 kg |}.
Proof.
  intros Ho. destruct (accommodationOf_numeric type n) as (kg & Hkg).
  exists kg. split; [exact Hkg|].
  unfold calculateTripEmissions.
  rewrite (components_normal type n o Ho), Hkg.
  cbn [mbind outcome_bind try_catch]. do 2 f_equal.
  apply round2_comp. ring.
Qed.

End NormalisedEmissions.

(** ** The generated trip *)

Section GeneratedTrip.
Import CarbonService OpenAIService ItineraryService.

Lemma shape_insert (o : gmap string value) (k : string) (v : value) :
  k <> "days" -> Shape.itinerary o -> Shape.itinerary (<[k := v]> o).
Proof.
  intros Hk (days & Hdays & Hnormal). exists days. split; [|exact Hnormal].
  now rewrite lookup_insert_ne.
Qed.

(** What [generateTrip] does once the itinerary is there. *)
Lemma generateTrip_inv (db : FactorStore) (geo : GeoReply) (ai : AiReply)
  (tripData : TripRequest) (trip : Trip) :
  generateTrip db geo ai tripData = Ret trip ->
  exists (o : gmap string value) (emissions : Emissions) (totalCost : Q),
    let enhanced :=
      enhanceItineraryWithPlaceData o
        match geo with
        | Located l => l
        | GeocodeFailure =>
            {| formatted_address := VStr (destination tripData);
               latitude := VNum 0; longitude := VNum 0;
               place_id := VNull |}
        end in
    generateItinerary ai tripData = Ret o /\
    calculateTripEmissions db
      (input (VStr (accommodation_preference tripData))
         (Js.ofZ (numDaysOf tripData)) (VObj enhanced) (VNum 0))
    = Ret emissions /\
    calculateTotalCost (VObj enhanced) = Ret totalCost /\
    itinerary trip =
      <["activities_carbon" := VNum (activities emissions)]>
        (<["accommodation_carbon" := VNum (accommodation emissions)]>
           (<["transport_carbon" := VNum (transport emissions)]> enhanced)) /\
    carbon_breakdown trip = emissions /\
    total_carbon_kg trip = total emissions /\
    total_cost trip = totalCost /\
    green_score trip =
      calculateGreenScore (total emissions) (inject_Z (numDaysOf tripData)).
Proof.
  unfold generateTrip. intros H.
  apply bind_ret in H as (o & Ho & H).
  apply bind_ret in H as (emissions & He & H).
  apply bind_ret in H as (totalCost & Hc & H).
  injection H as <-.
  exists o, emissions, totalCost. cbn zeta. cbn [itinerary carbon_breakdown
    total_carbon_kg total_cost green_score].
  repeat split; assumption.
Qed.

(** C2: whatever the provider and the geocoder answer, the transport and
    activity figures of a generated trip are 0 and its total is the
    rounded accommodation figure: every activity of the itinerary carries
    exactly the eleven normalised keys, among which there is neither
    [category] nor [transport_distance_km], and the destination distance
    handed over is 0. *)
Theorem generated_trip_emissions (db : FactorStore) (geo : GeoReply)
  (ai : AiReply) (tripData : TripRequest) (trip : Trip) :
  generateTrip db geo ai tripData = Ret trip ->
  transport (carbon_breakdown trip) == 0 /\
  activities (carbon_breakdown trip) == 0 /\
  (exists kg,
      accommodationOf db (accommodation_preference tripData)
        (inject_Z (numDaysOf tripData)) = Ret kg /\
      accommodation (carbon_breakdown trip) = JsMath.round2 kg /\
      total (carbon_breakdown trip) = JsMath.round2 kg /\
      total_carbon_kg trip = JsMath.round2 kg) /\
  Shape.itinerary (itinerary trip) /\
  ("category" ∉ activityKeys) /\ ("transport_distance_km" ∉ activityKeys).
Proof.
  intros H.
  apply generateTrip_inv in H
    as (o & emissions & totalCost & Ho & He & _ & Hit & Hcb & Htot & _).
  apply generateItinerary_shape in Ho.
  assert (Hshape : Shape.itinerary
                     (enhanceItineraryWithPlaceData o
                        match geo with
                        | Located l => l
                        | GeocodeFailure =>
                            {| formatted_address := VStr (destination tripData);
                               latitude := VNum 0; longitude := VNum 0;
                               place_id := VNull |}
                        end)).
  { apply shape_insert; [discriminate | exact Ho]. }
  destruct (calculateTripEmissions_normal db
              (accommodation_preference tripData)
              (inject_Z (numDaysOf tripData)) _ Hshape) as (kg & Hkg & Hcalc).
  unfold Js.ofZ in He. rewrite Hcalc in He. injection He as <-.
  rewrite Hcb, Htot, Hit. cbn [transport accommodation activities total].
  repeat split.
  - exists kg. repeat split. exact Hkg.
  - do 3 (apply shape_insert; [discriminate|]). exact Hshape.
  - apply category_not_a_key.
  - apply transport_distance_km_not_a_key.
Qed.

Lemma generated_trip_emissions_witness :
  exists trip,
    generateTrip seededFactors GeocodeFailure (Draft Sample.draft)
      Sample.dayTrip = Ret trip /\
    transport (carbon_breakdown trip) == 0 /\
    activities (carbon_breakdown trip) == 0.
Proof.
  destruct (returns_checked
              (generateTrip seededFactors GeocodeFailure (Draft Sample.draft)
                 Sample.dayTrip) (fun _ => true))
    as (trip & Hret & _); [vm_compute; reflexivity|].
  exists trip. split; [exact Hret|].
  destruct (generated_trip_emissions seededFactors GeocodeFailure
              (Draft Sample.draft) Sample.dayTrip trip Hret)
    as (Ht & Ha & _).
  split; assumption.
Defined.

End GeneratedTrip.

(** ** The template itinerary *)

Section Template.
Import OpenAIService.
Variable tripData : TripRequest.

Lemma or_ofNat (n : nat) : Js.or (Js.ofNat (S n)) (Js.ofNat (n + 1)) = Js.ofNat (S n).
Proof.
  unfold Js.or. destruct (Js.truthy (Js.ofNat (S n))); [reflexivity|].
  now rewrite Nat.add_1_r.
Qed.

Lemma enhance_demoActivities (index : nat) :
  exists enhanced,
    mapM_from (enhanceActivity index) 0
      (demoActivities (S index) (destination tripData)) = Ret enhanced /\
    length enhanced = 5%nat /\
    (fun a => View.field a "transport_mode") <$> enhanced =
      replicate 5 (VStr "walking") /\
    (fun a => View.field a "estimated_cost") <$> enhanced =
      [VNum 0; VNum 15; VNum 25; VNum 10; VNum 0].
Proof.
  eexists. split; [reflexivity|]. repeat split.
Qed.

Lemma enhanceDay_demo (index : nat) :
  exists d,
    enhanceDay (start_date tripData) index (demoDay tripData (S index)) = Ret d /\
    Shape.templateDay tripData index d.
Proof.
  destruct (enhance_demoActivities index) as (enhanced & Henh & Hlen & Hmode & Hcost).
  eexists. split.
  - unfold enhanceDay.
    change (Js.get (demoDay tripData (S index)) "day")
      with (Ret (Js.ofNat (S index))).
    change (Js.get (demoDay tripData (S index)) "activities")
      with (Ret (VArr (demoActivities (S index) (destination tripData)))).
    cbn [mbind outcome_bind Js.truthy].
    rewrite Henh. cbn [mbind outcome_bind]. rewrite or_ofNat. reflexivity.
  - unfold Shape.templateDay.
    match goal with
    | |- context [View.activitiesOf ?d] =>
        change (View.activitiesOf d) with enhanced
    end.
    split; [|repeat split; try assumption; reflexivity].
    eexists _, enhanced. split; [reflexivity|].
    split; [apply lookup_insert_eq|].
    eapply mapM_from_Forall; [|exact Henh].
    intros i a b. apply enhanceActivity_shape.
Qed.

Lemma mapM_from_build {A B : Type} (f : nat -> A -> outcome B)
  (g : nat -> A) (P : nat -> B -> Prop) :
  (forall i, exists b, f i (g i) = Ret b /\ P i b) ->
  forall n k, exists bs,
    mapM_from f k (g <$> seq k n) = Ret bs /\
    length bs = n /\
    forall i b, bs !! i = Some b -> P (k + i)%nat b.
Proof.
  intros Hf. induction n as [|n IH]; intros k.
  - exists []. repeat split. intros i b H. discriminate H.
  - destruct (Hf k) as (b & Hb & HP).
    destruct (IH (S k)) as (bs & Hbs & Hlen & Hall).
    exists (b :: bs). cbn [seq fmap list_fmap mapM_from].
    rewrite Hb. cbn [mbind outcome_bind].
    change (mapM_from f (S k) (g <$> seq (S k) n)
            ≫= (fun bs0 => Ret (b :: bs0)) = Ret (b :: bs) /\
            length (b :: bs) = S n /\
            (forall i b0, (b :: bs) !! i = Some b0 -> P (k + i)%nat b0)).
    rewrite Hbs. repeat split.
    + simpl. now f_equal.
    + intros [|i] b0 H.
      * injection H as <-. now rewrite Nat.add_0_r.
      * replace (k + S i)%nat with (S k + i)%nat by lia. now apply Hall.
Qed.

Lemma addDailyCost_numeric (sum : Q) (d : value) (index : nat) :
  Shape.templateDay tripData index d ->
  exists sum', addDailyCost sum d = Ret sum'.
Proof.
  intros ((o & items & -> & _) & _ & _ & Hcost & _).
  unfold addDailyCost, Js.get. cbn [mbind outcome_bind].
  cbn [View.field] in Hcost. rewrite Hcost.
  unfold Js.or, Js.ofZ. destruct (Js.truthy _); simpl; eauto.
Qed.

Lemma foldM_addDailyCost_numeric (days : list value) :
  forall (k : nat) (sum : Q),
    (forall i d, days !! i = Some d ->
                 Shape.templateDay tripData (k + i) d) ->
    exists sum', foldM addDailyCost days sum = Ret sum'.
Proof.
  induction days as [|d days IH]; intros k sum Hall; [simpl; eauto|].
  destruct (addDailyCost_numeric sum d (k + 0) (Hall 0%nat d eq_refl))
    as (sum1 & H1).
  cbn [foldM]. rewrite H1. cbn [mbind outcome_bind].
  apply (IH (S k)). intros i d' Hd.
  replace (S k + i)%nat with (k + S i)%nat by lia. now apply Hall.
Qed.

(** The branches of [validateAndEnhanceItinerary] on an object whose
    days normalise. *)
Lemma validateAndEnhanceItinerary_obj (o : gmap string value)
  (items newDays : list value) :
  o !! "days" = Some (VArr items) ->
  mapM_from (enhanceDay (start_date tripData)) 0 items = Ret newDays ->
  (exists sum, foldM addDailyCost newDays 0 = Ret sum) ->
  exists o',
    validateAndEnhanceItinerary (VObj o) tripData = Ret o' /\
    o' !! "days" = Some (VArr newDays).
Proof.
  intros Hdays Hnew (sum & Hsum).
  unfold validateAndEnhanceItinerary, Js.get. rewrite Hdays.
  cbn [default from_option id mbind outcome_bind Js.truthy Js.isArray
         negb orb].
  rewrite Hnew. cbn [mbind outcome_bind]. rewrite Hsum.
  destruct (negb (Js.truthy (default VUndef
              (<["days":=VArr newDays]> o !! "estimated_total_cost"))));
    cbn [mbind outcome_bind];
    match goal with
    | |- context [if ?c then _ else _] => destruct c
    end;
    eexists; (split; [reflexivity|]);
    rewrite ?lookup_insert_ne by discriminate; apply lookup_insert_eq.
Qed.

(** The template covers the days of the request one by one. *)
Lemma generateDemoItinerary_days :
  exists (o : gmap string value) (days : list value),
    generateDemoItinerary tripData = Ret o /\
    o !! "days" = Some (VArr days) /\
    length days = Z.to_nat (numDaysOf tripData) /\
    forall i d, days !! i = Some d -> Shape.templateDay tripData i d.
Proof.
  destruct (mapM_from_build (enhanceDay (start_date tripData))
              (fun i => demoDay tripData (S i))
              (Shape.templateDay tripData) enhanceDay_demo
              (Z.to_nat (numDaysOf tripData)) 0)
    as (days & Hdays & Hlen & Hall).
  assert (Hseq : (fun i => demoDay tripData (S i))
                   <$> seq 0 (Z.to_nat (numDaysOf tripData))
                 = demoDay tripData <$> seq 1 (Z.to_nat (numDaysOf tripData))).
  { rewrite <- fmap_S_seq, <- list_fmap_compose. reflexivity. }
  rewrite Hseq in Hdays.
  unfold generateDemoItinerary, Js.obj.
  match goal with
  | |- context [validateAndEnhanceItinerary (VObj ?m) _] =>
      destruct (validateAndEnhanceItinerary_obj m
                  (demoDay tripData <$> seq 1 (Z.to_nat (numDaysOf tripData)))
                  days eq_refl Hdays
                  (foldM_addDailyCost_numeric days 0 0 Hall))
        as (o & Ho & Hod)
  end.
  exists o, days.
  split; [exact Ho|]. split; [exact Hod|]. split; [exact Hlen|].
  intros i d Hd. exact (Hall i d Hd).
Qed.

End Template.

(** ** The total cost of a normalised itinerary *)

Section TotalCost.
Import ItineraryService.

Lemma foldM_addActivityCost_normal (items : list value) :
  Forall Shape.activity items ->
  forall total, exists total',
    foldM addActivityCost items total = Ret total' /\ total' == total.
Proof.
  induction 1 as [|a items (o & -> & Hdom) _ IH]; intros total.
  - exists total. split; reflexivity.
  - destruct (IH (total + 0)) as (total' & Hfold & Heq).
    exists total'. split; [|rewrite Heq; ring].
    assert (Hstep : addActivityCost total (VObj o) = Ret (total + 0)).
    { unfold addActivityCost, Js.get.
      now rewrite (not_activity_key o "cost" Hdom cost_not_a_key). }
    cbn [foldM]. rewrite Hstep. exact Hfold.
Qed.

(** The inner loop adds nothing: a normalised activity has no [cost]. *)
Lemma addDayCost_normal (total : Q) (d : value) :
  Shape.day d ->
  exists total',
    total' == total /\
    addDayCost total d =
    Js.add total' (Js.or (View.field d "daily_cost") (VNum 0)).
Proof.
  intros (o & items & -> & Hacts & Hitems).
  destruct (foldM_addActivityCost_normal items Hitems total)
    as (total' & Hfold & Heq).
  exists total'. split; [exact Heq|].
  unfold addDayCost, Js.get. rewrite Hacts.
  cbn [default from_option id mbind outcome_bind]. rewrite Hfold.
  reflexivity.
Qed.

Lemma add_or_zero (total r : Q) (d : value) :
  Js.add total (Js.or (View.field d "daily_cost") (VNum 0)) = Ret r ->
  r == total + View.number d "daily_cost".
Proof.
  unfold View.number, Js.or.
  destruct (View.field d "daily_cost") as [| | | q | | |] eqn:E;
    simpl; try discriminate;
    try (intros H; injection H as <-; reflexivity).
  - destruct b; [discriminate|]. intros H. injection H as <-. reflexivity.
  - destruct (JsMath.falsy q) eqn:F; simpl; intros H; injection H as <-.
    + apply falsy_spec in F. rewrite F. reflexivity.
    + reflexivity.
  - destruct (negb (s =? "")%string); [discriminate|].
    intros H. injection H as <-. reflexivity.
Qed.

Lemma foldM_addDayCost_normal (days : list value) :
  Forall Shape.day days ->
  forall total r,
    foldM addDayCost days total = Ret r -> r == total + dailyCosts days.
Proof.
  induction 1 as [|d days Hd _ IH]; intros total r H.
  - injection H as <-. unfold dailyCosts. cbn [fmap list_fmap foldr]. ring.
  - cbn [foldM] in H. apply bind_ret in H as (t1 & H1 & H).
    destruct (addDayCost_normal total d Hd) as (total' & Heq & Hstep).
    rewrite Hstep in H1. apply add_or_zero in H1.
    apply IH in H. rewrite H, H1, Heq.
    unfold dailyCosts. cbn [fmap list_fmap foldr]. ring.
Qed.

(** Only the daily costs reach the total. *)
Lemma calculateTotalCost_normal (o : gmap string value) (c : Q) :
  Shape.itinerary o ->
  calculateTotalCost (VObj o) = Ret c ->
  c = JsMath.round2 (dailyCosts (View.daysOf o)).
Proof.
  intros (days & Hdays & Hnormal) H.
  unfold calculateTotalCost, Js.get in H. unfold View.daysOf.
  rewrite Hdays in *. cbn [default from_option id mbind outcome_bind] in H.
  apply bind_ret in H as (total & Hfold & H). injection H as <-.
  apply round2_comp.
  rewrite (foldM_addDayCost_normal days Hnormal 0 total Hfold). ring.
Qed.

Lemma foldM_addDayCost_template (tripData : TripRequest)
  (days : list value) :
  forall (k : nat) (total : Q),
    (forall i d, days !! i = Some d ->
                 Shape.templateDay tripData (k + i) d) ->
    exists r, foldM addDayCost days total = Ret r.
Proof.
  induction days as [|d days IH]; intros k total Hall; [simpl; eauto|].
  destruct (Hall 0%nat d eq_refl) as (Hd & _ & _ & Hcost & _).
  destruct (addDayCost_normal total d Hd) as (total' & _ & Hstep).
  cbn [foldM]. rewrite Hstep, Hcost.
  unfold Js.or, Js.ofZ. destruct (Js.truthy _); simpl;
    (apply (IH (S k)); intros i d' Hd';
     replace (S k + i)%nat with (k + S i)%nat by lia; now apply Hall).
Qed.

End TotalCost.

(** ** The fallback *)

Section Fallback.
Import CarbonService OpenAIService ItineraryService.

Lemma generateTrip_ret (db : FactorStore) (geo : GeoReply) (ai : AiReply)
  (tripData : TripRequest) (o : gmap string value) (e : Emissions) (c : Q) :
  let locationData :=
    match geo with
    | Located l => l
    | GeocodeFailure =>
        {| formatted_address := VStr (destination tripData);
           latitude := VNum 0; longitude := VNum 0; place_id := VNull |}
    end in
  let enhanced := enhanceItineraryWithPlaceData o locationData in
  generateItinerary ai tripData = Ret o ->
  calculateTripEmissions db
    (input (VStr (accommodation_preference tripData))
       (Js.ofZ (numDaysOf tripData)) (VObj enhanced) (VNum 0)) = Ret e ->
  calculateTotalCost (VObj enhanced) = Ret c ->
  generateTrip db geo ai tripData =
  Ret {| itinerary :=
           <["activities_carbon" := VNum (activities e)]>
             (<["accommodation_carbon" := VNum (accommodation e)]>
                (<["transport_carbon" := VNum (transport e)]> enhanced));
         location := locationData;
         total_carbon_kg := total e;
         total_cost := c;
         green_score :=
           calculateGreenScore (total e) (inject_Z (numDaysOf tripData));
         carbon_breakdown := e |}.
Proof.
  intros locationData enhanced Ho He Hc. unfold generateTrip.
  rewrite Ho. cbn [mbind outcome_bind].
  fold locationData. fold enhanced. rewrite He. cbn [mbind outcome_bind].
  rewrite Hc. reflexivity.
Qed.

(** C7 (as stated, refuted): the template is not made of zero-cost
    activities; the second activity of a template day costs 15. *)
Lemma template_itinerary_counterexample :
  ~ (forall (tripData : TripRequest) (o : gmap string value),
        generateDemoItinerary tripData = Ret o ->
        Forall (fun d =>
                  Forall (fun a => View.number a "estimated_cost" == 0)
                    (View.activitiesOf d))
          (View.daysOf o)).
Proof.
  intros H.
  destruct (generateDemoItinerary_days Sample.dayTrip)
    as (o & days & Ho & Hdays & Hlen & Hall).
  specialize (H Sample.dayTrip o Ho).
  unfold View.daysOf in H. rewrite Hdays in H.
  destruct days as [|d days]; [discriminate Hlen|].
  apply Forall_cons in H as [H _].
  destruct (Hall 0%nat d eq_refl) as (_ & _ & _ & _ & _ & _ & Hcost).
  destruct (View.activitiesOf d) as [|a0 [|a1 rest]]; try discriminate Hcost.
  apply Forall_cons in H as [_ H]. apply Forall_cons in H as [H _].
  cbn [fmap list_fmap] in Hcost. injection Hcost as _ Hcost _.
  unfold View.number in H. rewrite Hcost in H. discriminate H.
Qed.

(** C7 (amended): the template itinerary substituted on provider failure
    is a function of the request alone; it has one day for each day of
    the request, dated from the start date on and numbered from 1, and
    each day holds the same five activities, all reached on foot, with
    estimated costs 0, 15, 25, 10 and 0. *)
Theorem template_itinerary (tripData : TripRequest) :
  (start_date tripData <= end_date tripData)%Z ->
  exists (o : gmap string value) (days : list value),
    generateDemoItinerary tripData = Ret o /\
    o !! "days" = Some (VArr days) /\
    Z.of_nat (length days) =
      (end_date tripData - start_date tripData + 1)%Z /\
    forall i d, days !! i = Some d -> Shape.templateDay tripData i d.
Proof.
  intros Hle.
  destruct (generateDemoItinerary_days tripData)
    as (o & days & Ho & Hdays & Hlen & Hall).
  exists o, days.
  split; [exact Ho|]. split; [exact Hdays|]. split; [|exact Hall].
  rewrite Hlen. unfold numDaysOf, Calendar.differenceInDays. lia.
Qed.

Lemma template_itinerary_witness :
  exists (o : gmap string value) (days : list value),
    generateDemoItinerary Sample.paris = Ret o /\
    o !! "days" = Some (VArr days) /\
    Z.of_nat (length days) = (20611 - 20605 + 1)%Z /\
    forall i d, days !! i = Some d -> Shape.templateDay Sample.paris i d.
Proof. apply (template_itinerary Sample.paris). discriminate. Defined.

(** C6: when the provider fails, whatever the factor store and the
    geocoder do, [generateTrip] returns a trip and throws nothing; its
    itinerary has one day for each day from the start date to the end
    date, dated in order, each with a non-empty activity list. *)
Theorem fallback_trip (db : FactorStore) (geo : GeoReply)
  (tripData : TripRequest) :
  (start_date tripData <= end_date tripData)%Z ->
  exists (trip : Trip) (days : list value),
    generateTrip db geo ProviderFailure tripData = Ret trip /\
    itinerary trip !! "days" = Some (VArr days) /\
    Z.of_nat (length days) =
      (end_date tripData - start_date tripData + 1)%Z /\
    Forall (fun d => View.activitiesOf d <> []) days /\
    forall i d,
      days !! i = Some d ->
      View.field d "date" =
        VStr (Calendar.isoDate (start_date tripData + Z.of_nat i)).
Proof.
  intros Hle.
  destruct (generateDemoItinerary_days tripData)
    as (o & days & Ho & Hdays & Hlen & Hall).
  assert (Hgen : generateItinerary ProviderFailure tripData = Ret o)
    by exact Ho.
  pose proof (generateItinerary_shape _ _ _ Hgen) as Hshape.
  set (locationData :=
         match geo with
         | Located l => l
         | GeocodeFailure =>
             {| formatted_address := VStr (destination tripData);
                latitude := VNum 0; longitude := VNum 0;
                place_id := VNull |}
         end).
  set (enhanced := enhanceItineraryWithPlaceData o locationData).
  assert (Hshape' : Shape.itinerary enhanced)
    by (apply shape_insert; [discriminate | exact Hshape]).
  assert (Hdays' : enhanced !! "days" = Some (VArr days)).
  { unfold enhanced, enhanceItineraryWithPlaceData.
    now rewrite lookup_insert_ne by discriminate. }
  destruct (calculateTripEmissions_normal db
              (accommodation_preference tripData)
              (inject_Z (numDaysOf tripData)) enhanced Hshape')
    as (kg & _ & He).
  destruct (foldM_addDayCost_template tripData days 0 0 Hall) as (r & Hr).
  assert (Hc : calculateTotalCost (VObj enhanced) = Ret (JsMath.round2 r)).
  { unfold calculateTotalCost, Js.get. rewrite Hdays'.
    cbn [default from_option id mbind outcome_bind]. now rewrite Hr. }
  eexists _, days. split.
  - exact (generateTrip_ret db geo ProviderFailure tripData o _ _ Hgen He Hc).
  - cbn [itinerary]. fold locationData. fold enhanced.
    split; [now rewrite !lookup_insert_ne by discriminate|].
    split.
    { rewrite Hlen. unfold numDaysOf, Calendar.differenceInDays. lia. }
    split.
    + apply Forall_lookup. intros i d Hd.
      destruct (Hall i d Hd) as (_ & _ & _ & _ & Hfive & _).
      intros Hnil. rewrite Hnil in Hfive. discriminate Hfive.
    + intros i d Hd. now destruct (Hall i d Hd) as (_ & Hdate & _).
Qed.

Lemma fallback_trip_witness :
  exists (trip : Trip) (days : list value),
    generateTrip seededFactors GeocodeFailure ProviderFailure Sample.paris
    = Ret trip /\
    itinerary trip !! "days" = Some (VArr days) /\
    Z.of_nat (length days) = (20611 - 20605 + 1)%Z /\
    Forall (fun d => View.activitiesOf d <> []) days /\
    forall i d,
      days !! i = Some d ->
      View.field d "date" = VStr (Calendar.isoDate (20605 + Z.of_nat i)).
Proof.
  apply (fallback_trip seededFactors GeocodeFailure Sample.paris).
  discriminate.
Defined.

(** For every generated trip the total cost is the rounded sum of the
    daily costs: no activity adds to it. *)
Lemma generated_trip_total_cost (db : FactorStore) (geo : GeoReply)
  (ai : AiReply) (tripData : TripRequest) (trip : Trip) :
  generateTrip db geo ai tripData = Ret trip ->
  total_cost trip = JsMath.round2 (dailyCosts (View.daysOf (itinerary trip))).
Proof.
  intros H.
  apply generateTrip_inv in H
    as (o & emissions & totalCost & Ho & _ & Hc & Hit & _ & _ & Htc & _).
  apply generateItinerary_shape in Ho.
  apply calculateTotalCost_normal in Hc;
    [|apply shape_insert; [discriminate | exact Ho]].
  rewrite Htc, Hc, Hit. unfold View.daysOf.
  now rewrite !lookup_insert_ne by discriminate.
Qed.

(** C1 on the one-day request with budget 100 and a failing provider:
    the itinerary returned holds activities estimated at 0, 15, 25, 10
    and 0 and a daily cost of 80, which the specification adds up to 130;
    the total cost returned is 80. *)
Theorem total_cost_of_day_trip :
  exists trip,
    generateTrip seededFactors GeocodeFailure ProviderFailure Sample.dayTrip
    = Ret trip /\
    total_cost trip == 80 /\
    JsMath.round2 (statedTotalCost (itinerary trip)) == 130.
Proof.
  destruct (returns_checked
              (generateTrip seededFactors GeocodeFailure ProviderFailure
                 Sample.dayTrip)
              (fun trip =>
                 Qeq_bool (total_cost trip) 80 &&
                 Qeq_bool (JsMath.round2 (statedTotalCost (itinerary trip)))
                   130))
    as (trip & Hret & Hp); [vm_compute; reflexivity|].
  apply andb_prop in Hp as [H1 H2].
  exists trip. split; [exact Hret|].
  split; now apply Qeq_bool_eq.
Qed.

(** The end-to-end request of the specification, with the provider down:
    seven days dated 2026-06-01 to 2026-06-07, seven standard hotel nights
    of emissions, and a score within range. *)
Example paris_fallback :
  exists trip,
    generateTrip seededFactors GeocodeFailure ProviderFailure Sample.paris
    = Ret trip /\
    (fun d => View.text d "date") <$> View.daysOf (itinerary trip) =
      ["2026-06-01"; "2026-06-02"; "2026-06-03"; "2026-06-04";
       "2026-06-05"; "2026-06-06"; "2026-06-07"] /\
    total_carbon_kg trip == 146.3 /\
    total_cost trip == 1603 /\
    green_score trip = 38%Z.
Proof.
  destruct (returns_checked
              (generateTrip seededFactors GeocodeFailure ProviderFailure
                 Sample.paris)
              (fun trip =>
                 bool_decide
                   ((fun d => View.text d "date")
                      <$> View.daysOf (itinerary trip) =
                    ["2026-06-01"; "2026-06-02"; "2026-06-03"; "2026-06-04";
                     "2026-06-05"; "2026-06-06"; "2026-06-07"]) &&
                 Qeq_bool (total_carbon_kg trip) 146.3 &&
                 Qeq_bool (total_cost trip) 1603 &&
                 Z.eqb (green_score trip) 38))
    as (trip & Hret & Hp); [vm_compute; reflexivity|].
  apply andb_prop in Hp as [Hp H4]. apply andb_prop in Hp as [Hp H3].
  apply andb_prop in Hp as [H1 H2].
  exists trip. split; [exact Hret|].
  split; [now apply bool_decide_eq_true in H1|].
  split; [now apply Qeq_bool_eq|].
  split; [now apply Qeq_bool_eq | now apply Z.eqb_eq].
Qed.

(** A draft in the provider's own vocabulary: the activity's [cost] of 8
    becomes its [estimated_cost], its [category] its [type], and neither
    the cost nor the bus leg reaches the totals. *)
Example draft_trip :
  exists trip d a,
    generateTrip seededFactors GeocodeFailure (Draft Sample.draft)
      Sample.dayTrip = Ret trip /\
    View.daysOf (itinerary trip) = [d] /\
    View.activitiesOf d = [a] /\
    View.number a "estimated_cost" == 8 /\
    View.text a "type" = "museum" /\
    View.absent a "cost" = true /\
    View.absent a "category" = true /\
    View.absent a "transport_distance_km" = true /\
    total_cost trip == 60 /\
    transport (carbon_breakdown trip) == 0.
Proof.
  destruct (returns_checked
              (generateTrip seededFactors GeocodeFailure (Draft Sample.draft)
                 Sample.dayTrip)
              (fun trip =>
                 match View.daysOf (itinerary trip) with
                 | [d] =>
                     match View.activitiesOf d with
                     | [a] =>
                         Qeq_bool (View.number a "estimated_cost") 8 &&
                         String.eqb (View.text a "type") "museum" &&
                         View.absent a "cost" &&
                         View.absent a "category" &&
                         View.absent a "transport_distance_km" &&
                         Qeq_bool (total_cost trip) 60 &&
                         Qeq_bool (transport (carbon_breakdown trip)) 0
                     | _ => false
                     end
                 | _ => false
                 end))
    as (trip & Hret & Hp); [vm_compute; reflexivity|].
  destruct (View.daysOf (itinerary trip)) as [|d [|]] eqn:Hd;
    try discriminate Hp.
  destruct (View.activitiesOf d) as [|a [|]] eqn:Ha; try discriminate Hp.
  repeat (let H := fresh "H" in apply andb_prop in Hp as [Hp H]).
  exists trip, d, a. split; [exact Hret|].
  split; [exact Hd|]. split; [exact Ha|].
  repeat split; try assumption;
    try (now apply Qeq_bool_eq); now apply String.eqb_eq.
Qed.

End Fallback.

(** * Further properties of the services *)

(** ** The three calculators *)

Section Calculators.
Import CarbonService.

Lemma Qle_bool_nonpos (q : Q) : q <= 0 -> Qle_bool q 0 = true.
Proof. intros H. now apply Qle_bool_iff. Qed.

Lemma nothing_for_zero_nights (db : FactorStore) (type : value) (n : Q) :
  n <= 0 -> calculateAccommodationEmissions db type (VNum n) = Ret 0.
Proof.
  intros Hn. unfold calculateAccommodationEmissions.
  cbn [Js.num mbind outcome_bind]. rewrite (Qle_bool_nonpos n Hn).
  now destruct (negb (Js.truthy type) || negb (Js.truthy (VNum n))).
Qed.

(** Nothing is charged for a quantity of zero or less: a distance, a
    number of nights or a count, whatever the kind asked for and whatever
    the store holds. *)
Theorem nothing_for_non_positive_quantity (db : FactorStore) (kind : value)
  (q : Q) :
  q <= 0 ->
  calculateTransportEmissions db kind (VNum q) = Ret 0 /\
  calculateAccommodationEmissions db kind (VNum q) = Ret 0 /\
  calculateActivityEmissions db kind q = Ret 0.
Proof.
  intros Hq. pose proof (Qle_bool_nonpos q Hq) as Hle.
  unfold calculateTransportEmissions, calculateAccommodationEmissions,
    calculateActivityEmissions.
  cbn [Js.num mbind outcome_bind]. rewrite Hle, orb_true_r.
  destruct (negb (Js.truthy kind) || negb (Js.truthy (VNum q))); repeat split.
Qed.

Lemma nothing_for_non_positive_quantity_witness :
  calculateTransportEmissions seededFactors (VStr "hostel") (VNum (-3))
  = Ret 0 /\
  calculateAccommodationEmissions seededFactors (VStr "hostel") (VNum (-3))
  = Ret 0 /\
  calculateActivityEmissions seededFactors (VStr "hostel") (-3) = Ret 0.
Proof.
  apply (nothing_for_non_positive_quantity seededFactors (VStr "hostel") (-3)).
  discriminate.
Defined.

Lemma calculateActivityEmissions_numeric (db : FactorStore)
  (activityType : value) (count : Q) :
  exists kg, calculateActivityEmissions db activityType count = Ret kg.
Proof.
  unfold calculateActivityEmissions.
  destruct (negb (Js.truthy activityType) || Qle_bool count 0); [eauto|].
  destruct activityType; simpl; eauto.
  unfold findByCategoryAndSubCategory.
  destruct (db "activity" _); simpl; eauto.
Qed.

(** An accommodation type without an active row of its own is charged at
    the standard-hotel factor, and at 20.9 kg a night when that row is
    missing too; a failing store costs nothing. *)
Theorem accommodation_fallback (db : FactorStore) (type : string) (n : Q) :
  type <> "" -> 0 < n ->
  db "accommodation" type = NoRow ->
  calculateAccommodationEmissions db (VStr type) (VNum n) =
  match db "accommodation" "hotel_standard" with
  | Row f => Ret (n * f)
  | NoRow => Ret (n * 20.9)
  | QueryError => Ret 0
  end.
Proof.
  intros Ht Hn Hrow. unfold calculateAccommodationEmissions.
  rewrite (truthy_str _ Ht), (truthy_pos _ Hn).
  cbn [negb orb Js.num mbind outcome_bind]. rewrite (Qle_bool_pos _ Hn).
  cbn [Js.str mbind outcome_bind]. unfold findByCategoryAndSubCategory.
  rewrite Hrow. cbn [mbind outcome_bind].
  destruct (db "accommodation" "hotel_standard"); reflexivity.
Qed.

Lemma accommodation_fallback_witness :
  calculateAccommodationEmissions seededFactors (VStr "treehouse") (VNum 3) =
  Ret (3 * 20.9).
Proof.
  apply (accommodation_fallback seededFactors "treehouse" 3);
    [discriminate | reflexivity | reflexivity].
Defined.

(** An activity type without an active row is charged 1.5 kg per
    occurrence, whether or not it went through the alias table; a failing
    store costs nothing. *)
Theorem activity_fallback (db : FactorStore) (type : string) (count : Q) :
  type <> "" -> 0 < count ->
  calculateActivityEmissions db (VStr type) count =
  match db "activity" (lookupOr activityMap (Js.lowerString type) (VStr type))
  with
  | Row f => Ret (count * f)
  | NoRow => Ret (count * 1.5)
  | QueryError => Ret 0
  end.
Proof.
  intros Ht Hc. unfold calculateActivityEmissions.
  rewrite (truthy_str _ Ht), (Qle_bool_pos _ Hc).
  cbn [negb orb Js.toLowerCase mbind outcome_bind].
  unfold findByCategoryAndSubCategory.
  destruct (db "activity" _); reflexivity.
Qed.

Lemma activity_fallback_witness :
  calculateActivityEmissions seededFactors (VStr "karaoke") 2 = Ret (2 * 1.5).
Proof.
  apply (activity_fallback seededFactors "karaoke" 2);
    [discriminate | reflexivity].
Defined.

Lemma lowerString_empty (s : string) : Js.lowerString s = "" -> s = "".
Proof. destruct s; [reflexivity | discriminate]. Qed.

(** The alias table is read without regard to case: two spellings of an
    alias ("Car", "CAR", "car") are charged alike, for every store and
    every distance. *)
Theorem alias_ignores_case (db : FactorStore) (m1 m2 : string)
  (distanceKm : value) :
  Js.lowerString m1 = Js.lowerString m2 ->
  is_Some (modeMap !! Js.lowerString m1) ->
  calculateTransportEmissions db (VStr m1) distanceKm =
  calculateTransportEmissions db (VStr m2) distanceKm.
Proof.
  intros Hlow [sub Hsub].
  assert (Htruthy : Js.truthy (VStr m1) = Js.truthy (VStr m2)).
  { simpl. destruct (String.eqb_spec m1 ""), (String.eqb_spec m2 "");
      try reflexivity; subst; exfalso.
    - apply n. apply lowerString_empty. now rewrite <- Hlow.
    - apply n. apply lowerString_empty. now rewrite Hlow. }
  unfold calculateTransportEmissions. rewrite Htruthy.
  cbn [Js.toLowerCase mbind outcome_bind]. rewrite <- Hlow.
  unfold lookupOr. rewrite Hsub. reflexivity.
Qed.

Lemma alias_ignores_case_witness :
  calculateTransportEmissions seededFactors (VStr "Train") (VNum 120) =
  calculateTransportEmissions seededFactors (VStr "TRAIN") (VNum 120).
Proof.
  apply (alias_ignores_case seededFactors "Train" "TRAIN");
    [reflexivity | eexists; reflexivity].
Defined.

(** Outside the alias table a name is looked up as it is written: the
    seeded row [train_national] is not found under another case, and the
    car average is charged instead. *)
Example unaliased_name_keeps_its_case :
  exists lower upper,
    calculateTransportEmissions seededFactors (VStr "train_national")
      (VNum 100) = Ret lower /\
    calculateTransportEmissions seededFactors (VStr "TRAIN_NATIONAL")
      (VNum 100) = Ret upper /\
    lower == 4.1 /\ upper == 17.1.
Proof.
  eexists _, _. split; [vm_compute; reflexivity|].
  split; [vm_compute; reflexivity|]. split; reflexivity.
Qed.

End Calculators.

(** ** Trip emissions are never negative *)

Section NonNegative.
Import CarbonService.

Lemma round_nonneg (x : Q) : 0 <= x -> (0 <= JsMath.round x)%Z.
Proof.
  intros H. change 0%Z with (JsMath.round (inject_Z 0)) at 1.
  rewrite <- (round_Z 0) at 1. apply round_mono. exact H.
Qed.

Lemma round2_nonneg (x : Q) : 0 <= x -> 0 <= JsMath.round2 x.
Proof.
  intros H. unfold JsMath.round2.
  assert (Hr : (0 <= JsMath.round (x * 100))%Z) by (apply round_nonneg; nra).
  apply Qle_shift_div_l; [reflexivity|].
  rewrite Qmult_0_l. change 0 with (inject_Z 0). now rewrite <- Zle_Qle.
Qed.

Variable db : FactorStore.
Hypothesis Hstore : forall category subCategory f,
    db category subCategory = Row f -> 0 <= f.

Lemma find_nonneg (category subCategory : string) (o : option Q) :
  findByCategoryAndSubCategory db category subCategory = Ret o ->
  forall f, o = Some f -> 0 <= f.
Proof.
  unfold findByCategoryAndSubCategory.
  destruct (db category subCategory) eqn:E; intros H; try discriminate H;
    injection H as <-; intros f Hf; try discriminate Hf.
  injection Hf as <-. eapply Hstore, E.
Qed.

Ltac settle E :=
  let H := fresh in
  cbn [mbind outcome_bind try_catch]; intros H; try discriminate H;
  injection H as <-;
  first [ apply Qle_refl
        | pose proof (find_nonneg _ _ _ E _ eq_refl); nra
        | nra ].

Lemma positive_when_not_le (q : Q) : Qle_bool q 0 = false -> 0 <= q.
Proof.
  intros H. destruct (Qlt_le_dec 0 q) as [Hlt|Hle]; [lra|].
  apply Qle_bool_iff in Hle. congruence.
Qed.

Lemma calculateTransportEmissions_nonneg (mode distanceKm : value) (kg : Q) :
  calculateTransportEmissions db mode distanceKm = Ret kg -> 0 <= kg.
Proof.
  unfold calculateTransportEmissions.
  destruct (negb (Js.truthy mode) || negb (Js.truthy distanceKm)).
  { intros H. injection H as <-. apply Qle_refl. }
  destruct distanceKm as [| | | d | | |]; try discriminate.
  cbn [Js.num mbind outcome_bind].
  destruct (Qle_bool d 0) eqn:Hd.
  { intros H. injection H as <-. apply Qle_refl. }
  apply positive_when_not_le in Hd.
  destruct mode; cbn [Js.toLowerCase mbind outcome_bind try_catch];
    try (intros H; injection H as <-; apply Qle_refl).
  destruct (findByCategoryAndSubCategory db "transport" (lookupOr _ _ _))
    as [[f|]| |] eqn:E; try settle E.
  cbn [mbind outcome_bind].
  destruct (findByCategoryAndSubCategory db "transport" "car_average")
    as [[f2|]| |] eqn:E2; settle E2.
Qed.

Lemma calculateAccommodationEmissions_nonneg (type nights : value) (kg : Q) :
  calculateAccommodationEmissions db type nights = Ret kg -> 0 <= kg.
Proof.
  unfold calculateAccommodationEmissions.
  destruct (negb (Js.truthy type) || negb (Js.truthy nights)).
  { intros H. injection H as <-. apply Qle_refl. }
  destruct nights as [| | | n | | |]; try discriminate.
  cbn [Js.num mbind outcome_bind].
  destruct (Qle_bool n 0) eqn:Hn.
  { intros H. injection H as <-. apply Qle_refl. }
  apply positive_when_not_le in Hn.
  destruct type; cbn [Js.str mbind outcome_bind try_catch];
    try discriminate.
  destruct (findByCategoryAndSubCategory db "accommodation" s)
    as [[f|]| |] eqn:E; try settle E.
  cbn [mbind outcome_bind].
  destruct (findByCategoryAndSubCategory db "accommodation" "hotel_standard")
    as [[f2|]| |] eqn:E2; settle E2.
Qed.

Lemma calculateActivityEmissions_nonneg (activityType : value) (count kg : Q) :
  calculateActivityEmissions db activityType count = Ret kg -> 0 <= kg.
Proof.
  unfold calculateActivityEmissions.
  destruct (Qle_bool count 0) eqn:Hc.
  { rewrite orb_true_r. intros H. injection H as <-. apply Qle_refl. }
  rewrite orb_false_r. apply positive_when_not_le in Hc.
  destruct (negb (Js.truthy activityType)).
  { intros H. injection H as <-. apply Qle_refl. }
  destruct activityType; cbn [Js.toLowerCase mbind outcome_bind try_catch];
    try (intros H; injection H as <-; apply Qle_refl).
  destruct (findByCategoryAndSubCategory db "activity" _) as [[f|]| |] eqn:E;
    settle E.
Qed.

Lemma foldM_invariant {A B : Type} (f : B -> A -> outcome B) (P : B -> Prop) :
  (forall b a b', P b -> f b a = Ret b' -> P b') ->
  forall (l : list A) (b b' : B), P b -> foldM f l b = Ret b' -> P b'.
Proof.
  intros Hf. induction l as [|a l IH]; intros b b' Hb H.
  - injection H as <-. exact Hb.
  - cbn [foldM] in H. apply bind_ret in H as (b1 & H1 & H). eauto.
Qed.

Lemma activityStep_nonneg (acc acc' : Q * Q) (activity : value) :
  bothNonNegative acc -> activityStep db acc activity = Ret acc' ->
  bothNonNegative acc'.
Proof.
  destruct acc as [t c]. intros [Ht Hc]. cbn [fst snd] in Ht, Hc.
  unfold activityStep. intros H.
  apply bind_ret in H as (category & _ & H).
  apply bind_ret in H as (c1 & Hc1 & H).
  apply bind_ret in H as (dist & _ & H).
  apply bind_ret in H as (mode & _ & H).
  apply bind_ret in H as (t1 & Ht1 & H).
  injection H as <-. split; cbn [fst snd].
  - destruct (Js.truthy dist && Js.truthy mode).
    + apply bind_ret in Ht1 as (e & He & Ht1). injection Ht1 as <-.
      apply calculateTransportEmissions_nonneg in He. lra.
    + now injection Ht1 as <-.
  - destruct (Js.truthy category).
    + apply bind_ret in Hc1 as (e & He & Hc1). injection Hc1 as <-.
      apply calculateActivityEmissions_nonneg in He. lra.
    + now injection Hc1 as <-.
Qed.

Lemma dayStep_nonneg (acc acc' : Q * Q) (day : value) :
  bothNonNegative acc -> dayStep db acc day = Ret acc' ->
  bothNonNegative acc'.
Proof.
  intros Hacc. unfold dayStep. intros H.
  apply bind_ret in H as (dayActivities & _ & H).
  destruct (Js.truthy dayActivities).
  - apply bind_ret in H as (items & _ & H).
    eapply (foldM_invariant (activityStep db) bothNonNegative); eauto.
    intros b a b'. apply activityStep_nonneg.
  - now injection H as <-.
Qed.

Lemma components_nonneg (tripData : value) (t a c : Q) :
  components db tripData = Ret (t, a, c) -> 0 <= t /\ 0 <= a /\ 0 <= c.
Proof.
  unfold components. intros H.
  apply bind_ret in H as (preference & _ & H).
  apply bind_ret in H as (nights & _ & H).
  apply bind_ret in H as (a1 & Ha1 & H).
  apply bind_ret in H as (itinerary & _ & H).
  apply bind_ret in H as ([t1 c1] & Hloop & H).
  apply bind_ret in H as (dist & _ & H).
  apply bind_ret in H as (t2 & Ht2 & H).
  injection H as <- <- <-.
  assert (Ha : 0 <= a1).
  { destruct (Js.truthy preference && Js.truthy nights).
    - eapply calculateAccommodationEmissions_nonneg, Ha1.
    - injection Ha1 as <-. apply Qle_refl. }
  assert (Hacc : bothNonNegative (t1, c1)).
  { destruct (Js.truthy itinerary).
    - apply bind_ret in Hloop as (days & _ & Hloop).
      destruct (Js.truthy days).
      + apply bind_ret in Hloop as (items & _ & Hloop).
        refine (foldM_invariant (dayStep db) bothNonNegative _ items (0, 0)
                  _ _ Hloop).
        * intros b d b'. apply dayStep_nonneg.
        * split; apply Qle_refl.
      + injection Hloop as <- <-. split; cbn [fst snd]; apply Qle_refl.
    - injection Hloop as <- <-. split; cbn [fst snd]; apply Qle_refl. }
  destruct Hacc as [Ht1 Hc1]. cbn [fst snd] in Ht1, Hc1.
  split; [|split; assumption].
  destruct (Js.truthy dist); [|now injection Ht2 as <-].
  apply bind_ret in Ht2 as (d & _ & Ht2).
  destruct (JsMath.ltb 100 d); [|now injection Ht2 as <-].
  apply bind_ret in Ht2 as (e & He & Ht2). injection Ht2 as <-.
  apply calculateTransportEmissions_nonneg in He. lra.
Qed.

Lemma calculateTripEmissions_nonneg (tripData : value) (e : Emissions) :
  calculateTripEmissions db tripData = Ret e ->
  0 <= transport e /\ 0 <= accommodation e /\
  0 <= activities e /\ 0 <= total e.
Proof.
  unfold calculateTripEmissions.
  destruct (components db tripData) as [[[t a] c]| |] eqn:E;
    cbn [mbind outcome_bind try_catch]; intros H; try discriminate H;
    injection H as <-; cbn [transport accommodation activities total].
  - apply components_nonneg in E as (Ht & Ha & Hc).
    repeat split; apply round2_nonneg; lra.
  - repeat split; apply Qle_refl.
Qed.

End NonNegative.

Lemma seededFactors_nonneg (category subCategory : string) (f : Q) :
  seededFactors category subCategory = Row f -> 0 <= f.
Proof.
  unfold seededFactors.
  repeat match goal with
    | |- context [if ?c then _ else _] => destruct c
    end;
    intros H; try discriminate H; injection H as <-; discriminate.
Qed.

(** ** Exceptions inside the trip calculation *)

Section TripExceptions.
Import CarbonService.

(** The days of an itinerary that cannot be walked through: something
    truthy that is neither an array nor a string. *)
Lemma iterate_throws (days : value) :
  Js.truthy days = true ->
  match days with VArr _ | VStr _ => False | _ => True end ->
  Js.iterate days = Throw.
Proof. destruct days; simpl; intros _ H; try reflexivity; destruct H. Qed.

(** When the days of the itinerary cannot be iterated, or the first day
    is [null], the exception is caught at the end and all four figures
    are 0: the accommodation emissions already computed are given up
    with the rest. *)
Theorem broken_itinerary_yields_zeros (db : FactorStore) (type : string)
  (n : Q) (o : gmap string value) (days distance : value) :
  o !! "days" = Some days ->
  Js.truthy days = true ->
  match days with
  | VArr (VNull :: _) => True
  | VArr _ | VStr _ => False
  | _ => True
  end ->
  calculateTripEmissions db (input (VStr type) (VNum n) (VObj o) distance)
  = Ret zero.
Proof.
  intros Hdays Htruthy Hbroken. unfold calculateTripEmissions, components.
  change (Js.get (input (VStr type) (VNum n) (VObj o) distance)
            "accommodation_preference") with (Ret (VStr type)).
  change (Js.get (input (VStr type) (VNum n) (VObj o) distance) "nights")
    with (Ret (VNum n)).
  change (Js.get (input (VStr type) (VNum n) (VObj o) distance) "itinerary")
    with (Ret (VObj o)).
  cbn [mbind outcome_bind].
  change (if Js.truthy (VStr type) && Js.truthy (VNum n)
          then calculateAccommodationEmissions db (VStr type) (VNum n)
          else Ret 0) with (accommodationOf db type n).
  destruct (accommodationOf_numeric db type n) as (kg & ->).
  cbn [mbind outcome_bind Js.truthy]. unfold Js.get. rewrite Hdays.
  cbn [default from_option id mbind outcome_bind]. rewrite Htruthy.
  destruct days as [| | | | |items|]; try destruct Hbroken;
    try reflexivity.
  destruct items as [|[| | | | | |] items]; try destruct Hbroken.
  reflexivity.
Qed.

Lemma broken_itinerary_yields_zeros_witness :
  calculateTripEmissions seededFactors
    (input (VStr "hostel") (VNum 3)
       (VObj (list_to_map [("days", VNum 7)])) VUndef) = Ret zero.
Proof.
  apply (broken_itinerary_yields_zeros seededFactors "hostel" 3
           (list_to_map [("days", VNum 7)]) (VNum 7) VUndef);
    [reflexivity | reflexivity | exact I].
Defined.

End TripExceptions.

(** ** The green score along the trip length *)

Section GreenScoreDays.
Import CarbonService.

(** The same positive total spread over more days never scores lower. *)
Theorem green_score_longer_trip (x d1 d2 : Q) :
  0 < x -> 0 < d1 -> d1 <= d2 ->
  (calculateGreenScore x d1 <= calculateGreenScore x d2)%Z.
Proof.
  intros Hx Hd1 Hd.
  rewrite !calculateGreenScore_pos by lra.
  apply Z.max_le_compat_l, Z.min_le_compat_l, round_mono.
  apply scoreCurve_antitone.
  apply Qle_shift_div_l; [lra|].
  assert (H : x / d2 * d1 == x * (d1 / d2)) by (field; lra).
  rewrite H.
  assert (H1 : d1 / d2 <= 1) by (apply Qle_shift_div_r; lra).
  nra.
Qed.

Lemma green_score_longer_trip_witness :
  (calculateGreenScore 140 7 <= calculateGreenScore 140 14)%Z.
Proof.
  apply (green_score_longer_trip 140 7 14);
    [reflexivity | reflexivity | discriminate].
Defined.

(** The score is 0 whenever the trip length is zero or negative, and
    whenever the average reaches 100 kg a day. *)
Theorem green_score_bottom (x d : Q) :
  d <= 0 \/ (0 < d /\ 100 * d <= x) ->
  calculateGreenScore x d = 0%Z.
Proof.
  intros [Hd | [Hd Hx]].
  - unfold calculateGreenScore. rewrite (Qle_bool_nonpos d Hd).
    now rewrite !orb_true_r.
  - rewrite calculateGreenScore_pos; [|nra|exact Hd].
    assert (Hdaily : 100 <= x / d) by (apply Qle_shift_div_l; lra).
    revert Hdaily. generalize (x / d). intros daily Hdaily.
    rewrite (round_between 0).
    + reflexivity.
    + change (inject_Z 0) with 0.
      unfold scoreCurve, branchVeryHigh.
      rewrite !(proj2 (ltb_false _ _)) by lra.
      destruct (max_spec 0 (10 - (daily - 50) * (2 # 10))) as [[? ->]|[? ->]];
        lra.
    + change (inject_Z (0 + 1)) with 1.
      unfold scoreCurve, branchVeryHigh.
      rewrite !(proj2 (ltb_false _ _)) by lra.
      destruct (max_spec 0 (10 - (daily - 50) * (2 # 10))) as [[? ->]|[? ->]];
        lra.
Qed.

Lemma green_score_bottom_witness :
  calculateGreenScore 1000 7 = 0%Z.
Proof.
  apply (green_score_bottom 1000 7). right. split; [reflexivity | discriminate].
Defined.

End GreenScoreDays.

(** ** Normalising twice *)

Section Idempotence.
Import OpenAIService.

Lemma or_idem (a b : value) : Js.or (Js.or a b) b = Js.or a b.
Proof.
  unfold Js.or. destruct (Js.truthy a) eqn:Ha.
  - now rewrite Ha.
  - now destruct (Js.truthy b).
Qed.

Lemma or_undef (b : value) : Js.or VUndef b = b.
Proof. reflexivity. Qed.

Lemma or_chain_idem (a b c : value) :
  Js.or (Js.or a (Js.or b c)) c = Js.or a (Js.or b c).
Proof.
  unfold Js.or at 2 4. destruct (Js.truthy a) eqn:Ha.
  - unfold Js.or. now rewrite Ha.
  - apply or_idem.
Qed.

(** What the normaliser reads and what it builds. *)
Lemma enhanceActivity_literal (index actIndex : nat) (a a' : value) :
  enhanceActivity index actIndex a = Ret a' ->
  exists id time title name location duration_hours estimated_cost cost
         carbon_kg type category description transport_mode eco_alternative
         sustainability_tip,
    a' = activityLiteral index actIndex id time title name location
           duration_hours estimated_cost cost carbon_kg type category
           description transport_mode eco_alternative sustainability_tip.
Proof.
  intros H. destruct a; try discriminate H; injection H as <-;
    do 15 eexists; reflexivity.
Qed.

Lemma enhanceActivity_idem (index actIndex : nat) (a a' : value) :
  enhanceActivity index actIndex a = Ret a' ->
  enhanceActivity index actIndex a' = Ret a'.
Proof.
  intros H.
  apply enhanceActivity_literal in H
    as (id & time & title & name & location & duration_hours &
        estimated_cost & cost & carbon_kg & type & category & description &
        transport_mode & eco_alternative & sustainability_tip & ->).
  set (idText := VStr (pretty (index + 1)%nat +:+ "-" +:+
                       pretty (actIndex + 1)%nat)).
  change (enhanceActivity index actIndex
            (activityLiteral index actIndex id time title name location
               duration_hours estimated_cost cost carbon_kg type category
               description transport_mode eco_alternative sustainability_tip))
    with (Ret (activityLiteral index actIndex
                 (Js.or id idText)
                 (Js.or time (VStr "09:00"))
                 (Js.or title (Js.or name (VStr "Unnamed Activity")))
                 VUndef
                 (Js.or location (VStr ""))
                 (Js.or duration_hours (VNum 2))
                 (Js.or estimated_cost (Js.or cost (VNum 0)))
                 VUndef
                 (Js.or carbon_kg (VNum 1.5))
                 (Js.or type (Js.or category (VStr "tour")))
                 VUndef
                 (Js.or description (VStr ""))
                 (Js.or transport_mode (VStr "walking"))
                 (Js.or eco_alternative (Js.or sustainability_tip (VStr "")))
                 VUndef)).
  unfold activityLiteral. fold idText.
  rewrite !or_undef, !or_chain_idem, !or_idem. reflexivity.
Qed.

Lemma mapM_from_again {A : Type} (f g : nat -> A -> outcome A) :
  (forall i a b, f i a = Ret b -> g i b = Ret b) ->
  forall (l bs : list A) (k : nat),
    mapM_from f k l = Ret bs -> mapM_from g k bs = Ret bs.
Proof.
  intros Hfg. induction l as [|a l IH]; intros bs k H; simpl in H.
  - injection H as <-. reflexivity.
  - apply bind_ret in H as (b & Hb & H).
    apply bind_ret in H as (bs' & Hbs & H). injection H as <-.
    cbn [mapM_from]. rewrite (Hfg _ _ _ Hb). cbn [mbind outcome_bind].
    now rewrite (IH _ _ Hbs).
Qed.

(** The object [enhanceDay] returns. *)
Lemma enhanceDay_inv (startDate : Z) (index : nat) (d d' : value) :
  enhanceDay startDate index d = Ret d' ->
  exists dayNumber items enhanced,
    Js.get d "day" = Ret dayNumber /\
    items = View.activitiesOf d /\
    mapM_from (enhanceActivity index) 0 items = Ret enhanced /\
    d' = VObj
           (<["activities" := VArr enhanced]>
              (<["date" := VStr (Calendar.isoDate
                                   (startDate + Z.of_nat index))]>
                 (<["day" := Js.or dayNumber (Js.ofNat (index + 1))]>
                    (Js.spread d)))).
Proof.
  unfold enhanceDay. intros H.
  apply bind_ret in H as (dayNumber & Hday & H).
  apply bind_ret in H as (dayActivities & Hacts & H).
  apply bind_ret in H as (items & Hitems & H).
  apply bind_ret in H as (enhanced & Henh & H).
  injection H as <-.
  exists dayNumber, items, enhanced. repeat split; try assumption.
  unfold View.activitiesOf, View.field.
  destruct d; try discriminate Hday; cbn [Js.get] in Hacts;
    injection Hacts as <-; cbn [Js.truthy] in Hitems;
    try (now injection Hitems as <-).
  destruct (default VUndef (props !! "activities")) as [| | | | |l|];
    cbn [Js.truthy] in Hitems;
    repeat match type of Hitems with
      | (if ?c then _ else _) = _ => destruct c
      end;
    try discriminate Hitems; now injection Hitems as <-.
Qed.

Lemma enhanceDay_idem (startDate : Z) (index : nat) (d d' : value) :
  enhanceDay startDate index d = Ret d' ->
  enhanceDay startDate index d' = Ret d'.
Proof.
  intros H.
  apply enhanceDay_inv in H
    as (dayNumber & items & enhanced & _ & _ & Henh & ->).
  set (N := Js.or dayNumber (Js.ofNat (index + 1))).
  set (D := VStr (Calendar.isoDate (startDate + Z.of_nat index))).
  set (m := <["activities" := VArr enhanced]>
              (<["date" := D]> (<["day" := N]> (Js.spread d)))).
  assert (Hday : m !! "day" = Some N).
  { unfold m. rewrite !lookup_insert_ne by discriminate.
    apply lookup_insert_eq. }
  assert (Hdate : m !! "date" = Some D).
  { unfold m. rewrite lookup_insert_ne by discriminate.
    apply lookup_insert_eq. }
  assert (Hacts : m !! "activities" = Some (VArr enhanced))
    by apply lookup_insert_eq.
  unfold enhanceDay, Js.get. rewrite Hday, Hacts.
  cbn [default from_option id mbind outcome_bind Js.truthy].
  rewrite (mapM_from_again _ _ (enhanceActivity_idem index) _ _ _ Henh).
  cbn [mbind outcome_bind Js.spread]. fold D.
  unfold N at 1. rewrite or_idem. fold N.
  rewrite (insert_id m "day" N Hday), (insert_id m "date" D Hdate).
  now rewrite (insert_id m "activities" _ Hacts).
Qed.

(** Normalising an itinerary that has been normalised changes nothing:
    [validateAndEnhanceItinerary] returns its own output as it is. *)
Theorem normalisation_idempotent (draft : value) (tripData : TripRequest)
  (o : gmap string value) :
  validateAndEnhanceItinerary draft tripData = Ret o ->
  validateAndEnhanceItinerary (VObj o) tripData = Ret o.
Proof.
  unfold validateAndEnhanceItinerary at 1. intros H.
  apply bind_ret in H as (days & _ & H).
  destruct (negb (Js.truthy days) || negb (Js.isArray days));
    [discriminate|].
  destruct draft as [| | | | | |props]; try discriminate H.
  destruct days as [| | | | |items|]; try discriminate H.
  apply bind_ret in H as (newDays & Hnew & H).
  apply bind_ret in H as (o1 & Ho1 & H).
  injection H as <-.
  set (o0 := <["days" := VArr newDays]> props) in *.
  assert (Hagain : mapM_from (enhanceDay (start_date tripData)) 0 newDays
                   = Ret newDays)
    by exact (mapM_from_again _ _ (enhanceDay_idem (start_date tripData))
                _ _ _ Hnew).
  (* the itinerary after the first two assignments *)
  assert (Hdays1 : o1 !! "days" = Some (VArr newDays)).
  { destruct (negb (Js.truthy (default VUndef (o0 !! "estimated_total_cost")))).
    - apply bind_ret in Ho1 as (sum & _ & Ho1). injection Ho1 as <-.
      rewrite lookup_insert_ne by discriminate. apply lookup_insert_eq.
    - injection Ho1 as <-. apply lookup_insert_eq. }
  assert (Hcost1 :
            negb (Js.truthy (default VUndef (o1 !! "estimated_total_cost")))
            = true ->
            exists sum, foldM addDailyCost newDays 0 = Ret sum /\
                        o1 !! "estimated_total_cost" = Some (VNum sum)).
  { destruct (negb (Js.truthy (default VUndef (o0 !! "estimated_total_cost"))))
      eqn:E.
    - apply bind_ret in Ho1 as (sum & Hsum & Ho1). injection Ho1 as <-.
      intros _. exists sum. split; [exact Hsum | apply lookup_insert_eq].
    - injection Ho1 as <-. intros E'. congruence. }
  set (o2 := if negb (Js.truthy (default VUndef (o1 !! "sustainability_score")))
             then <["sustainability_score" := VNum 75]> o1 else o1).
  assert (Hdays2 : o2 !! "days" = Some (VArr newDays)).
  { unfold o2.
    destruct (negb (Js.truthy (default VUndef (o1 !! "sustainability_score"))));
      [|exact Hdays1].
    now rewrite lookup_insert_ne by discriminate. }
  assert (Hcost2 : o2 !! "estimated_total_cost" = o1 !! "estimated_total_cost").
  { unfold o2.
    destruct (negb (Js.truthy (default VUndef (o1 !! "sustainability_score"))));
      [|reflexivity].
    now rewrite lookup_insert_ne by discriminate. }
  assert (Hscore2 : Js.truthy (default VUndef (o2 !! "sustainability_score"))
                    = true).
  { unfold o2.
    destruct (negb (Js.truthy (default VUndef (o1 !! "sustainability_score"))))
      eqn:E.
    - now rewrite lookup_insert_eq.
    - now apply negb_false_iff in E. }
  (* the second pass *)
  unfold validateAndEnhanceItinerary, Js.get. rewrite Hdays2.
  cbn [default from_option id mbind outcome_bind Js.truthy Js.isArray
         negb orb].
  rewrite Hagain. cbn [mbind outcome_bind].
  rewrite (insert_id o2 "days" _ Hdays2), Hcost2.
  destruct (negb (Js.truthy (default VUndef (o1 !! "estimated_total_cost"))))
    eqn:E.
  - destruct (Hcost1 eq_refl) as (sum & Hsum & Hlook).
    rewrite Hsum. cbn [mbind outcome_bind].
    rewrite (insert_id o2 "estimated_total_cost" (VNum sum))
      by (now rewrite Hcost2).
    now rewrite Hscore2.
  - cbn [mbind outcome_bind]. now rewrite Hscore2.
Qed.

Lemma normalisation_idempotent_witness :
  exists o,
    validateAndEnhanceItinerary Sample.draft Sample.dayTrip = Ret o /\
    validateAndEnhanceItinerary (VObj o) Sample.dayTrip = Ret o.
Proof.
  destruct (returns_checked
              (validateAndEnhanceItinerary Sample.draft Sample.dayTrip)
              (fun _ => true)) as (o & Ho & _); [vm_compute; reflexivity|].
  exists o. split; [exact Ho|].
  exact (normalisation_idempotent Sample.draft Sample.dayTrip o Ho).
Defined.

End Idempotence.

(** ** What normalisation keeps and what it overwrites *)

Section NormalisationKeeps.
Import OpenAIService.

Lemma mapM_from_lookup {A B : Type} (f : nat -> A -> outcome B) :
  forall (l : list A) (k : nat) (bs : list B),
    mapM_from f k l = Ret bs ->
    forall i b, bs !! i = Some b ->
                exists a, l !! i = Some a /\ f (k + i)%nat a = Ret b.
Proof.
  induction l as [|a l IH]; intros k bs H i b Hb; simpl in H.
  - injection H as <-. discriminate Hb.
  - apply bind_ret in H as (b0 & Hb0 & H).
    apply bind_ret in H as (bs' & Hbs & H). injection H as <-.
    destruct i as [|i].
    + injection Hb as <-. exists a. rewrite Nat.add_0_r. now split.
    + destruct (IH _ _ Hbs i b Hb) as (a' & Ha' & Hf).
      exists a'. split; [exact Ha'|].
      now replace (k + S i)%nat with (S k + i)%nat by lia.
Qed.

(** A draft that is accepted is an object with a [days] array.  The
    result has as many days, each with as many activities as the draft
    gave it; day [i] is dated start date + [i] whatever date the draft
    wrote; and every property of the itinerary other than [days],
    [estimated_total_cost] and [sustainability_score] is handed on
    untouched. *)
Theorem normalisation_days (draft : value) (tripData : TripRequest)
  (o : gmap string value) :
  validateAndEnhanceItinerary draft tripData = Ret o ->
  exists (props : gmap string value) (items days : list value),
    draft = VObj props /\
    props !! "days" = Some (VArr items) /\
    o !! "days" = Some (VArr days) /\
    length days = length items /\
    (forall i d',
        days !! i = Some d' ->
        View.field d' "date" =
          VStr (Calendar.isoDate (start_date tripData + Z.of_nat i)) /\
        exists d,
          items !! i = Some d /\
          length (View.activitiesOf d') = length (View.activitiesOf d)) /\
    (forall k,
        k <> "days" -> k <> "estimated_total_cost" ->
        k <> "sustainability_score" -> o !! k = props !! k).
Proof.
  unfold validateAndEnhanceItinerary. intros H.
  apply bind_ret in H as (days & Hget & H).
  destruct (negb (Js.truthy days) || negb (Js.isArray days));
    [discriminate|].
  destruct draft as [| | | | | |props]; try discriminate H.
  destruct days as [| | | | |items|]; try discriminate H.
  apply bind_ret in H as (newDays & Hnew & H).
  apply bind_ret in H as (o1 & Ho1 & H).
  injection H as <-.
  exists props, items, newDays.
  assert (Hprops : props !! "days" = Some (VArr items)).
  { cbn [Js.get] in Hget. injection Hget as Hget.
    destruct (props !! "days") as [v|]; [|discriminate Hget].
    cbn [default from_option id] in Hget. now subst v. }
  assert (Ho1' : forall k, k <> "estimated_total_cost" ->
                           o1 !! k = <["days" := VArr newDays]> props !! k).
  { intros k Hk.
    destruct (negb (Js.truthy (default VUndef
               (<["days" := VArr newDays]> props !! "estimated_total_cost")))).
    - apply bind_ret in Ho1 as (sum & _ & Ho1). injection Ho1 as <-.
      now rewrite lookup_insert_ne by congruence.
    - now injection Ho1 as <-. }
  assert (Hfinal : forall k, k <> "estimated_total_cost" ->
                             k <> "sustainability_score" ->
            (if negb (Js.truthy (default VUndef (o1 !! "sustainability_score")))
             then <["sustainability_score" := VNum 75]> o1 else o1) !! k
            = <["days" := VArr newDays]> props !! k).
  { intros k Hk1 Hk2.
    destruct (negb (Js.truthy (default VUndef (o1 !! "sustainability_score"))));
      [rewrite lookup_insert_ne by congruence|]; now apply Ho1'. }
  split; [reflexivity|]. split; [exact Hprops|].
  split; [rewrite Hfinal by discriminate; apply lookup_insert_eq|].
  split; [exact (mapM_from_length _ _ _ _ Hnew)|].
  split.
  - intros i d' Hd'.
    destruct (mapM_from_lookup _ _ _ _ Hnew i d' Hd') as (d & Hd & Hday).
    apply enhanceDay_inv in Hday
      as (dayNumber & acts & enhanced & _ & -> & Henh & ->).
    split.
    + unfold View.field. rewrite lookup_insert_ne by discriminate.
      now rewrite lookup_insert_eq.
    + exists d. split; [exact Hd|].
      unfold View.activitiesOf at 1, View.field.
      rewrite lookup_insert_eq. cbn [default from_option id].
      exact (mapM_from_length _ _ _ _ Henh).
  - intros k Hk1 Hk2 Hk3. rewrite Hfinal by assumption.
    now rewrite lookup_insert_ne by congruence.
Qed.

Lemma normalisation_days_witness :
  exists (o props : gmap string value) (items days : list value),
    validateAndEnhanceItinerary Sample.draft Sample.dayTrip = Ret o /\
    Sample.draft = VObj props /\
    props !! "days" = Some (VArr items) /\
    o !! "days" = Some (VArr days) /\
    length days = length items.
Proof.
  destruct (returns_checked
              (validateAndEnhanceItinerary Sample.draft Sample.dayTrip)
              (fun _ => true)) as (o & Ho & _); [vm_compute; reflexivity|].
  destruct (normalisation_days Sample.draft Sample.dayTrip o Ho)
    as (props & items & days & H1 & H2 & H3 & H4 & _).
  exists o, props, items, days. repeat split; assumption.
Defined.

End NormalisationKeeps.

(** ** Drafts that are turned down *)

Section Rejected.
Import CarbonService OpenAIService ItineraryService.

Lemma enhanceActivity_no_coerce (index actIndex : nat) (a : value) :
  enhanceActivity index actIndex a <> Coerce.
Proof. destruct a; discriminate. Qed.

Lemma mapM_from_no_coerce {A B : Type} (f : nat -> A -> outcome B) :
  (forall i a, f i a <> Coerce) ->
  forall (l : list A) (k : nat), mapM_from f k l <> Coerce.
Proof.
  intros Hf. induction l as [|a l IH]; intros k; [discriminate|].
  cbn [mapM_from]. destruct (f k a) eqn:E; try discriminate.
  - cbn [mbind outcome_bind]. specialize (IH (S k)).
    destruct (mapM_from f (S k) l); try discriminate. contradiction.
  - now apply Hf in E.
Qed.

Lemma enhanceDay_no_coerce (startDate : Z) (index : nat) (d : value) :
  enhanceDay startDate index d <> Coerce.
Proof.
  unfold enhanceDay.
  destruct (Js.get d "day") eqn:E1; try discriminate.
  - cbn [mbind outcome_bind].
    destruct (Js.get d "activities") as [acts| |] eqn:E2; try discriminate.
    + cbn [mbind outcome_bind].
      destruct (Js.truthy acts); [destruct acts|];
        cbn [mbind outcome_bind]; try discriminate;
        match goal with
        | |- context [mapM_from ?f 0 ?l] =>
            pose proof (mapM_from_no_coerce f (enhanceActivity_no_coerce index)
                          l 0);
            destruct (mapM_from f 0 l); try discriminate; contradiction
        end.
    + destruct d; discriminate E2.
  - destruct d; discriminate E1.
Qed.

Lemma mapM_from_null_day (startDate : Z) (items : list value) :
  VNull ∈ items ->
  forall k, mapM_from (enhanceDay startDate) k items = Throw.
Proof.
  induction items as [|d items IH]; intros Hin k.
  - now apply elem_of_nil in Hin.
  - cbn [mapM_from]. apply elem_of_cons in Hin as [<- | Hin];
      [reflexivity|].
    pose proof (enhanceDay_no_coerce startDate k d) as Hd.
    destruct (enhanceDay startDate k d); try reflexivity; [|contradiction].
    cbn [mbind outcome_bind]. now rewrite (IH Hin).
Qed.

(** A draft is turned down, and the template takes its place, when it
    carries no [days] array or when one of its days is [null]. *)
Theorem rejected_draft_falls_back (draft : value) (tripData : TripRequest) :
  (forall items, Js.get draft "days" <> Ret (VArr items)) \/
  (exists items, Js.get draft "days" = Ret (VArr items) /\ VNull ∈ items) ->
  validateAndEnhanceItinerary draft tripData = Throw /\
  generateItinerary (Draft draft) tripData = generateDemoItinerary tripData.
Proof.
  intros H.
  assert (Hthrow : validateAndEnhanceItinerary draft tripData = Throw).
  { unfold validateAndEnhanceItinerary.
    destruct H as [Hnone | (items & Hdays & Hnull)].
    - destruct draft as [| | | | | |props];
        cbn [Js.get mbind outcome_bind]; try reflexivity.
      destruct (default VUndef (props !! "days")) as [| | | | |items|] eqn:E;
        cbn [Js.isArray negb]; rewrite ?orb_true_r; try reflexivity.
      destruct (Hnone items). cbn [Js.get]. now rewrite E.
    - rewrite Hdays. cbn [mbind outcome_bind Js.truthy Js.isArray negb orb].
      destruct draft; try discriminate Hdays.
      now rewrite (mapM_from_null_day _ items Hnull). }
  split; [exact Hthrow|].
  unfold generateItinerary. now rewrite Hthrow.
Qed.

Lemma rejected_draft_falls_back_witness :
  validateAndEnhanceItinerary (VStr "Sorry, I cannot help.") Sample.dayTrip
  = Throw /\
  generateItinerary (Draft (VStr "Sorry, I cannot help.")) Sample.dayTrip
  = generateDemoItinerary Sample.dayTrip.
Proof.
  apply (rejected_draft_falls_back (VStr "Sorry, I cannot help.")
           Sample.dayTrip).
  left. intros items. discriminate.
Defined.

End Rejected.

(** ** The figures of a generated trip *)

Section TripFigures.
Import CarbonService OpenAIService ItineraryService.

(** With no negative factor in the store, none of the four figures of
    [calculateTripEmissions] is negative, whatever the trip object holds,
    and so the total of every generated trip is not negative either. *)
Theorem emissions_never_negative (db : FactorStore) :
  (forall category subCategory f,
      db category subCategory = Row f -> 0 <= f) ->
  (forall tripData e,
      calculateTripEmissions db tripData = Ret e ->
      0 <= transport e /\ 0 <= accommodation e /\
      0 <= activities e /\ 0 <= total e) /\
  (forall geo ai request trip,
      generateTrip db geo ai request = Ret trip ->
      0 <= total_carbon_kg trip).
Proof.
  intros Hstore. split.
  - intros tripData e. now apply calculateTripEmissions_nonneg.
  - intros geo ai request trip H.
    apply generateTrip_inv in H
      as (o & emissions & totalCost & _ & He & _ & _ & _ & Htot & _).
    rewrite Htot.
    now apply (calculateTripEmissions_nonneg db Hstore) in He.
Qed.

Lemma emissions_never_negative_witness :
  exists e,
    calculateTripEmissions seededFactors Sample.tinyTrip = Ret e /\
    0 <= transport e /\ 0 <= accommodation e /\
    0 <= activities e /\ 0 <= total e.
Proof.
  destruct (returns_checked
              (calculateTripEmissions seededFactors Sample.tinyTrip)
              (fun _ => true))
    as (e & He & _); [vm_compute; reflexivity|].
  exists e. split; [exact He|].
  exact (proj1 (emissions_never_negative seededFactors seededFactors_nonneg)
           Sample.tinyTrip e He).
Defined.

(** A generated trip carries its own figures: the score is the green
    score of its total over its number of days, the total is the total of
    its breakdown, and the itinerary that gets stored holds the three
    parts of the breakdown and the coordinates of the location returned
    with it. *)
Theorem trip_carries_its_figures (db : FactorStore) (geo : GeoReply)
  (ai : AiReply) (tripData : TripRequest) (trip : Trip) :
  generateTrip db geo ai tripData = Ret trip ->
  green_score trip =
    calculateGreenScore (total_carbon_kg trip)
      (inject_Z (numDaysOf tripData)) /\
  total_carbon_kg trip = total (carbon_breakdown trip) /\
  itinerary trip !! "transport_carbon" =
    Some (VNum (transport (carbon_breakdown trip))) /\
  itinerary trip !! "accommodation_carbon" =
    Some (VNum (accommodation (carbon_breakdown trip))) /\
  itinerary trip !! "activities_carbon" =
    Some (VNum (activities (carbon_breakdown trip))) /\
  itinerary trip !! "destination_coordinates" =
    Some (Js.obj [ ("latitude", latitude (location trip));
                   ("longitude", longitude (location trip)) ]) /\
  (geo = GeocodeFailure ->
   location trip =
     {| formatted_address := VStr (destination tripData);
        latitude := VNum 0; longitude := VNum 0; place_id := VNull |}).
Proof.
  unfold generateTrip. intros H.
  apply bind_ret in H as (o & _ & H).
  apply bind_ret in H as (emissions & _ & H).
  apply bind_ret in H as (totalCost & _ & H).
  injection H as <-.
  cbn [green_score total_carbon_kg carbon_breakdown itinerary location].
  split; [reflexivity|]. split; [reflexivity|].
  split; [rewrite !lookup_insert_ne by discriminate; apply lookup_insert_eq|].
  split; [rewrite !lookup_insert_ne by discriminate; apply lookup_insert_eq|].
  split; [apply lookup_insert_eq|].
  split.
  - rewrite !lookup_insert_ne by discriminate. apply lookup_insert_eq.
  - now intros ->.
Qed.

Lemma trip_carries_its_figures_witness :
  exists trip,
    generateTrip seededFactors GeocodeFailure (Draft Sample.draft)
      Sample.dayTrip = Ret trip /\
    green_score trip =
      calculateGreenScore (total_carbon_kg trip)
        (inject_Z (numDaysOf Sample.dayTrip)) /\
    total_carbon_kg trip = total (carbon_breakdown trip).
Proof.
  destruct (returns_checked
              (generateTrip seededFactors GeocodeFailure (Draft Sample.draft)
                 Sample.dayTrip) (fun _ => true))
    as (trip & Hret & _); [vm_compute; reflexivity|].
  exists trip. split; [exact Hret|].
  destruct (trip_carries_its_figures seededFactors GeocodeFailure
              (Draft Sample.draft) Sample.dayTrip trip Hret)
    as (H1 & H2 & _).
  split; assumption.
Defined.

End TripFigures.

(** ** The fallback trip in figures *)

Section FallbackFigures.
Import CarbonService OpenAIService ItineraryService.

Lemma round2_Z (z : Z) : JsMath.round2 (inject_Z z) == inject_Z z.
Proof.
  unfold JsMath.round2.
  rewrite (round_comp _ (inject_Z (z * 100))).
  - rewrite round_Z, inject_Z_mult. field.
  - rewrite inject_Z_mult. reflexivity.
Qed.

Lemma round2_proper (x y : Q) : x == y -> JsMath.round2 x == JsMath.round2 y.
Proof. intros H. now rewrite (round2_comp x y H). Qed.

Lemma dailyCosts_template (tripData : TripRequest) (days : list value) :
  forall k,
    (forall i d, days !! i = Some d ->
                 Shape.templateDay tripData (k + i) d) ->
    dailyCosts days ==
    inject_Z (Z.of_nat (length days) *
              JsMath.round
                (budget tripData / inject_Z (numDaysOf tripData) * 0.8)).
Proof.
  induction days as [|d days IH]; intros k Hall.
  - reflexivity.
  - destruct (Hall 0%nat d eq_refl) as (_ & _ & _ & Hcost & _).
    unfold dailyCosts in *. cbn [fmap list_fmap foldr length].
    rewrite (IH (S k)).
    + unfold View.number. rewrite Hcost. unfold Js.ofZ.
      rewrite Nat2Z.inj_succ, !inject_Z_mult, <- Z.add_1_r, inject_Z_plus.
      ring.
    + intros i d' Hd'. replace (S k + i)%nat with (k + S i)%nat by lia.
      now apply Hall.
Qed.

(** What [generateTrip] returns when the provider fails. *)
Lemma fallback_inv (db : FactorStore) (geo : GeoReply)
  (tripData : TripRequest) :
  exists (trip : Trip) (days : list value) (kg : Q),
    generateTrip db geo ProviderFailure tripData = Ret trip /\
    View.daysOf (itinerary trip) = days /\
    length days = Z.to_nat (numDaysOf tripData) /\
    (forall i d, days !! i = Some d -> Shape.templateDay tripData i d) /\
    accommodationOf db (accommodation_preference tripData)
      (inject_Z (numDaysOf tripData)) = Ret kg /\
    total_carbon_kg trip = JsMath.round2 kg /\
    total_cost trip = JsMath.round2 (dailyCosts days) /\
    green_score trip =
      calculateGreenScore (JsMath.round2 kg) (inject_Z (numDaysOf tripData)).
Proof.
  destruct (generateDemoItinerary_days tripData)
    as (o & days & Ho & Hdays & Hlen & Hall).
  assert (Hgen : generateItinerary ProviderFailure tripData = Ret o)
    by exact Ho.
  pose proof (generateItinerary_shape _ _ _ Hgen) as Hshape.
  set (locationData :=
         match geo with
         | Located l => l
         | GeocodeFailure =>
             {| formatted_address := VStr (destination tripData);
                latitude := VNum 0; longitude := VNum 0;
                place_id := VNull |}
         end).
  set (enhanced := enhanceItineraryWithPlaceData o locationData).
  assert (Hshape' : Shape.itinerary enhanced)
    by (apply shape_insert; [discriminate | exact Hshape]).
  assert (Hdays' : enhanced !! "days" = Some (VArr days)).
  { unfold enhanced, enhanceItineraryWithPlaceData.
    now rewrite lookup_insert_ne by discriminate. }
  destruct (calculateTripEmissions_normal db
              (accommodation_preference tripData)
              (inject_Z (numDaysOf tripData)) enhanced Hshape')
    as (kg & Hkg & He).
  destruct (foldM_addDayCost_template tripData days 0 0 Hall) as (r & Hr).
  assert (Hc : calculateTotalCost (VObj enhanced) = Ret (JsMath.round2 r)).
  { unfold calculateTotalCost, Js.get. rewrite Hdays'.
    cbn [default from_option id mbind outcome_bind]. now rewrite Hr. }
  pose proof (calculateTotalCost_normal enhanced _ Hshape' Hc) as Hcost.
  unfold View.daysOf in Hcost. rewrite Hdays' in Hcost.
  eexists _, days, kg. split.
  - exact (generateTrip_ret db geo ProviderFailure tripData o _ _ Hgen He Hc).
  - cbn [itinerary total_carbon_kg total_cost green_score total].
    fold locationData. fold enhanced.
    split.
    { unfold View.daysOf. rewrite !lookup_insert_ne by discriminate.
      now rewrite Hdays'. }
    split; [exact Hlen|]. split; [exact Hall|]. split; [exact Hkg|].
    split; [reflexivity|]. split; [exact Hcost|]. reflexivity.
Qed.

(** When the provider fails, the total cost of the trip is the number of
    days times the daily budget of the template, the rounded 80 % share
    of the budget per day; it is 0 when the end date precedes the start
    date. *)
Theorem fallback_total_cost (db : FactorStore) (geo : GeoReply)
  (tripData : TripRequest) :
  exists trip,
    generateTrip db geo ProviderFailure tripData = Ret trip /\
    total_cost trip ==
    inject_Z (Z.max 0 (numDaysOf tripData) *
              JsMath.round
                (budget tripData / inject_Z (numDaysOf tripData) * 0.8)).
Proof.
  destruct (fallback_inv db geo tripData)
    as (trip & days & kg & Hret & _ & Hlen & Hall & _ & _ & Hcost & _).
  exists trip. split; [exact Hret|].
  rewrite Hcost.
  rewrite (round2_proper _ _ (dailyCosts_template tripData days 0 Hall)).
  rewrite round2_Z, Hlen.
  replace (Z.of_nat (Z.to_nat (numDaysOf tripData)))
    with (Z.max 0 (numDaysOf tripData)) by lia.
  reflexivity.
Qed.

(** A request whose end date precedes its start date still gets a trip
    from the fallback: one without days, with no emissions, no cost and
    a score of 0. *)
Theorem fallback_of_empty_range (db : FactorStore) (geo : GeoReply)
  (tripData : TripRequest) :
  (end_date tripData < start_date tripData)%Z ->
  exists trip,
    generateTrip db geo ProviderFailure tripData = Ret trip /\
    View.daysOf (itinerary trip) = [] /\
    total_carbon_kg trip == 0 /\
    total_cost trip == 0 /\
    green_score trip = 0%Z.
Proof.
  intros Hlt.
  assert (Hn : (numDaysOf tripData <= 0)%Z)
    by (unfold numDaysOf, Calendar.differenceInDays; lia).
  destruct (fallback_inv db geo tripData)
    as (trip & days & kg & Hret & Hdays & Hlen & _ & Hkg & Hcarbon & Hcost
        & Hscore).
  assert (Hnil : days = []).
  { apply length_zero_iff_nil. rewrite Hlen. lia. }
  assert (Hzero : kg = 0).
  { unfold accommodationOf in Hkg.
    assert (Hq : inject_Z (numDaysOf tripData) <= 0)
      by (change 0 with (inject_Z 0); now rewrite <- Zle_Qle).
    destruct (Js.truthy (VStr (accommodation_preference tripData)) &&
              Js.truthy (VNum (inject_Z (numDaysOf tripData)))).
    - rewrite (nothing_for_zero_nights db _ _ Hq) in Hkg.
      now injection Hkg as <-.
    - now injection Hkg as <-. }
  rewrite Hnil in Hdays, Hcost. rewrite Hzero in Hcarbon, Hscore.
  exists trip. split; [exact Hret|].
  split; [exact Hdays|]. rewrite Hcarbon, Hcost, Hscore.
  repeat split.
Qed.

Lemma fallback_of_empty_range_witness :
  exists trip,
    generateTrip seededFactors GeocodeFailure ProviderFailure
      {| destination := "Oslo"; start_date := 20610; end_date := 20605;
         budget := 500; interests := ["nature"]; travel_style := "budget";
         accommodation_preference := "hostel";
         transport_preference := "train" |} = Ret trip /\
    View.daysOf (itinerary trip) = [] /\
    total_carbon_kg trip == 0 /\
    total_cost trip == 0 /\
    green_score trip = 0%Z.
Proof.
  apply (fallback_of_empty_range seededFactors GeocodeFailure).
  reflexivity.
Defined.

End FallbackFigures.

(** ** Eco-friendly alternatives *)

Section Alternatives.
Import CarbonService EcoAlternatives.

Lemma insertAlternative_perm (a : Alternative) (l : list Alternative) :
  insertAlternative a l ≡ₚ a :: l.
Proof.
  induction l as [|b l IH]; [reflexivity|].
  cbn [insertAlternative]. destruct (Qle_bool _ _); [reflexivity|].
  rewrite IH. apply Permutation_swap.
Qed.

Lemma sortByEmissions_perm (l : list Alternative) : sortByEmissions l ≡ₚ l.
Proof.
  induction l as [|a l IH]; [reflexivity|].
  cbn [sortByEmissions foldr]. rewrite insertAlternative_perm.
  now apply Permutation_skip.
Qed.

Lemma insertAlternative_sorted (a : Alternative) (l : list Alternative) :
  StronglySorted byEmissions l ->
  StronglySorted byEmissions (insertAlternative a l).
Proof.
  induction 1 as [|b l Hl IH Hb]; [repeat constructor|].
  cbn [insertAlternative].
  destruct (Qle_bool (emissions_kg a) (emissions_kg b)) eqn:E.
  - apply Qle_bool_iff in E. constructor; [now constructor|].
    constructor; [exact E|].
    eapply Forall_impl; [exact Hb|]. intros c Hc. unfold byEmissions in *.
    now apply Qle_trans with (emissions_kg b).
  - constructor; [exact IH|].
    assert (Hba : byEmissions b a).
    { unfold byEmissions. destruct (Qlt_le_dec (emissions_kg b) (emissions_kg a))
        as [Hlt|Hle]; [now apply Qlt_le_weak|].
      apply Qle_bool_iff in Hle. congruence. }
    rewrite insertAlternative_perm. now constructor.
Qed.

Lemma sortByEmissions_sorted (l : list Alternative) :
  StronglySorted byEmissions (sortByEmissions l).
Proof.
  induction l as [|a l IH]; [constructor|].
  cbn [sortByEmissions foldr]. now apply insertAlternative_sorted.
Qed.

Lemma consider_inv (db : FactorStore) (distanceKm : value) (current : Q)
  (acc acc' : list Alternative) (option : string) :
  consider db distanceKm current acc option = Ret acc' ->
  acc' = acc \/
  exists a,
    acc' = acc ++ [a] /\ mode a = option /\
    calculateTransportEmissions db (VStr option) distanceKm
    = Ret (emissions_kg a) /\
    emissions_kg a < current /\
    savings_kg a = JsMath.round2 (current - emissions_kg a) /\
    savings_percent a =
      JsMath.round ((current - emissions_kg a) / current * 100).
Proof.
  unfold consider. intros H.
  apply bind_ret in H as (emissions & He & H).
  destruct (JsMath.ltb emissions current) eqn:E.
  - injection H as <-. right. eexists. split; [reflexivity|].
    cbn [mode emissions_kg savings_kg savings_percent].
    apply ltb_spec in E. repeat split; assumption.
  - injection H as <-. now left.
Qed.

Lemma foldM_consider (db : FactorStore) (distanceKm : value) (current : Q)
  (options : list string) :
  forall acc alts,
    foldM (consider db distanceKm current) options acc = Ret alts ->
    exists new,
      alts = acc ++ new /\ (length new <= length options)%nat /\
      Forall (fun a =>
                mode a ∈ options /\
                calculateTransportEmissions db (VStr (mode a)) distanceKm
                = Ret (emissions_kg a) /\
                emissions_kg a < current /\
                savings_kg a = JsMath.round2 (current - emissions_kg a) /\
                savings_percent a =
                  JsMath.round ((current - emissions_kg a) / current * 100))
        new.
Proof.
  induction options as [|option options IH]; intros acc alts H.
  - injection H as <-. exists []. rewrite app_nil_r. repeat split.
    + reflexivity.
    + constructor.
  - cbn [foldM] in H. apply bind_ret in H as (acc1 & H1 & H).
    destruct (IH _ _ H) as (new & -> & Hlen & Hall).
    assert (Hall' : Forall (fun a =>
                mode a ∈ option :: options /\
                calculateTransportEmissions db (VStr (mode a)) distanceKm
                = Ret (emissions_kg a) /\
                emissions_kg a < current /\
                savings_kg a = JsMath.round2 (current - emissions_kg a) /\
                savings_percent a =
                  JsMath.round ((current - emissions_kg a) / current * 100))
              new).
    { eapply Forall_impl; [exact Hall|]. intros a (Hin & Hrest).
      split; [now apply list_elem_of_further | exact Hrest]. }
    apply consider_inv in H1 as [-> | (a & -> & Hm & Ha)].
    + exists new. repeat split; [cbn [length]; lia | exact Hall'].
    + exists (a :: new). rewrite <- app_assoc. repeat split.
      * cbn [length]. lia.
      * constructor; [|exact Hall'].
        split; [rewrite Hm; apply list_elem_of_here|].
        now rewrite Hm.
Qed.

Lemma getEcoAlternatives_inv (db : FactorStore)
  (currentMode distanceKm : value) (alts : list Alternative) :
  getEcoAlternatives db currentMode distanceKm = Ret alts ->
  StronglySorted byEmissions alts /\
  (length alts <= 3)%nat /\
  Forall (fun a =>
            exists current d,
              calculateTransportEmissions db currentMode distanceKm
              = Ret current /\
              distanceKm = VNum d /\
              mode a ∈ optionsFor d /\
              calculateTransportEmissions db (VStr (mode a)) distanceKm
              = Ret (emissions_kg a) /\
              emissions_kg a < current /\
              savings_kg a = JsMath.round2 (current - emissions_kg a) /\
              savings_percent a =
                JsMath.round ((current - emissions_kg a) / current * 100))
    alts.
Proof.
  unfold getEcoAlternatives, try_catch.
  destruct (calculateTransportEmissions db currentMode distanceKm)
    as [current| |] eqn:Hcur; cbn [mbind outcome_bind];
    [|intros H; injection H as <-; repeat constructor|discriminate].
  destruct distanceKm as [| | |d| | |]; cbn [Js.num mbind outcome_bind];
    try discriminate.
  destruct (foldM (consider db (VNum d) current) (optionsFor d) [])
    as [pushed| |] eqn:Hfold; cbn [mbind outcome_bind];
    [|intros H; injection H as <-; repeat constructor|discriminate].
  intros H. injection H as <-.
  destruct (foldM_consider _ _ _ _ _ _ Hfold) as (new & -> & Hlen & Hall).
  cbn [app] in *.
  split; [apply sortByEmissions_sorted|].
  split.
  - rewrite (Permutation_length (sortByEmissions_perm new)).
    etransitivity; [exact Hlen|].
    unfold optionsFor. destruct (JsMath.ltb d 500); cbn [length]; lia.
  - rewrite (sortByEmissions_perm new).
    eapply Forall_impl; [exact Hall|].
    intros a (Hin & Hcalc & Hlt & Hs & Hp).
    exists current, d. repeat split; assumption.
Qed.

(** With no negative factor in the store, every alternative offered is
    one of the options for the distance, is set against a current mode
    that emits something, emits strictly less than it and reports the
    saving against it; at most three are offered, the least emitting
    first. *)
Theorem eco_alternatives_sound (db : FactorStore)
  (currentMode distanceKm : value) (alts : list Alternative) :
  (forall category subCategory f,
      db category subCategory = Row f -> 0 <= f) ->
  getEcoAlternatives db currentMode distanceKm = Ret alts ->
  StronglySorted byEmissions alts /\
  (length alts <= 3)%nat /\
  Forall (genuine db currentMode distanceKm) alts.
Proof.
  intros Hstore H.
  destruct (getEcoAlternatives_inv db currentMode distanceKm alts H)
    as (Hsorted & Hlen & Hall).
  split; [exact Hsorted|]. split; [exact Hlen|].
  eapply Forall_impl; [exact Hall|].
  intros a (current & d & Hcur & Hd & Hin & Hcalc & Hlt & Hs & Hp).
  exists current, d.
  assert (He : 0 <= emissions_kg a)
    by (eapply calculateTransportEmissions_nonneg; eassumption).
  repeat split; try assumption. lra.
Qed.

Lemma eco_alternatives_sound_witness :
  exists alts,
    getEcoAlternatives seededFactors (VStr "car") (VNum 100) = Ret alts /\
    StronglySorted byEmissions alts /\
    (length alts <= 3)%nat /\
    Forall (genuine seededFactors (VStr "car") (VNum 100)) alts.
Proof.
  destruct (returns_checked
              (getEcoAlternatives seededFactors (VStr "car") (VNum 100))
              (fun _ => true)) as (alts & Hret & _);
    [vm_compute; reflexivity|].
  exists alts. split; [exact Hret|].
  exact (eco_alternatives_sound seededFactors (VStr "car") (VNum 100) alts
           seededFactors_nonneg Hret).
Defined.

(** For a 100 km car ride the seeded store offers the electric car, the
    national train and the local bus, in this order. *)
Example alternatives_to_the_car :
  exists alts,
    getEcoAlternatives seededFactors (VStr "car") (VNum 100) = Ret alts /\
    mode <$> alts = ["train_national"; "car_electric"; "bus_local"] /\
    savings_percent <$> alts = [76; 73; 39]%Z.
Proof.
  destruct (returns_checked
              (getEcoAlternatives seededFactors (VStr "car") (VNum 100))
              (fun alts =>
                 bool_decide
                   (mode <$> alts =
                    ["train_national"; "car_electric"; "bus_local"]) &&
                 bool_decide (savings_percent <$> alts = [76; 73; 39]%Z)))
    as (alts & Hret & Hp); [vm_compute; reflexivity|].
  apply andb_prop in Hp as [H1 H2].
  exists alts. split; [exact Hret|].
  split; now apply bool_decide_eq_true in H1, H2.
Qed.

(** With no negative factor in the store, the saving reported for an
    alternative is a share between 0 and 100 per cent and a non-negative
    number of kilograms; and nothing at all is offered against a mode
    that emits nothing, such as walking. *)
Theorem eco_alternatives_savings (db : FactorStore)
  (currentMode distanceKm : value) (alts : list Alternative) :
  (forall category subCategory f,
      db category subCategory = Row f -> 0 <= f) ->
  getEcoAlternatives db currentMode distanceKm = Ret alts ->
  Forall (fun a =>
            (0 <= savings_percent a <= 100)%Z /\ 0 <= savings_kg a) alts /\
  (forall current,
      calculateTransportEmissions db currentMode distanceKm = Ret current ->
      current == 0 -> alts = []).
Proof.
  intros Hstore H.
  destruct (getEcoAlternatives_inv db currentMode distanceKm alts H)
    as (_ & _ & Hall).
  assert (Hfacts : Forall (fun a =>
            exists current,
              calculateTransportEmissions db currentMode distanceKm
              = Ret current /\
              0 <= emissions_kg a /\ emissions_kg a < current /\
              savings_kg a = JsMath.round2 (current - emissions_kg a) /\
              savings_percent a =
                JsMath.round ((current - emissions_kg a) / current * 100))
            alts).
  { eapply Forall_impl; [exact Hall|].
    intros a (current & d & Hcur & _ & _ & Hcalc & Hlt & Hs & Hp).
    exists current. repeat split; try assumption.
    eapply calculateTransportEmissions_nonneg; eassumption. }
  split.
  - eapply Forall_impl; [exact Hfacts|].
    intros a (current & _ & He & Hlt & -> & ->).
    assert (Hc : 0 < current) by lra.
    assert (Hratio : 0 <= (current - emissions_kg a) / current * 100 <= 100).
    { assert (Hsplit : (current - emissions_kg a) / current * 100
                       == 100 - emissions_kg a / current * 100)
        by (field; lra).
      assert (Hfrac : 0 <= emissions_kg a / current)
        by (apply Qle_shift_div_l; lra).
      assert (Hfrac1 : emissions_kg a / current <= 1)
        by (apply Qle_shift_div_r; lra).
      rewrite Hsplit. lra. }
    split; [|apply round2_nonneg; lra].
    split.
    + apply round_nonneg. lra.
    + rewrite <- (round_Z 100). apply round_mono. apply Hratio.
  - intros current Hcur Hzero.
    destruct alts as [|a alts]; [reflexivity|]. exfalso.
    apply Forall_cons in Hfacts as [(current' & Hcur' & He & Hlt & _) _].
    rewrite Hcur in Hcur'. injection Hcur' as <-. lra.
Qed.

Lemma eco_alternatives_savings_witness :
  exists alts,
    getEcoAlternatives seededFactors (VStr "car") (VNum 100) = Ret alts /\
    Forall (fun a =>
              (0 <= savings_percent a <= 100)%Z /\ 0 <= savings_kg a) alts.
Proof.
  destruct (returns_checked
              (getEcoAlternatives seededFactors (VStr "car") (VNum 100))
              (fun _ => true)) as (alts & Hret & _);
    [vm_compute; reflexivity|].
  exists alts. split; [exact Hret|].
  exact (proj1 (eco_alternatives_savings seededFactors (VStr "car") (VNum 100)
                  alts seededFactors_nonneg Hret)).
Defined.

End Alternatives.

(** ** Recalculating a stored trip *)

Section Recalculation.
Import CarbonService OpenAIService ItineraryService.

Lemma calculateTripEmissions_normal_no_distance (db : FactorStore)
  (type : string) (n : Q) (o : gmap string value) :
  Shape.itinerary o ->
  exists kg,
    accommodationOf db type n = Ret kg /\
    calculateTripEmissions db
      (Js.obj [ ("accommodation_preference", VStr type);
                ("nights", VNum n);
                ("itinerary", VObj o) ]) =
    Ret {| transport := JsMath.round2 0;
           accommodation := JsMath.round2 kg;
           activities := JsMath.round2 0;
           total := JsMath.round2 kg |}.
Proof.
  intros (days & Hdays & Hnormal).
  destruct (accommodationOf_numeric db type n) as (kg & Hkg).
  exists kg. split; [exact Hkg|].
  unfold calculateTripEmissions, components.
  set (tripData := Js.obj [ ("accommodation_preference", VStr type);
                            ("nights", VNum n); ("itinerary", VObj o) ]).
  change (Js.get tripData "accommodation_preference") with (Ret (VStr type)).
  change (Js.get tripData "nights") with (Ret (VNum n)).
  change (Js.get tripData "itinerary") with (Ret (VObj o)).
  change (Js.get tripData "destination_distance_km") with (Ret VUndef).
  cbn [mbind outcome_bind].
  change (if Js.truthy (VStr type) && Js.truthy (VNum n)
          then calculateAccommodationEmissions db (VStr type) (VNum n)
          else Ret 0) with (accommodationOf db type n).
  rewrite Hkg. unfold Js.get. rewrite Hdays.
  cbn [default from_option id mbind outcome_bind Js.truthy Js.iterate].
  rewrite (foldM_days_normal db days (0, 0) Hnormal).
  cbn [mbind outcome_bind try_catch]. do 2 f_equal.
  apply round2_comp. ring.
Qed.

(** Recalculating the emissions of the itinerary of a generated trip,
    with the number of days and the accommodation of its request, gives
    back the total, the score and the breakdown the trip was returned
    with. *)
Theorem recalculation_reproduces_trip (db : FactorStore) (geo : GeoReply)
  (ai : AiReply) (tripData : TripRequest) (trip : Trip) :
  generateTrip db geo ai tripData = Ret trip ->
  recalculateEmissions db (VObj (itinerary trip))
    (inject_Z (numDaysOf tripData))
    (VStr (accommodation_preference tripData)) =
  Ret {| Recalculated.total_carbon_kg := total_carbon_kg trip;
         Recalculated.green_score := green_score trip;
         Recalculated.carbon_breakdown := carbon_breakdown trip |}.
Proof.
  intros H.
  apply generateTrip_inv in H
    as (o & emissions & totalCost & Ho & He & _ & Hit & Hcb & Htot & _ & Hgs).
  apply generateItinerary_shape in Ho.
  assert (Hshape : forall l, Shape.itinerary (enhanceItineraryWithPlaceData o l))
    by (intros l; apply shape_insert; [discriminate | exact Ho]).
  match type of He with
  | context [enhanceItineraryWithPlaceData o ?l] =>
      destruct (calculateTripEmissions_normal db
                  (accommodation_preference tripData)
                  (inject_Z (numDaysOf tripData)) _ (Hshape l))
        as (kg & Hkg & Hcalc);
      pose proof (Hshape l) as Hsh
  end.
  unfold Js.ofZ in He. rewrite Hcalc in He. injection He as <-.
  assert (Hstored : Shape.itinerary (itinerary trip)).
  { rewrite Hit. do 3 (apply shape_insert; [discriminate|]). exact Hsh. }
  destruct (calculateTripEmissions_normal_no_distance db
              (accommodation_preference tripData)
              (inject_Z (numDaysOf tripData)) _ Hstored)
    as (kg' & Hkg' & Hrecalc).
  rewrite Hkg in Hkg'. injection Hkg' as <-.
  unfold recalculateEmissions. rewrite Hrecalc. cbn [mbind outcome_bind].
  now rewrite Hcb, Htot, Hgs.
Qed.

Lemma recalculation_reproduces_trip_witness :
  exists trip,
    generateTrip seededFactors GeocodeFailure (Draft Sample.draft)
      Sample.dayTrip = Ret trip /\
    recalculateEmissions seededFactors (VObj (itinerary trip))
      (inject_Z (numDaysOf Sample.dayTrip))
      (VStr (accommodation_preference Sample.dayTrip)) =
    Ret {| Recalculated.total_carbon_kg := total_carbon_kg trip;
           Recalculated.green_score := green_score trip;
           Recalculated.carbon_breakdown := carbon_breakdown trip |}.
Proof.
  destruct (returns_checked
              (generateTrip seededFactors GeocodeFailure (Draft Sample.draft)
                 Sample.dayTrip) (fun _ => true))
    as (trip & Hret & _); [vm_compute; reflexivity|].
  exists trip. split; [exact Hret|].
  exact (recalculation_reproduces_trip seededFactors GeocodeFailure
           (Draft Sample.draft) Sample.dayTrip trip Hret).
Defined.

End Recalculation.

(** * The places service *)

Section Places.
Import GooglePlacesService.

Lemma get_field (v x : value) (k : string) :
  Js.get v k = Ret x -> x = View.field v k.
Proof. destruct v; intros H; try discriminate H; injection H as <-; reflexivity. Qed.

Lemma mapM_from_Forall2 {A B : Type} (f : nat -> A -> outcome B) :
  forall (l : list A) (i : nat) (bs : list B),
    mapM_from f i l = Ret bs ->
    Forall2 (fun a b => exists j, f j a = Ret b) l bs.
Proof.
  induction l as [|a l IH]; intros i bs H; simpl in H.
  - injection H as <-. constructor.
  - apply bind_ret in H as (b & Hb & H).
    apply bind_ret in H as (bs' & Hbs & H).
    injection H as <-. constructor; eauto.
Qed.

Lemma mapM_from_stops {A B : Type} (f : nat -> A -> outcome B) (a : A) :
  (forall i b, f i a <> Ret b) ->
  forall l : list A, a ∈ l ->
  forall (i : nat) (bs : list B), mapM_from f i l <> Ret bs.
Proof.
  intros Ha. induction l as [|a' l IH]; intros Hin i bs H.
  - now apply elem_of_nil in Hin.
  - simpl in H.
    apply bind_ret in H as (b & Hb & H).
    apply bind_ret in H as (bs' & Hbs & H).
    apply elem_of_cons in Hin as [->|Hin].
    + now apply Ha in Hb.
    + now apply IH in Hbs.
Qed.

Lemma toPlace_shape (place p : value) :
  toPlace place = Ret p ->
  View.keysOf p = placeKeys /\
  View.field p "place_id" = View.field place "place_id" /\
  View.field p "name" = View.field place "name" /\
  View.field p "address" = View.field place "vicinity" /\
  View.field p "rating" = View.field place "rating".
Proof.
  unfold toPlace. intros H.
  apply bind_ret in H as (place_id & Hid & H).
  apply bind_ret in H as (name & Hname & H).
  apply bind_ret in H as (vicinity & Hvic & H).
  apply bind_ret in H as (geometry & _ & H).
  apply bind_ret in H as (location & _ & H).
  apply bind_ret in H as (lat & _ & H).
  apply bind_ret in H as (lng & _ & H).
  apply bind_ret in H as (rating & Hr & H).
  apply bind_ret in H as (types & _ & H).
  apply bind_ret in H as (opening_hours & _ & H).
  injection H as <-.
  apply get_field in Hid, Hname, Hvic, Hr. subst.
  split; [|repeat split].
  unfold View.keysOf, Js.obj. rewrite dom_list_to_map_L. reflexivity.
Qed.

Lemma toPlace_needs_geometry (place p : value) :
  View.field place "geometry" = VUndef -> toPlace place <> Ret p.
Proof.
  unfold toPlace. intros Hg H.
  apply bind_ret in H as (place_id & _ & H).
  apply bind_ret in H as (name & _ & H).
  apply bind_ret in H as (vicinity & _ & H).
  apply bind_ret in H as (geometry & Hgeo & H).
  apply get_field in Hgeo. rewrite Hg in Hgeo. subst geometry.
  discriminate H.
Qed.

Lemma searchPlaces_inv (client : MapsClient) (lat lng : value)
  (type : string) (radius : Q) :
  searchPlaces client lat lng type radius = [] \/
  exists results,
    placesNearby client lat lng type radius = Results results /\
    mapM_from (fun _ => toPlace) 0 results =
    Ret (searchPlaces client lat lng type radius).
Proof.
  unfold searchPlaces.
  destruct (placesNearby client lat lng type radius) as [results|];
    [|now left].
  destruct (mapM_from _ 0 results) as [places| |] eqn:E;
    [right; eauto|now left|now left].
Qed.

Lemma searchPlaces_keys (client : MapsClient) (lat lng : value)
  (type : string) (radius : Q) :
  Forall (fun p => View.keysOf p = placeKeys)
    (searchPlaces client lat lng type radius).
Proof.
  destruct (searchPlaces_inv client lat lng type radius)
    as [->|(results & _ & H)]; [constructor|].
  eapply mapM_from_Forall; [|exact H].
  intros i place p Hp. now apply toPlace_shape in Hp.
Qed.

(** [searchPlaces] answers with one object for every result of the
    client, each with the eight keys of its literal and with the id, the
    name, the address and the rating of its result, or with no place at
    all: a single result without geometry empties the whole answer. *)
Theorem search_places_all_or_nothing (client : MapsClient) (lat lng : value)
  (type : string) (radius : Q) (results : list value) :
  placesNearby client lat lng type radius = Results results ->
  let found := searchPlaces client lat lng type radius in
  (found = [] \/
   Forall2 (fun place p =>
              View.keysOf p = placeKeys /\
              View.field p "place_id" = View.field place "place_id" /\
              View.field p "name" = View.field place "name" /\
              View.field p "address" = View.field place "vicinity" /\
              View.field p "rating" = View.field place "rating")
     results found) /\
  (forall place,
      place ∈ results -> View.field place "geometry" = VUndef -> found = []).
Proof.
  intros Hreply found.
  destruct (searchPlaces_inv client lat lng type radius)
    as [Hnil|(results' & Hreply' & H)]; fold found in Hnil || fold found in H.
  - split; [now left|]. intros; exact Hnil.
  - rewrite Hreply in Hreply'. injection Hreply' as <-. split.
    + right. apply mapM_from_Forall2 in H.
      eapply Forall2_impl; [exact H|].
      intros place p (_ & Hp). now apply toPlace_shape.
    + intros place Hin Hg. exfalso.
      eapply (mapM_from_stops (fun _ => toPlace) place); [|exact Hin|exact H].
      intros i p. now apply toPlace_needs_geometry.
Qed.

Lemma search_places_all_or_nothing_witness :
  let found := searchPlaces SampleMaps.porto (VNum 41.15) (VNum 8.61) "park"
                 10000 in
  found = [] /\ length found <> 2%nat.
Proof.
  destruct (search_places_all_or_nothing SampleMaps.porto (VNum 41.15)
              (VNum 8.61) "park" 10000 _ eq_refl) as (_ & Hnone).
  assert (Hnil : searchPlaces SampleMaps.porto (VNum 41.15) (VNum 8.61) "park"
                   10000 = []).
  { apply (Hnone (Js.obj [ ("place_id", VStr "p2"); ("name", VStr "Parque") ])).
    - apply list_elem_of_further, list_elem_of_here.
    - reflexivity. }
  cbv zeta. rewrite Hnil. split; [reflexivity|discriminate].
Defined.

(** ** The best rated places *)

Lemma ratingOf_number (p : value) (r : Q) :
  ratingOf p = Ret r -> r == View.number p "rating".
Proof.
  unfold ratingOf. intros H.
  apply bind_ret in H as (v & Hv & H). apply get_field in Hv.
  unfold View.number. rewrite <- Hv. unfold Js.or in H.
  destruct v as [| |b|q|s|l|o]; cbn [Js.truthy Js.num] in H;
    try (injection H as <-; reflexivity);
    try (destruct b; discriminate H);
    try (destruct (negb _); discriminate H);
    try discriminate H.
  - destruct b; [discriminate H|]. injection H as <-. reflexivity.
  - destruct (JsMath.falsy q) eqn:E; cbn [negb Js.num] in H;
      injection H as <-; [|reflexivity].
    apply falsy_spec in E. now rewrite E.
  - destruct (negb _); [discriminate H|]. injection H as <-. reflexivity.
Qed.

Lemma insertByRating_perm (x : Q * value) (l : list (Q * value)) :
  insertByRating x l ≡ₚ x :: l.
Proof.
  induction l as [|y l IH]; [reflexivity|].
  cbn [insertByRating]. destruct (Qle_bool _ _); [reflexivity|].
  rewrite IH. apply Permutation_swap.
Qed.

Lemma insertByRating_sorted (x : Q * value) (l : list (Q * value)) :
  StronglySorted (fun a b => fst b <= fst a) l ->
  StronglySorted (fun a b => fst b <= fst a) (insertByRating x l).
Proof.
  induction 1 as [|y l Hl IH Hy]; [repeat constructor|].
  cbn [insertByRating].
  destruct (Qle_bool (fst y) (fst x)) eqn:E.
  - apply Qle_bool_iff in E. constructor; [now constructor|].
    constructor; [exact E|].
    eapply Forall_impl; [exact Hy|]. intros c Hc. cbn beta in *.
    now apply Qle_trans with (fst y).
  - constructor; [exact IH|].
    assert (Hxy : fst x <= fst y).
    { destruct (Qlt_le_dec (fst x) (fst y)) as [Hlt|Hle];
        [now apply Qlt_le_weak|].
      apply Qle_bool_iff in Hle. congruence. }
    rewrite insertByRating_perm. now constructor.
Qed.

Lemma keyed_sorted (keyed : list (Q * value)) :
  StronglySorted (fun a b => fst b <= fst a) (foldr insertByRating [] keyed) /\
  foldr insertByRating [] keyed ≡ₚ keyed.
Proof.
  induction keyed as [|x keyed (IHs & IHp)]; [split; [constructor|reflexivity]|].
  cbn [foldr]. split; [now apply insertByRating_sorted|].
  rewrite insertByRating_perm. now apply Permutation_skip.
Qed.

Lemma unkeyed_sorted (keyed : list (Q * value)) :
  Forall (fun kp => fst kp == View.number (snd kp) "rating") keyed ->
  StronglySorted (fun a b => fst b <= fst a) keyed ->
  StronglySorted byRating (snd <$> keyed).
Proof.
  intros Hkeys. induction 1 as [|x l Hl IH Hx]; [constructor|].
  apply Forall_cons in Hkeys as (Hkx & Hkeys).
  cbn [fmap list_fmap]. constructor; [now apply IH|].
  apply Forall_fmap. rewrite Forall_forall in Hx, Hkeys |- *.
  intros y Hy. unfold byRating. cbn [compose].
  rewrite <- Hkx, <- (Hkeys y Hy). now apply Hx.
Qed.

Lemma sortByRating_spec (places sorted : list value) :
  sortByRating places = Ret sorted ->
  sorted ≡ₚ places /\ StronglySorted byRating sorted.
Proof.
  assert (Hbody : forall l s,
    (keyed ← mapM_from (fun _ p => r ← ratingOf p; Ret (r, p)) 0 l;
     Ret (snd <$> foldr insertByRating [] keyed)) = Ret s ->
    s ≡ₚ l /\ StronglySorted byRating s).
  { intros l s H. apply bind_ret in H as (keyed & Hkeyed & H).
    injection H as <-.
    apply mapM_from_Forall2 in Hkeyed.
    assert (Hsnd : snd <$> keyed = l /\
                   Forall (fun kp => fst kp == View.number (snd kp) "rating")
                     keyed).
    { clear -Hkeyed. induction Hkeyed as [|p kp l keyed (j & Hp) _ (IH1 & IH2)];
        [split; [reflexivity|constructor]|].
      apply bind_ret in Hp as (r & Hr & Hp). injection Hp as <-.
      cbn [fmap list_fmap snd]. split; [now f_equal|].
      constructor; [|exact IH2]. now apply ratingOf_number. }
    destruct Hsnd as (Hsnd & Hkeys).
    destruct (keyed_sorted keyed) as (Hsorted & Hperm). split.
    - rewrite <- Hsnd. now apply fmap_Permutation.
    - apply unkeyed_sorted; [|exact Hsorted].
      rewrite Forall_forall in Hkeys |- *. intros kp Hkp. apply Hkeys.
      now rewrite <- Hperm. }
  destruct places as [|a [|b places]].
  - intros H. injection H as <-. split; [reflexivity|constructor].
  - intros H. injection H as <-. split; [reflexivity|repeat constructor].
  - intros H. apply Hbody. exact H.
Qed.

Lemma filterM_rated (places kept : list value) :
  filterM (fun p => r ← Js.get p "rating"; Ret (Js.truthy r)) places
  = Ret kept ->
  kept = List.filter rated places.
Proof.
  revert kept. induction places as [|p places IH]; intros kept H; simpl in H.
  - now injection H as <-.
  - apply bind_ret in H as (k & Hk & H).
    apply bind_ret in H as (rest & Hrest & H).
    apply bind_ret in Hk as (r & Hr & Hk). apply get_field in Hr.
    injection Hk as <-. injection H as <-.
    cbn [List.filter]. unfold rated at 1. rewrite <- Hr.
    rewrite (IH rest Hrest). reflexivity.
Qed.

Lemma slice0_take {A : Type} (limit : Z) (l : list A) :
  (0 <= limit)%Z -> slice0 limit l = take (Z.to_nat limit) l.
Proof.
  intros H. unfold slice0.
  destruct (limit <? 0)%Z eqn:E; [|reflexivity].
  apply Z.ltb_lt in E. lia.
Qed.

Lemma topRated_spec (limit : Z) (places best : list value) :
  (0 <= limit)%Z ->
  topRated limit places = Ret best ->
  exists rest,
    List.filter rated places ≡ₚ best ++ rest /\
    StronglySorted byRating (best ++ rest) /\
    length best = Nat.min (Z.to_nat limit) (length (best ++ rest)).
Proof.
  intros Hlimit H. unfold topRated in H.
  apply bind_ret in H as (kept & Hkept & H).
  apply bind_ret in H as (sorted & Hsorted & H).
  injection H as <-. apply filterM_rated in Hkept. subst kept.
  apply sortByRating_spec in Hsorted as (Hperm & Hsorted).
  rewrite (slice0_take _ _ Hlimit).
  exists (drop (Z.to_nat limit) sorted). rewrite take_drop.
  split; [now symmetry|]. split; [exact Hsorted|]. apply length_take.
Qed.

Lemma sorted_app {A : Type} (R : A -> A -> Prop) (l1 l2 : list A) :
  StronglySorted R (l1 ++ l2) ->
  StronglySorted R l1 /\ forall a b, a ∈ l1 -> b ∈ l2 -> R a b.
Proof.
  induction l1 as [|x l1 IH]; cbn [app]; intros H.
  - split; [constructor|]. intros a b Ha. now apply elem_of_nil in Ha.
  - apply StronglySorted_inv in H as (Hs & Hf).
    destruct (IH Hs) as (IH1 & IH2).
    apply Forall_app in Hf as (Hf1 & Hf2). split.
    + now constructor.
    + intros a b Ha Hb. apply elem_of_cons in Ha as [->|Ha]; [|eauto].
      rewrite Forall_forall in Hf2. eauto.
Qed.

Lemma place_is_object (p : value) :
  View.keysOf p = placeKeys -> exists o, p = VObj o.
Proof.
  destruct p; eauto; intros H; exfalso;
    apply (not_elem_of_empty (C := gset string) "name");
    cbn [View.keysOf] in H; rewrite H; unfold placeKeys;
    apply elem_of_list_to_set, list_elem_of_further, list_elem_of_here.
Qed.

Lemma mapM_from_no_throw {A B : Type} (f : nat -> A -> outcome B) :
  forall (l : list A) (i : nat),
    Forall (fun a => forall j, f j a <> Throw) l ->
    mapM_from f i l <> Throw.
Proof.
  induction l as [|a l IH]; intros i Hl; [discriminate|].
  apply Forall_cons in Hl as (Ha & Hl). cbn [mapM_from].
  specialize (Ha i). destruct (f i a); [|contradiction|discriminate].
  cbn [mbind outcome_bind]. specialize (IH (S i) Hl).
  destruct (mapM_from f (S i) l); [discriminate|contradiction|discriminate].
Qed.

Lemma filterM_objects (places : list value) :
  Forall (fun p => exists o, p = VObj o) places ->
  filterM (fun p => r ← Js.get p "rating"; Ret (Js.truthy r)) places
  = Ret (List.filter rated places).
Proof.
  induction 1 as [|p places (o & ->) _ IH]; [reflexivity|].
  cbn [filterM Js.get mbind outcome_bind]. rewrite IH.
  cbn [mbind outcome_bind List.filter]. reflexivity.
Qed.

Lemma topRated_no_throw (limit : Z) (places : list value) :
  Forall (fun p => View.keysOf p = placeKeys) places ->
  topRated limit places <> Throw.
Proof.
  intros Hkeys.
  assert (Hobj : Forall (fun p => exists o, p = VObj o) places).
  { eapply Forall_impl; [exact Hkeys|]. apply place_is_object. }
  unfold topRated. rewrite (filterM_objects places Hobj).
  cbn [mbind outcome_bind].
  assert (Hkept : Forall (fun p => exists o, p = VObj o)
                    (List.filter rated places)).
  { rewrite Forall_forall in Hobj |- *. intros p Hp.
    apply list_elem_of_In, filter_In in Hp as (Hp & _).
    now apply Hobj, list_elem_of_In. }
  assert (Hsort : sortByRating (List.filter rated places) <> Throw).
  { destruct (List.filter rated places) as [|a [|b kept]];
      [discriminate|discriminate|].
    change (sortByRating (a :: b :: kept)) with
      (keyed ← mapM_from (fun _ p => r ← ratingOf p; Ret (r, p)) 0
                 (a :: b :: kept);
       Ret (snd <$> foldr insertByRating [] keyed)).
    pose proof (mapM_from_no_throw
                  (fun (_ : nat) p => r ← ratingOf p; Ret (r, p))
                  (a :: b :: kept) 0) as Hmap.
    destruct (mapM_from _ 0 (a :: b :: kept));
      [discriminate| |discriminate].
    exfalso. apply Hmap; [|reflexivity].
    eapply Forall_impl; [exact Hkept|]. intros p (o & ->) j. cbn beta.
    unfold ratingOf. cbn [Js.get mbind outcome_bind].
    match goal with |- context [Js.num ?v] => destruct v end;
      cbn [Js.num mbind outcome_bind]; discriminate. }
  destruct (sortByRating _); [discriminate|contradiction|discriminate].
Qed.

Lemma getRestaurants_inv (client : MapsClient) (lat lng : value) (limit : Z)
  (best : list value) :
  getRestaurants client lat lng limit = Ret best ->
  topRated limit (searchPlaces client lat lng "restaurant" 2000) = Ret best.
Proof.
  unfold getRestaurants. cbv zeta.
  pose proof (topRated_no_throw limit _
                (searchPlaces_keys client lat lng "restaurant" 2000)) as Hno.
  destruct (topRated limit _); [exact id|contradiction|discriminate].
Qed.

Lemma getPopularAttractions_inv (client : MapsClient) (destination : string)
  (limit : Z) (best : list value) :
  getPopularAttractions client destination limit = Ret best ->
  match geocodeDestination client destination with
  | Ret location =>
      topRated limit
        (searchPlaces client (latitude location) (longitude location)
           "tourist_attraction" 10000) = Ret best
  | _ => best = []
  end.
Proof.
  unfold getPopularAttractions.
  destruct (geocodeDestination client destination) as [location| |];
    cbn [mbind outcome_bind try_catch]; cbv zeta;
    [|now intros [= <-]|discriminate].
  pose proof (topRated_no_throw limit _
                (searchPlaces_keys client (latitude location)
                   (longitude location) "tourist_attraction" 10000)) as Hno.
  destruct (topRated limit _); [exact id|contradiction|discriminate].
Qed.

Lemma topRated_sound (limit : Z) (places best : list value) :
  (0 <= limit)%Z ->
  Forall (fun p => View.keysOf p = placeKeys) places ->
  topRated limit places = Ret best ->
  (length best <= Z.to_nat limit)%nat /\
  Forall (fun p => rated p = true /\ View.keysOf p = placeKeys) best /\
  StronglySorted byRating best.
Proof.
  intros Hlimit Hkeys H.
  destruct (topRated_spec limit places best Hlimit H)
    as (rest & Hperm & Hsorted & Hlen).
  split; [lia|]. split; [|now apply sorted_app in Hsorted].
  rewrite Forall_forall in Hkeys |- *. intros p Hp.
  assert (Hin : p ∈ List.filter rated places).
  { rewrite Hperm. apply elem_of_app. now left. }
  apply list_elem_of_In, filter_In in Hin as (Hin & Hrated).
  split; [exact Hrated|]. now apply Hkeys, list_elem_of_In.
Qed.

Lemma topRated_best (limit : Z) (places best : list value) :
  (0 <= limit)%Z ->
  topRated limit places = Ret best ->
  exists rest,
    List.filter rated places ≡ₚ best ++ rest /\
    (forall b r, b ∈ best -> r ∈ rest -> byRating b r) /\
    (rest = [] \/ length best = Z.to_nat limit).
Proof.
  intros Hlimit H.
  destruct (topRated_spec limit places best Hlimit H)
    as (rest & Hperm & Hsorted & Hlen).
  exists rest. split; [exact Hperm|]. split; [now apply sorted_app|].
  rewrite length_app in Hlen.
  destruct rest as [|r rest]; [now left|right]. cbn [length] in Hlen. lia.
Qed.

(** What [getPopularAttractions] and [getRestaurants] return for a limit
    that is not negative: at most [limit] places, every one with a rating
    and with the eight keys of a place, the highest rating first. *)
Theorem top_rated_places (client : MapsClient) (destination : string)
  (lat lng : value) (limit : Z) (best : list value) :
  (0 <= limit)%Z ->
  getPopularAttractions client destination limit = Ret best \/
  getRestaurants client lat lng limit = Ret best ->
  (length best <= Z.to_nat limit)%nat /\
  Forall (fun p => rated p = true /\ View.keysOf p = placeKeys) best /\
  StronglySorted byRating best.
Proof.
  intros Hlimit [H|H].
  - apply getPopularAttractions_inv in H.
    destruct (geocodeDestination client destination) as [location| |];
      [|subst best; repeat split; cbn [length]; try lia; constructor..].
    eapply topRated_sound; [exact Hlimit| |exact H]. apply searchPlaces_keys.
  - apply getRestaurants_inv in H.
    eapply topRated_sound; [exact Hlimit| |exact H]. apply searchPlaces_keys.
Qed.

Lemma top_rated_places_witness :
  exists best,
    getPopularAttractions SampleMaps.porto "Porto" 3 = Ret best /\
    (length best <= 3)%nat /\
    Forall (fun p => rated p = true /\ View.keysOf p = placeKeys) best /\
    StronglySorted byRating best.
Proof.
  destruct (returns_checked (getPopularAttractions SampleMaps.porto "Porto" 3)
              (fun _ => true)) as (best & Hret & _);
    [vm_compute; reflexivity|].
  exists best. split; [exact Hret|].
  apply (top_rated_places SampleMaps.porto "Porto" VUndef VUndef 3 best);
    [lia|now left].
Defined.

(** The three best attractions of the sample client, the two rated 4.6 in
    the order of the search. *)
Example attractions_of_porto :
  exists best,
    getPopularAttractions SampleMaps.porto "Porto" 3 = Ret best /\
    (fun p => View.text p "name") <$> best = ["Ponte"; "Torre"; "Mercado"].
Proof.
  destruct (returns_checked (getPopularAttractions SampleMaps.porto "Porto" 3)
              (fun best =>
                 bool_decide ((fun p => View.text p "name") <$> best
                              = ["Ponte"; "Torre"; "Mercado"])))
    as (best & Hret & Hnames); [vm_compute; reflexivity|].
  exists best. split; [exact Hret|]. now apply bool_decide_eq_true in Hnames.
Qed.

(** [getRestaurants] returns the best rated of the restaurants found
    within two kilometres: the rated ones are the returned ones together
    with others, none of these rated higher than a returned one, and
    places are left out only when the limit is reached. *)
Theorem restaurants_best_rated (client : MapsClient) (lat lng : value)
  (limit : Z) (best : list value) :
  (0 <= limit)%Z ->
  getRestaurants client lat lng limit = Ret best ->
  exists rest,
    List.filter rated (searchPlaces client lat lng "restaurant" 2000)
    ≡ₚ best ++ rest /\
    (forall b r, b ∈ best -> r ∈ rest -> byRating b r) /\
    (rest = [] \/ length best = Z.to_nat limit).
Proof.
  intros Hlimit H. apply getRestaurants_inv in H.
  now apply topRated_best.
Qed.

Lemma restaurants_best_rated_witness :
  exists best rest,
    getRestaurants SampleMaps.porto (VNum 41.15) (VNum 8.61) 1 = Ret best /\
    List.filter rated
      (searchPlaces SampleMaps.porto (VNum 41.15) (VNum 8.61) "restaurant"
         2000)
    ≡ₚ best ++ rest /\
    (forall b r, b ∈ best -> r ∈ rest -> byRating b r) /\
    (rest = [] \/ length best = Z.to_nat 1).
Proof.
  destruct (returns_checked
              (getRestaurants SampleMaps.porto (VNum 41.15) (VNum 8.61) 1)
              (fun _ => true)) as (best & Hret & _);
    [vm_compute; reflexivity|].
  destruct (restaurants_best_rated SampleMaps.porto (VNum 41.15) (VNum 8.61)
              1 best) as (rest & H); [lia|exact Hret|].
  exists best, rest. split; [exact Hret|exact H].
Defined.

(** [getPopularAttractions] returns the best rated of the attractions
    found within ten kilometres of the place the geocoder found. *)
Theorem attractions_best_rated (client : MapsClient) (destination : string)
  (location : Location) (limit : Z) (best : list value) :
  (0 <= limit)%Z ->
  geocodeDestination client destination = Ret location ->
  getPopularAttractions client destination limit = Ret best ->
  exists rest,
    List.filter rated
      (searchPlaces client (latitude location) (longitude location)
         "tourist_attraction" 10000)
    ≡ₚ best ++ rest /\
    (forall b r, b ∈ best -> r ∈ rest -> byRating b r) /\
    (rest = [] \/ length best = Z.to_nat limit).
Proof.
  intros Hlimit Hgeo H. apply getPopularAttractions_inv in H.
  rewrite Hgeo in H. now apply topRated_best.
Qed.

Lemma attractions_best_rated_witness :
  exists location best rest,
    geocodeDestination SampleMaps.porto "Porto" = Ret location /\
    getPopularAttractions SampleMaps.porto "Porto" 2 = Ret best /\
    List.filter rated
      (searchPlaces SampleMaps.porto (latitude location) (longitude location)
         "tourist_attraction" 10000)
    ≡ₚ best ++ rest /\
    (forall b r, b ∈ best -> r ∈ rest -> byRating b r) /\
    (rest = [] \/ length best = Z.to_nat 2).
Proof.
  destruct (returns_checked (geocodeDestination SampleMaps.porto "Porto")
              (fun _ => true)) as (location & Hgeo & _);
    [vm_compute; reflexivity|].
  destruct (returns_checked (getPopularAttractions SampleMaps.porto "Porto" 2)
              (fun _ => true)) as (best & Hret & _);
    [vm_compute; reflexivity|].
  destruct (attractions_best_rated SampleMaps.porto "Porto" location 2 best)
    as (rest & H); [lia|exact Hgeo|exact Hret|].
  exists location, best, rest. split; [exact Hgeo|]. split; [exact Hret|exact H].
Defined.

(** ** Distances *)

Lemma round_bounds (x : Q) :
  x - (1 # 2) < inject_Z (JsMath.round x) /\
  inject_Z (JsMath.round x) <= x + (1 # 2).
Proof.
  unfold JsMath.round. split; [|apply Qfloor_le].
  pose proof (Qlt_floor (x + (1 # 2))) as H.
  rewrite inject_Z_plus in H. change (inject_Z 1) with 1 in H. lra.
Qed.

Lemma num_inv (v : value) (q : Q) : Js.num v = Ret q -> v = VNum q.
Proof. destruct v; intros H; try discriminate H. now injection H as <-. Qed.

(** [calculateDistance] always names the mode it was asked for.  It
    answers either with its zero distance of unknown length, or with the
    metres and seconds of the client together with kilometres that are
    within 0.05 of the metres and minutes that are within half a minute
    of the seconds. *)
Theorem distance_rounding (client : MapsClient) (origin destination : value)
  (mode : string) (d : Distance) :
  calculateDistance client origin destination mode = Ret d ->
  travel_mode d = mode /\
  (d = unknownDistance mode \/
   exists metres seconds,
     distance_meters d = VNum metres /\
     duration_seconds d = VNum seconds /\
     metres / 1000 - (1 # 20) < distance_km d /\
     distance_km d <= metres / 1000 + (1 # 20) /\
     seconds / 60 - (1 # 2) < inject_Z (duration_minutes d) /\
     inject_Z (duration_minutes d) <= seconds / 60 + (1 # 2)).
Proof.
  unfold calculateDistance.
  match goal with |- try_catch ?b _ = _ -> _ => destruct b as [d'| |] eqn:E end;
    cbn [try_catch]; intros H; [|injection H as <-|discriminate H].
  2: { split; [reflexivity|now left]. }
  injection H as ->.
  apply bind_ret in E as (originLat & _ & E).
  apply bind_ret in E as (originLng & _ & E).
  apply bind_ret in E as (destinationLat & _ & E).
  apply bind_ret in E as (destinationLng & _ & E).
  destruct (distancematrix client _ _ mode) as [[|[|element elements] rows]|];
    try discriminate E.
  apply bind_ret in E as (status & _ & E).
  destruct (isString status "OK"); [|discriminate E].
  apply bind_ret in E as (distance & _ & E).
  apply bind_ret in E as (meters & _ & E).
  apply bind_ret in E as (metres & Hm & E).
  apply bind_ret in E as (distanceText & _ & E).
  apply bind_ret in E as (duration & _ & E).
  apply bind_ret in E as (seconds & _ & E).
  apply bind_ret in E as (secs & Hs & E).
  apply bind_ret in E as (durationText & _ & E).
  injection E as <-. apply num_inv in Hm, Hs. subst meters seconds.
  split; [reflexivity|]. right. exists metres, secs.
  cbn [distance_meters duration_seconds distance_km duration_minutes].
  destruct (round_bounds (metres / 1000 * 10)) as (Hlo & Hhi).
  destruct (round_bounds (secs / 60)) as (Hlo' & Hhi').
  set (k := inject_Z (JsMath.round (metres / 1000 * 10))) in *. clearbody k.
  repeat split; try assumption; unfold Qdiv in *;
    change (/ 10) with (1 # 10) in *; change (/ 1000) with (1 # 1000) in *;
    lra.
Qed.

Lemma distance_rounding_witness :
  exists d,
    calculateDistance SampleMaps.porto (SampleMaps.at_ 41.15 8.61)
      (SampleMaps.at_ 41.2 8.7) "driving" = Ret d /\
    travel_mode d = "driving" /\
    (d = GooglePlacesService.unknownDistance "driving" \/
     exists metres seconds,
       distance_meters d = VNum metres /\
       duration_seconds d = VNum seconds /\
       metres / 1000 - (1 # 20) < distance_km d /\
       distance_km d <= metres / 1000 + (1 # 20) /\
       seconds / 60 - (1 # 2) < inject_Z (duration_minutes d) /\
       inject_Z (duration_minutes d) <= seconds / 60 + (1 # 2)).
Proof.
  destruct (returns_checked
              (calculateDistance SampleMaps.porto (SampleMaps.at_ 41.15 8.61)
                 (SampleMaps.at_ 41.2 8.7) "driving")
              (fun _ => true)) as (d & Hret & _);
    [vm_compute; reflexivity|].
  exists d. split; [exact Hret|].
  exact (distance_rounding _ _ _ _ d Hret).
Defined.

(** The route of the sample client, 12 345 m in 1 000 s, is 12.3 km and
    17 minutes; on foot, where the client has no route, it is unknown. *)
Example route_in_porto :
  exists d,
    calculateDistance SampleMaps.porto (SampleMaps.at_ 41.15 8.61)
      (SampleMaps.at_ 41.2 8.7) "driving" = Ret d /\
    distance_km d == 12.3 /\ duration_minutes d = 17%Z /\
    calculateDistance SampleMaps.porto (SampleMaps.at_ 41.15 8.61)
      (SampleMaps.at_ 41.2 8.7) "walking"
    = Ret (GooglePlacesService.unknownDistance "walking").
Proof.
  destruct (returns_checked
              (calculateDistance SampleMaps.porto (SampleMaps.at_ 41.15 8.61)
                 (SampleMaps.at_ 41.2 8.7) "driving")
              (fun d => Qeq_bool (distance_km d) 12.3
                        && Z.eqb (duration_minutes d) 17))
    as (d & Hret & Hd); [vm_compute; reflexivity|].
  apply andb_true_iff in Hd as (Hkm & Hmin).
  exists d. split; [exact Hret|]. split; [now apply Qeq_bool_iff|].
  split; [now apply Z.eqb_eq|]. reflexivity.
Qed.

(** ** Details of a place *)

(** A place without geometry is no failure for [getPlaceDetails]: the
    details carry the id asked for and the name of the place, and their
    coordinates are undefined. *)
Theorem place_details_without_geometry (client : MapsClient)
  (placeId : string) (props : gmap string value) :
  placeDetails client placeId = Some (VObj props) ->
  View.field (VObj props) "geometry" = VUndef \/
  View.field (VObj props) "geometry" = VNull ->
  exists details,
    getPlaceDetails client placeId = VObj details /\
    details !! "place_id" = Some (VStr placeId) /\
    details !! "name" = Some (View.field (VObj props) "name") /\
    details !! "latitude" = Some VUndef /\
    details !! "longitude" = Some VUndef.
Proof.
  intros Hplace Hgeometry. unfold getPlaceDetails. rewrite Hplace.
  unfold coordinate. cbn [Js.get mbind outcome_bind].
  cbn [View.field] in Hgeometry.
  destruct Hgeometry as [-> | ->]; cbn [mbind outcome_bind];
    (eexists; split; [reflexivity|]); repeat split; reflexivity.
Qed.

Lemma place_details_without_geometry_witness :
  exists details,
    getPlaceDetails SampleMaps.porto "p2" = VObj details /\
    details !! "place_id" = Some (VStr "p2") /\
    details !! "name" =
      Some (View.field
              (Js.obj [ ("name", VStr "Parque");
                        ("formatted_address", VStr "Porto") ]) "name") /\
    details !! "latitude" = Some VUndef /\
    details !! "longitude" = Some VUndef.
Proof.
  apply (place_details_without_geometry SampleMaps.porto "p2"
           (list_to_map [ ("name", VStr "Parque");
                          ("formatted_address", VStr "Porto") ]));
    [reflexivity|left; reflexivity].
Defined.

(** ** Without a location *)

Lemma geocodeDestination_no_coerce (client : MapsClient)
  (destination : string) :
  geocodeDestination client destination <> Coerce.
Proof.
  unfold geocodeDestination.
  destruct (geocode client destination) as [[|result results]|];
    try discriminate.
  repeat match goal with
         | |- context [Js.get ?v ?k ≫= _] =>
             destruct v; cbn [Js.get mbind outcome_bind]; try discriminate
         end.
Qed.

Lemma geocodeDestination_inv (client : MapsClient) (destination : string)
  (found : Location) :
  geocodeDestination client destination = Ret found ->
  exists result results,
    geocode client destination = Results (result :: results) /\
    formatted_address found = View.field result "formatted_address" /\
    latitude found =
      View.field (View.field (View.field result "geometry") "location")
        "lat" /\
    longitude found =
      View.field (View.field (View.field result "geometry") "location")
        "lng" /\
    place_id found = View.field result "place_id".
Proof.
  unfold geocodeDestination.
  destruct (geocode client destination) as [[|result results]|];
    try discriminate.
  intros H. exists result, results. split; [reflexivity|].
  apply bind_ret in H as (fa & Hfa & H).
  apply bind_ret in H as (geometry & Hgeo & H).
  apply bind_ret in H as (loc & Hloc & H).
  apply bind_ret in H as (lat & Hlat & H).
  apply bind_ret in H as (lng & Hlng & H).
  apply bind_ret in H as (pid & Hpid & H).
  injection H as <-.
  apply get_field in Hfa, Hgeo, Hloc, Hlat, Hlng, Hpid. subst.
  repeat split.
Qed.

(** When the geocoder fails or finds nothing, [geocodeDestination]
    throws, there are no popular attractions and no recommendations, not
    even the fixed tips, and a trip is generated as without a geocoder. *)
Theorem geocoder_without_answer (client : MapsClient) (db : FactorStore)
  (ai : AiReply) (tripData : TripRequest) (limit : Z) :
  geocode client (destination tripData) = ClientError \/
  geocode client (destination tripData) = Results [] ->
  geocodeDestination client (destination tripData) = Throw /\
  getPopularAttractions client (destination tripData) limit = Ret [] /\
  getEcoRecommendations client (destination tripData) =
    {| eco_attractions := []; sustainability_tips := [] |} /\
  generateTripAt client db ai tripData =
    ItineraryService.generateTrip db GeocodeFailure ai tripData.
Proof.
  intros H.
  assert (Hgeo : geocodeDestination client (destination tripData) = Throw)
    by (unfold geocodeDestination; destruct H as [-> | ->]; reflexivity).
  unfold getPopularAttractions, getEcoRecommendations, generateTripAt.
  rewrite Hgeo. repeat split.
Qed.

Lemma geocoder_without_answer_witness :
  geocodeDestination SampleMaps.porto "Atlantis" = Throw /\
  getPopularAttractions SampleMaps.porto "Atlantis" 10 = Ret [] /\
  getEcoRecommendations SampleMaps.porto "Atlantis" =
    {| eco_attractions := []; sustainability_tips := [] |} /\
  generateTripAt SampleMaps.porto seededFactors ProviderFailure
    SampleMaps.elsewhere =
    ItineraryService.generateTrip seededFactors GeocodeFailure ProviderFailure
      SampleMaps.elsewhere.
Proof.
  apply (geocoder_without_answer SampleMaps.porto seededFactors
           ProviderFailure SampleMaps.elsewhere 10).
  right. reflexivity.
Defined.

(** [getEcoRecommendations] offers at most five places, each with the
    eight keys of a place, and either all five tips or, exactly when the
    destination cannot be geocoded, neither tip nor place. *)
Theorem eco_recommendations (client : MapsClient) (destination : string) :
  let r := getEcoRecommendations client destination in
  (length (eco_attractions r) <= 5)%nat /\
  Forall (fun p => View.keysOf p = placeKeys) (eco_attractions r) /\
  (length (sustainability_tips r) = 5%nat \/
   sustainability_tips r = [] /\ eco_attractions r = []) /\
  (sustainability_tips r = [] <->
   geocodeDestination client destination = Throw).
Proof.
  cbv zeta. unfold getEcoRecommendations.
  pose proof (geocodeDestination_no_coerce client destination) as Hno.
  destruct (geocodeDestination client destination) as [found| |];
    [| |contradiction];
    cbn [eco_attractions sustainability_tips].
  - rewrite slice0_take by lia. split; [rewrite length_take; lia|].
    split; [|split; [now left|split; discriminate]].
    pose proof (searchPlaces_keys client (latitude found) (longitude found)
                  "park" 10000) as Hkeys.
    rewrite Forall_forall in Hkeys |- *. intros p Hp.
    now apply Hkeys, (subseteq_take (Z.to_nat 5)).
  - split; [cbn [length]; lia|]. split; [constructor|].
    split; [right|]; split; reflexivity.
Qed.

(** ** The trip and its location *)

(** The location of a generated trip is read from the first result of
    the geocoder: its address, the latitude and longitude of its
    geometry and its place id.  Only when [geocodeDestination] throws is
    it the destination as asked for, at latitude and longitude 0. *)
Theorem trip_location (client : MapsClient) (db : FactorStore) (ai : AiReply)
  (tripData : TripRequest) (trip : Trip) :
  generateTripAt client db ai tripData = Ret trip ->
  geocodeDestination client (destination tripData) = Throw /\
  location trip =
    {| formatted_address := VStr (destination tripData);
       latitude := VNum 0; longitude := VNum 0; place_id := VNull |} \/
  exists result results,
    geocode client (destination tripData) = Results (result :: results) /\
    formatted_address (location trip) =
      View.field result "formatted_address" /\
    latitude (location trip) =
      View.field (View.field (View.field result "geometry") "location")
        "lat" /\
    longitude (location trip) =
      View.field (View.field (View.field result "geometry") "location")
        "lng" /\
    place_id (location trip) = View.field result "place_id".
Proof.
  unfold generateTripAt, ItineraryService.generateTrip. intros H.
  apply bind_ret in H as (o & _ & H).
  apply bind_ret in H as (emissions & _ & H).
  apply bind_ret in H as (totalCost & _ & H).
  injection H as <-. cbn [location].
  pose proof (geocodeDestination_no_coerce client (destination tripData))
    as Hno.
  destruct (geocodeDestination client (destination tripData))
    as [found| |] eqn:E; [|now left|contradiction].
  right. cbn [located]. now apply geocodeDestination_inv.
Qed.

Lemma trip_location_witness :
  exists trip,
    generateTripAt SampleMaps.porto seededFactors ProviderFailure
      Sample.dayTrip = Ret trip /\
    exists result results,
      geocode SampleMaps.porto (destination Sample.dayTrip)
      = Results (result :: results) /\
      formatted_address (location trip) =
        View.field result "formatted_address" /\
      latitude (location trip) =
        View.field (View.field (View.field result "geometry") "location")
          "lat" /\
      longitude (location trip) =
        View.field (View.field (View.field result "geometry") "location")
          "lng" /\
      place_id (location trip) = View.field result "place_id".
Proof.
  destruct (returns_checked
              (generateTripAt SampleMaps.porto seededFactors ProviderFailure
                 Sample.dayTrip)
              (fun _ => true)) as (trip & Hret & _);
    [vm_compute; reflexivity|].
  exists trip. split; [exact Hret|].
  destruct (trip_location SampleMaps.porto seededFactors ProviderFailure
              Sample.dayTrip trip Hret) as [(Hthrow & _)|H];
    [discriminate Hthrow|exact H].
Defined.

End Places.

(** ** The figures do not depend on the location *)

Section Relocation.
Import CarbonService OpenAIService ItineraryService.

Lemma calculateTotalCost_relocated (o : gmap string value) (l : Location) :
  calculateTotalCost (VObj (enhanceItineraryWithPlaceData o l)) =
  calculateTotalCost (VObj o).
Proof.
  unfold calculateTotalCost, Js.get, enhanceItineraryWithPlaceData.
  now rewrite lookup_insert_ne by discriminate.
Qed.

(** What the geocoder answers changes nothing but the location and the
    stored coordinates of a generated trip: with any other answer the
    trip is generated as well, with the same emissions, breakdown, green
    score and total cost, and with the same itinerary apart from
    [destination_coordinates]. *)
Theorem location_does_not_change_figures (db : FactorStore)
  (geo geo' : GeoReply) (ai : AiReply) (tripData : TripRequest)
  (trip : Trip) :
  generateTrip db geo ai tripData = Ret trip ->
  exists trip',
    generateTrip db geo' ai tripData = Ret trip' /\
    total_carbon_kg trip' = total_carbon_kg trip /\
    carbon_breakdown trip' = carbon_breakdown trip /\
    green_score trip' = green_score trip /\
    total_cost trip' = total_cost trip /\
    delete "destination_coordinates" (itinerary trip') =
    delete "destination_coordinates" (itinerary trip).
Proof.
  intros H.
  apply generateTrip_inv in H
    as (o & e & c & Ho & He & Hc & Hit & Hcb & Htot & Hcost & Hgs).
  pose proof (generateItinerary_shape _ _ _ Ho) as Hshape.
  assert (Hsh : forall l, Shape.itinerary (enhanceItineraryWithPlaceData o l))
    by (intros l; apply shape_insert; [discriminate | exact Hshape]).
  set (l' := match geo' with
             | Located l => l
             | GeocodeFailure =>
                 {| formatted_address := VStr (destination tripData);
                    latitude := VNum 0; longitude := VNum 0;
                    place_id := VNull |}
             end).
  assert (He' : calculateTripEmissions db
                  (input (VStr (accommodation_preference tripData))
                     (Js.ofZ (numDaysOf tripData))
                     (VObj (enhanceItineraryWithPlaceData o l')) (VNum 0))
                = Ret e).
  { match type of He with
    | context [enhanceItineraryWithPlaceData o ?l] =>
        destruct (calculateTripEmissions_normal db
                    (accommodation_preference tripData)
                    (inject_Z (numDaysOf tripData)) _ (Hsh l))
          as (kg & Hkg & Hcalc)
    end.
    destruct (calculateTripEmissions_normal db
                (accommodation_preference tripData)
                (inject_Z (numDaysOf tripData)) _ (Hsh l'))
      as (kg' & Hkg' & Hcalc').
    rewrite Hkg in Hkg'. injection Hkg' as <-.
    unfold Js.ofZ in *. rewrite Hcalc in He. rewrite Hcalc'. exact He. }
  rewrite calculateTotalCost_relocated in Hc.
  assert (Hc' : calculateTotalCost
                  (VObj (enhanceItineraryWithPlaceData o l')) = Ret c)
    by now rewrite calculateTotalCost_relocated.
  eexists. split; [exact (generateTrip_ret db geo' ai tripData o e c Ho He' Hc')|].
  cbn [total_carbon_kg carbon_breakdown green_score total_cost itinerary].
  rewrite Htot, Hcb, Hgs, Hcost, Hit.
  repeat split.
  unfold enhanceItineraryWithPlaceData.
  repeat (rewrite delete_insert_eq
          || rewrite delete_insert_ne by discriminate).
  reflexivity.
Qed.

Lemma location_does_not_change_figures_witness :
  exists trip trip',
    generateTrip seededFactors GeocodeFailure ProviderFailure Sample.dayTrip
    = Ret trip /\
    generateTrip seededFactors
      (Located {| formatted_address := VStr "Porto, Portugal";
                  latitude := VNum 41.15; longitude := VNum 8.61;
                  place_id := VStr "porto" |})
      ProviderFailure Sample.dayTrip = Ret trip' /\
    total_carbon_kg trip' = total_carbon_kg trip /\
    carbon_breakdown trip' = carbon_breakdown trip /\
    green_score trip' = green_score trip /\
    total_cost trip' = total_cost trip /\
    delete "destination_coordinates" (itinerary trip') =
    delete "destination_coordinates" (itinerary trip).
Proof.
  destruct (returns_checked
              (generateTrip seededFactors GeocodeFailure ProviderFailure
                 Sample.dayTrip)
              (fun _ => true)) as (trip & Hret & _);
    [vm_compute; reflexivity|].
  destruct (location_does_not_change_figures seededFactors GeocodeFailure
              (Located {| formatted_address := VStr "Porto, Portugal";
                          latitude := VNum 41.15; longitude := VNum 8.61;
                          place_id := VStr "porto" |})
              ProviderFailure Sample.dayTrip trip Hret) as (trip' & H).
  exists trip, trip'. split; [exact Hret|exact H].
Defined.

End Relocation.

(** * What the services absorb *)

Section Absorbed.
Import CarbonService OpenAIService ItineraryService.

Lemma calculateTransportEmissions_failing (db : FactorStore) (mode : string)
  (d : Q) :
  (forall category subCategory, db category subCategory = QueryError) ->
  calculateTransportEmissions db (VStr mode) (VNum d) = Ret 0.
Proof.
  intros Hfail. unfold calculateTransportEmissions.
  destruct (negb (Js.truthy (VStr mode)) || negb (Js.truthy (VNum d)));
    [reflexivity|].
  cbn [Js.num mbind outcome_bind].
  destruct (Qle_bool d 0); [reflexivity|].
  cbn [Js.toLowerCase mbind outcome_bind].
  unfold findByCategoryAndSubCategory. rewrite !Hfail. reflexivity.
Qed.

Lemma calculateAccommodationEmissions_failing (db : FactorStore)
  (type : string) (n : Q) :
  (forall category subCategory, db category subCategory = QueryError) ->
  calculateAccommodationEmissions db (VStr type) (VNum n) = Ret 0.
Proof.
  intros Hfail. unfold calculateAccommodationEmissions.
  destruct (negb (Js.truthy (VStr type)) || negb (Js.truthy (VNum n)));
    [reflexivity|].
  cbn [Js.num mbind outcome_bind].
  destruct (Qle_bool n 0); [reflexivity|].
  cbn [Js.str mbind outcome_bind].
  unfold findByCategoryAndSubCategory. rewrite !Hfail. reflexivity.
Qed.

Lemma calculateActivityEmissions_failing (db : FactorStore) (type : string)
  (count : Q) :
  (forall category subCategory, db category subCategory = QueryError) ->
  calculateActivityEmissions db (VStr type) count = Ret 0.
Proof.
  intros Hfail. unfold calculateActivityEmissions.
  destruct (negb (Js.truthy (VStr type)) || Qle_bool count 0);
    [reflexivity|].
  cbn [Js.toLowerCase mbind outcome_bind].
  unfold findByCategoryAndSubCategory. rewrite !Hfail. reflexivity.
Qed.

(** Asked with a text kind and a numeric quantity, each of the three
    calculators returns a number, whatever the store answers: rows, no
    rows or failed queries.  With a store whose every query fails, the
    number is 0. *)
Theorem calculators_always_answer (db : FactorStore) (kind : string)
  (q : Q) :
  (exists kg, calculateTransportEmissions db (VStr kind) (VNum q) = Ret kg) /\
  (exists kg,
      calculateAccommodationEmissions db (VStr kind) (VNum q) = Ret kg) /\
  (exists kg, calculateActivityEmissions db (VStr kind) q = Ret kg) /\
  ((forall category subCategory, db category subCategory = QueryError) ->
   calculateTransportEmissions db (VStr kind) (VNum q) = Ret 0 /\
   calculateAccommodationEmissions db (VStr kind) (VNum q) = Ret 0 /\
   calculateActivityEmissions db (VStr kind) q = Ret 0).
Proof.
  split; [apply calculateTransportEmissions_numeric|].
  split; [apply calculateAccommodationEmissions_numeric|].
  split; [apply calculateActivityEmissions_numeric|].
  intros Hfail.
  split; [now apply calculateTransportEmissions_failing|].
  split; [now apply calculateAccommodationEmissions_failing|].
  now apply calculateActivityEmissions_failing.
Qed.

Lemma calculators_always_answer_witness :
  calculateTransportEmissions (fun _ _ => QueryError) (VStr "car") (VNum 10)
  = Ret 0 /\
  calculateAccommodationEmissions (fun _ _ => QueryError) (VStr "car")
    (VNum 10) = Ret 0 /\
  calculateActivityEmissions (fun _ _ => QueryError) (VStr "car") 10 = Ret 0.
Proof.
  apply (proj2 (proj2 (proj2
           (calculators_always_answer (fun _ _ => QueryError) "car" 10)))).
  intros category subCategory. reflexivity.
Defined.

(** ** Trips from priced days *)

Lemma priced_number (d : value) :
  priced d = true ->
  exists q, Js.or (View.field d "daily_cost") (VNum 0) = VNum q.
Proof. unfold priced. destruct (Js.or _ _); try discriminate; eauto. Qed.

Lemma priced_all (days : list value) :
  forallb priced days = true -> Forall (fun d => priced d = true) days.
Proof.
  induction days as [|d days IH]; [constructor|].
  cbn [forallb]. intros H. apply andb_true_iff in H as (Hd & H).
  constructor; [exact Hd|now apply IH].
Qed.

Lemma foldM_addDayCost_priced (days : list value) :
  Forall Shape.day days ->
  Forall (fun d => priced d = true) days ->
  forall total, exists r, foldM addDayCost days total = Ret r.
Proof.
  induction 1 as [|d days Hd _ IH]; intros Hp total; [eexists; reflexivity|].
  apply Forall_cons in Hp as (Hpd & Hp).
  destruct (addDayCost_normal total d Hd) as (total' & _ & Hstep).
  destruct (priced_number d Hpd) as (q & Hq).
  cbn [foldM]. rewrite Hstep, Hq. unfold Js.add.
  cbn [Js.num mbind outcome_bind]. now apply IH.
Qed.

Lemma calculateTotalCost_priced (o : gmap string value) :
  Shape.itinerary o ->
  Forall (fun d => priced d = true) (View.daysOf o) ->
  exists c, calculateTotalCost (VObj o) = Ret c.
Proof.
  intros (days & Hdays & Hnormal) Hp.
  unfold View.daysOf in Hp. rewrite Hdays in Hp.
  unfold calculateTotalCost, Js.get. rewrite Hdays.
  cbn [default from_option id mbind outcome_bind].
  destruct (foldM_addDayCost_priced days Hnormal Hp 0) as (r & ->).
  cbn [mbind outcome_bind]. eauto.
Qed.

(** The trip of an itinerary with priced days. *)
Lemma generateTrip_priced (db : FactorStore) (geo : GeoReply) (ai : AiReply)
  (tripData : TripRequest) (o : gmap string value) :
  generateItinerary ai tripData = Ret o ->
  Forall (fun d => priced d = true) (View.daysOf o) ->
  exists trip kg,
    generateTrip db geo ai tripData = Ret trip /\
    accommodationOf db (accommodation_preference tripData)
      (inject_Z (numDaysOf tripData)) = Ret kg /\
    total_carbon_kg trip = JsMath.round2 kg /\
    green_score trip =
      calculateGreenScore (JsMath.round2 kg) (inject_Z (numDaysOf tripData)) /\
    total_cost trip = JsMath.round2 (dailyCosts (View.daysOf o)) /\
    View.daysOf (itinerary trip) = View.daysOf o.
Proof.
  intros Ho Hp.
  pose proof (generateItinerary_shape _ _ _ Ho) as Hshape.
  set (l := match geo with
            | Located l => l
            | GeocodeFailure =>
                {| formatted_address := VStr (destination tripData);
                   latitude := VNum 0; longitude := VNum 0;
                   place_id := VNull |}
            end).
  assert (Hsh : Shape.itinerary (enhanceItineraryWithPlaceData o l))
    by (apply shape_insert; [discriminate | exact Hshape]).
  destruct (calculateTripEmissions_normal db
              (accommodation_preference tripData)
              (inject_Z (numDaysOf tripData)) _ Hsh) as (kg & Hkg & Hcalc).
  destruct (calculateTotalCost_priced o Hshape Hp) as (c & Hc).
  pose proof (calculateTotalCost_normal o c Hshape Hc) as Hcv.
  assert (Hc' : calculateTotalCost
                  (VObj (enhanceItineraryWithPlaceData o l)) = Ret c)
    by now rewrite calculateTotalCost_relocated.
  eexists. exists kg.
  split; [exact (generateTrip_ret db geo ai tripData o _ c Ho Hcalc Hc')|].
  cbn [total_carbon_kg green_score total_cost itinerary total].
  split; [exact Hkg|]. split; [reflexivity|]. split; [reflexivity|].
  split; [exact Hcv|].
  unfold View.daysOf, enhanceItineraryWithPlaceData.
  now rewrite !lookup_insert_ne by discriminate.
Qed.

(** Once the drafting stage has returned an itinerary whose days are
    priced (each daily cost a number, or a value that counts as none),
    the pipeline returns a trip with the days of that itinerary,
    whatever the store and the geocoder answer.  A store whose every
    query fails costs the trip its emissions, not its existence: the
    total is 0 and so is the green score. *)
Theorem generation_absorbs_failures (db : FactorStore) (geo : GeoReply)
  (ai : AiReply) (tripData : TripRequest) (o : gmap string value) :
  generateItinerary ai tripData = Ret o ->
  Forall (fun d => priced d = true) (View.daysOf o) ->
  exists trip,
    generateTrip db geo ai tripData = Ret trip /\
    View.daysOf (itinerary trip) = View.daysOf o /\
    ((forall category subCategory, db category subCategory = QueryError) ->
     total_carbon_kg trip == 0 /\ green_score trip = 0%Z).
Proof.
  intros Ho Hp.
  destruct (generateTrip_priced db geo ai tripData o Ho Hp)
    as (trip & kg & Hret & Hkg & Htot & Hgs & _ & Hdays).
  exists trip. split; [exact Hret|]. split; [exact Hdays|].
  intros Hfail.
  assert (Hzero : kg = 0).
  { unfold accommodationOf in Hkg.
    destruct (Js.truthy _ && Js.truthy _).
    - rewrite calculateAccommodationEmissions_failing in Hkg by exact Hfail.
      now injection Hkg as <-.
    - now injection Hkg as <-. }
  subst kg. rewrite Htot, Hgs. split; reflexivity.
Qed.

Lemma generation_absorbs_failures_witness :
  exists o trip,
    generateItinerary (Draft Sample.draft) Sample.dayTrip = Ret o /\
    generateTrip (fun _ _ => QueryError) GeocodeFailure (Draft Sample.draft)
      Sample.dayTrip = Ret trip /\
    View.daysOf (itinerary trip) = View.daysOf o /\
    total_carbon_kg trip == 0 /\ green_score trip = 0%Z.
Proof.
  destruct (returns_checked
              (generateItinerary (Draft Sample.draft) Sample.dayTrip)
              (fun o => forallb priced (View.daysOf o)))
    as (o & Ho & Hp); [vm_compute; reflexivity|].
  destruct (generation_absorbs_failures (fun _ _ => QueryError)
              GeocodeFailure (Draft Sample.draft) Sample.dayTrip o Ho
              (priced_all _ Hp)) as (trip & Hret & Hdays & Hfail).
  exists o, trip. split; [exact Ho|]. split; [exact Hret|].
  split; [exact Hdays|]. apply Hfail. intros category subCategory. reflexivity.
Defined.

(** For an itinerary with priced days, the total cost of the generated
    trip is the rounded sum of the daily costs of its days: whatever the
    activities are estimated at, none of them adds to it. *)
Theorem total_cost_is_daily_costs (db : FactorStore) (geo : GeoReply)
  (ai : AiReply) (tripData : TripRequest) (o : gmap string value) :
  generateItinerary ai tripData = Ret o ->
  Forall (fun d => priced d = true) (View.daysOf o) ->
  exists trip,
    generateTrip db geo ai tripData = Ret trip /\
    total_cost trip =
      JsMath.round2 (dailyCosts (View.daysOf (itinerary trip))).
Proof.
  intros Ho Hp.
  destruct (generateTrip_priced db geo ai tripData o Ho Hp)
    as (trip & kg & Hret & _ & _ & _ & Hcost & Hdays).
  exists trip. split; [exact Hret|]. now rewrite Hdays.
Qed.

Lemma total_cost_is_daily_costs_witness :
  exists o trip,
    generateItinerary (Draft Sample.draft) Sample.dayTrip = Ret o /\
    generateTrip seededFactors GeocodeFailure (Draft Sample.draft)
      Sample.dayTrip = Ret trip /\
    total_cost trip =
      JsMath.round2 (dailyCosts (View.daysOf (itinerary trip))).
Proof.
  destruct (returns_checked
              (generateItinerary (Draft Sample.draft) Sample.dayTrip)
              (fun o => forallb priced (View.daysOf o)))
    as (o & Ho & Hp); [vm_compute; reflexivity|].
  destruct (total_cost_is_daily_costs seededFactors GeocodeFailure
              (Draft Sample.draft) Sample.dayTrip o Ho (priced_all _ Hp))
    as (trip & Hret & Hcost).
  exists o, trip. split; [exact Ho|]. split; [exact Hret|exact Hcost].
Defined.

(** The sample draft, one day at 60 with a museum visit at 8, costs 60. *)
Example draft_costs_its_day :
  exists trip,
    generateTrip seededFactors GeocodeFailure (Draft Sample.draft)
      Sample.dayTrip = Ret trip /\
    total_cost trip == 60.
Proof.
  destruct (returns_checked
              (generateTrip seededFactors GeocodeFailure (Draft Sample.draft)
                 Sample.dayTrip)
              (fun trip => Qeq_bool (total_cost trip) 60))
    as (trip & Hret & Hcost); [vm_compute; reflexivity|].
  exists trip. split; [exact Hret|]. now apply Qeq_bool_iff.
Qed.

End Absorbed.
